(** * Kontext: the context-engineering pipeline

    A shallow embedding of the four engines of the repository
    ([ContextAnalyzer], [ContextMemory], [ContextSynthesizer] and
    [PromptEngineer]) and the properties of their scoring, retention,
    ranking and template code.

    Conventions of the embedding.
    - A JavaScript [number] that carries a score, a weight or a ratio is
      an exact rational ([Q]); rounding of IEEE doubles is not modelled.
      Results on scores are stated up to [Qeq].  Counts ([length],
      [maxResults], [maxHistorySize]) are [nat]; epoch timestamps and
      durations in milliseconds are [Z].
    - A JavaScript string is a [string]: a sequence of code units below
      256.  [toLowerCase] and the character classes of the regular
      expressions are the ECMAScript ones restricted to that range.
    - [Date.now()], [generateId()] and [Math.random()] are inputs of the
      functions that call them.
    - A class instance is a record of its fields; a method that assigns
      to a field returns the new instance. *)

From Stdlib Require Import ZArith QArith Qminmax Bool List String Ascii.
From Stdlib Require Import Lia Lqa Permutation Sorting.Sorted DecimalString.
Import ListNotations.

#[local] Open Scope string_scope.
#[local] Open Scope Q_scope.

(** ** ECMAScript primitives used by the engines *)

Module Js.

(** [Array.prototype.slice(start, end)]: a negative index counts from the
    end, both are clamped to [0, length]; [stop = None] is a call with
    one argument. *)
Definition slice {A : Type} (l : list A) (start : Z) (stop : option Z) : list A :=
  let len := Z.of_nat (List.length l) in
  let relative (i : Z) := if (i <? 0)%Z then Z.max (len + i) 0 else Z.min i len in
  let k := relative start in
  let final := match stop with Some e => relative e | None => len end in
  firstn (Z.to_nat (final - k)) (skipn (Z.to_nat k) l).

(** [Array.prototype.sort(comparefn)]: the sort is stable, and
    [comparefn a b <= 0] keeps [a] before [b].  Insertion from the right
    puts an element in front of the first element it does not have to
    follow, so equal elements keep their order. *)
Fixpoint sort_insert {A : Type} (comparefn : A -> A -> Q) (x : A) (l : list A) : list A :=
  match l with
  | [] => [x]
  | y :: t =>
      if Qle_bool (comparefn x y) 0 then x :: y :: t
      else y :: sort_insert comparefn x t
  end.

Definition sort {A : Type} (comparefn : A -> A -> Q) (l : list A) : list A :=
  fold_right (sort_insert comparefn) [] l.

(** [Array.prototype.push] of one element. *)
Definition push {A : Type} (l : list A) (x : A) : list A := (l ++ [x])%list.

(** Truthiness of a string: the empty string is falsy. *)
Definition truthy (s : string) : bool := negb (s =? "")%string.

(** Truthiness of an optional string field ([undefined] is falsy). *)
Definition truthy_opt (o : option string) : bool :=
  match o with Some s => truthy s | None => false end.

Definition code (c : ascii) : nat := nat_of_ascii c.

(** [String.prototype.toLowerCase] on code units below 256: A-Z and the
    Latin-1 capitals (U+00C0-U+00DE except the multiplication sign). *)
Definition lower_char (c : ascii) : ascii :=
  let n := code c in
  if ((65 <=? n) && (n <=? 90))%nat then ascii_of_nat (n + 32)
  else if ((192 <=? n) && (n <=? 222) && negb (n =? 215))%nat then ascii_of_nat (n + 32)
  else c.

Fixpoint toLowerCase (s : string) : string :=
  match s with
  | EmptyString => EmptyString
  | String c r => String (lower_char c) (toLowerCase r)
  end.

(** [s.includes(needle)]. *)
Fixpoint includes (s needle : string) : bool :=
  if prefix needle s then true
  else match s with
       | EmptyString => false
       | String _ r => includes r needle
       end.

(** [s.substring(0, n)]. *)
Definition substring0 (n : nat) (s : string) : string := substring 0 n s.

Fixpoint drop (n : nat) (s : string) : string :=
  match n, s with
  | O, _ => s
  | S k, EmptyString => EmptyString
  | S k, String _ r => drop k r
  end.

(** [parts.join(sep)]. *)
Definition join (sep : string) (parts : list string) : string := String.concat sep parts.

(** [String(n)] for a non-negative integer. *)
Definition of_nat (n : nat) : string := NilZero.string_of_uint (Nat.to_uint n).

Definition of_Z (z : Z) : string := NilZero.string_of_int (Z.to_int z).

(** [GetSubstitution] for a match without capture groups: in the
    replacement text [$$] is a dollar sign, [$&] the matched text,
    [$`] the text before the match, [$'] the text after it; any
    other character stands for itself. *)
Fixpoint getSubstitution (matched before after template : string) : string :=
  match template with
  | EmptyString => EmptyString
  | String "$" (String "$" r) => String "$" (getSubstitution matched before after r)
  | String "$" (String "&" r) => matched ++ getSubstitution matched before after r
  | String "$" (String "`" r) => before ++ getSubstitution matched before after r
  | String "$" (String "'" r) => after ++ getSubstitution matched before after r
  | String c r => String c (getSubstitution matched before after r)
  end.

(** [s.replace(new RegExp(pattern, 'g'), replacement)] for a non-empty
    pattern that matches literally (the placeholders [{{KEY}}]): matches
    are found left to right without overlap in the original string.
    [before] is the text already scanned, [skip] the number of code
    units of the current match still to pass over. *)
Fixpoint replace_from (pattern replacement before : string) (skip : nat) (s : string) : string :=
  match s with
  | EmptyString => EmptyString
  | String c r =>
      match skip with
      | S k => replace_from pattern replacement (before ++ String c EmptyString) k r
      | O =>
          if prefix pattern s then
            getSubstitution pattern before (drop (String.length pattern) s) replacement
              ++ replace_from pattern replacement (before ++ String c EmptyString)
                   (String.length pattern - 1) r
          else String c (replace_from pattern replacement (before ++ String c EmptyString) 0 r)
      end
  end.

Definition replaceAll (s pattern replacement : string) : string :=
  replace_from pattern replacement EmptyString 0 s.

(** The class [\s] and [\w] of a regular expression without the unicode
    flag, below 256. *)
Definition isSpace (c : ascii) : bool :=
  let n := code c in
  (((9 <=? n) && (n <=? 13)) || (n =? 32) || (n =? 160))%nat.

Definition isWord (c : ascii) : bool :=
  let n := code c in
  (((48 <=? n) && (n <=? 57)) || ((65 <=? n) && (n <=? 90))
   || ((97 <=? n) && (n <=? 122)) || (n =? 95))%nat.

(** An insertion-ordered [Map]: [set] on a present key overwrites the
    value in place, on a new key appends the entry. *)
Section Map.
Context {K V : Type} (eqb : K -> K -> bool).

Fixpoint get (m : list (K * V)) (k : K) : option V :=
  match m with
  | [] => None
  | (k', v) :: r => if eqb k k' then Some v else get r k
  end.

Definition has (m : list (K * V)) (k : K) : bool :=
  match get m k with Some _ => true | None => false end.

Fixpoint set (m : list (K * V)) (k : K) (v : V) : list (K * V) :=
  match m with
  | [] => [(k, v)]
  | (k', v') :: r => if eqb k k' then (k', v) :: r else (k', v') :: set r k v
  end.

End Map.

End Js.

(** ** The data model ([types/context.ts])

    Each interface is a record in a module of its name; a string-literal
    union is an inductive type with the string it stands for. *)

Module EnvironmentType.
Inductive t := ide | browser | design | document | terminal | mixed | unknown.

Definition to_string (e : t) : string :=
  match e with
  | ide => "ide" | browser => "browser" | design => "design"
  | document => "document" | terminal => "terminal" | mixed => "mixed"
  | unknown => "unknown"
  end.

(** [===] on the two strings. *)
Definition eqb (a b : t) : bool := (to_string a =? to_string b)%string.
End EnvironmentType.

Module ActivityType.
Inductive t :=
  coding | writing | research | design | communication | learning | debugging | idle.

Definition to_string (a : t) : string :=
  match a with
  | coding => "coding" | writing => "writing" | research => "research"
  | design => "design" | communication => "communication"
  | learning => "learning" | debugging => "debugging" | idle => "idle"
  end.

Definition eqb (a b : t) : bool := (to_string a =? to_string b)%string.
End ActivityType.

Module ContextSource.
Inductive t :=
  screenshot | clipboard | window_title | application_state | user_input | temporal.
End ContextSource.

Module UserAction.
(** [details: any] is never read and is left out. *)
Record t := { type : string; timestamp : Z; context : string }.
End UserAction.

Module ApplicationContext.
(** The fields the engines assign or read; the other optional fields of
    the interface are never set. *)
Record t := {
  activeApplication : string;
  windowTitle : string;
  selectedText : option string;
  recentActions : list UserAction.t
}.
End ApplicationContext.

Module ExtractedText.
Record t := { content : string; semanticType : string }.
End ExtractedText.

Module CodeSnippet.
Record t := {
  language : string; content : string; context : string;
  complexity : Q; purpose : string
}.
End CodeSnippet.

Module UIElement.
Record t := { type : string; content : string; state : string; interactive : bool }.
End UIElement.

Module ContentAnalysis.
(** The three arrays the engines measure; the media, structural and
    semantic-tag arrays are produced empty and never read. *)
Record t := {
  textContent : list ExtractedText.t;
  codeSnippets : list CodeSnippet.t;
  uiElements : list UIElement.t
}.
End ContentAnalysis.

Module SuggestedAction.
Record t := {
  action : string; priority : Q; reasoning : string;
  prerequisites : list string; expectedOutcome : string
}.
End SuggestedAction.

Module IntentAnalysis.
Inductive urgency := low | medium | high | urgent.
Inductive complexity := simple | moderate | complex | expert.
Record t := {
  primaryIntent : string;
  secondaryIntents : list string;
  urgencyLevel : urgency;
  complexityLevel : complexity;
  suggestedActions : list SuggestedAction.t;
  contextDependencies : list string
}.
End IntentAnalysis.

Module ScreenContext.
Record t := {
  id : string;
  timestamp : Z;
  environment : EnvironmentType.t;
  activity : ActivityType.t;
  confidence : Q;
  applicationDetails : ApplicationContext.t;
  visibleContent : ContentAnalysis.t;
  userIntent : IntentAnalysis.t;
  contextSources : list ContextSource.t
}.
End ScreenContext.

Module ContextOutcome.
Record t := { success : bool; metric : string; value : Q; feedback : string }.
End ContextOutcome.

Module ContextSnapshot.
Record t := {
  context : ScreenContext.t;
  userActions : list UserAction.t;
  outcomes : list ContextOutcome.t;
  duration : Z
}.
End ContextSnapshot.

Module ContextTrigger.
Record t := { type : string; condition : string; weight : Q }.
End ContextTrigger.

Module PatternOutcome.
Record t := { pattern : string; frequency : nat; successRate : Q; averageValue : Q }.
End PatternOutcome.

Module ContextPattern.
Record t := {
  id : string;
  name : string;
  frequency : nat;
  contexts : list ScreenContext.t;
  triggers : list ContextTrigger.t;
  outcomes : list PatternOutcome.t;
  confidence : Q
}.
End ContextPattern.

Module ContextMemoryConfig.
(** [compressionStrategy] is declared and never read. *)
Record t := {
  maxHistorySize : nat;
  patternDetectionThreshold : nat;
  contextRetentionPeriod : Z
}.
End ContextMemoryConfig.

Module Tool.
Record t := {
  name : string; version : string;
  capabilities : list string; integrations : list string
}.
End Tool.

Module Convention.
Record t := { type : string; description : string; importance : Q; examples : list string }.
End Convention.

Module DomainPattern.
Record t := { name : string; description : string; frequency : Q; examples : list string }.
End DomainPattern.

Module Resource.
Record t := {
  name : string; type : string; url : option string;
  description : string; relevance : Q
}.
End Resource.

Module DomainContext.
(** [expertise] is one of beginner, intermediate, advanced, expert; it
    is only ever copied into text, so it is kept as its string. *)
Record t := {
  domain : string;
  expertise : string;
  tools : list Tool.t;
  conventions : list Convention.t;
  patterns : list DomainPattern.t;
  resources : list Resource.t
}.
End DomainContext.

Module ContextQualityMetrics.
Record t := {
  accuracy : Q;
  completeness : Q;
  relevance : Q;
  timeliness : Q;
  actionability : Q;
  overallScore : Q
}.
End ContextQualityMetrics.

Module Action.
Record t := {
  id : string; type : string; description : string;
  priority : Q; dependencies : list string; estimatedImpact : Q
}.
End Action.

Module EngineeredContext.
(** [synthesisMetadata] (processing time and fixed bookkeeping) is left
    out. *)
Record t := {
  id : string;
  timestamp : Z;
  situationalContext : string;
  relevantHistory : list ContextSnapshot.t;
  domainSpecificInfo : DomainContext.t;
  suggestedActions : list Action.t;
  contextQuality : ContextQualityMetrics.t
}.
End EngineeredContext.

(** ** Regular expressions of the content heuristics

    The heuristics only call [RegExp.prototype.test] on expressions
    without anchors, groups or back-references, so a test asks whether
    some substring is in the language of the expression.  Membership is
    decided with derivatives. *)

Module Regex.

Inductive t :=
| Empty
| Eps
| Class (p : ascii -> bool)
| Seq (a b : t)
| Alt (a b : t)
| Star (a : t).

Definition Chr (c : ascii) : t := Class (Ascii.eqb c).
Definition Plus (a : t) : t := Seq a (Star a).
Definition Opt (a : t) : t := Alt a Eps.
Definition space : t := Class Js.isSpace.
Definition word : t := Class Js.isWord.

(** [.] matches every code unit but a line terminator. *)
Definition dot : t :=
  Class (fun c => negb ((Js.code c =? 10) || (Js.code c =? 13))%nat).

Fixpoint lit (s : string) : t :=
  match s with
  | EmptyString => Eps
  | String c r => Seq (Chr c) (lit r)
  end.

Fixpoint seq (l : list t) : t :=
  match l with
  | [] => Eps
  | a :: r => Seq a (seq r)
  end.

Fixpoint nullable (r : t) : bool :=
  match r with
  | Empty => false
  | Eps => true
  | Class _ => false
  | Seq a b => nullable a && nullable b
  | Alt a b => nullable a || nullable b
  | Star _ => true
  end.

Fixpoint deriv (c : ascii) (r : t) : t :=
  match r with
  | Empty => Empty
  | Eps => Empty
  | Class p => if p c then Eps else Empty
  | Seq a b =>
      if nullable a then Alt (Seq (deriv c a) b) (deriv c b)
      else Seq (deriv c a) b
  | Alt a b => Alt (deriv c a) (deriv c b)
  | Star a => Seq (deriv c a) (Star a)
  end.

(** Some prefix of [s] is in the language of [r]. *)
Fixpoint matches_prefix (r : t) (s : string) : bool :=
  nullable r ||
  match s with
  | EmptyString => false
  | String c s' => matches_prefix (deriv c r) s'
  end.

(** [r.test(s)]. *)
Fixpoint test (r : t) (s : string) : bool :=
  matches_prefix r s ||
  match s with
  | EmptyString => false
  | String _ s' => test r s'
  end.

End Regex.

(** ** Context Analyzer ([engines/ContextAnalyzer.ts]) *)

Module ContextAnalyzer.

(** The optional auxiliary record of [analyzeScreenContext]. *)
Module AdditionalData.
Record t := {
  windowTitle : option string;
  activeApplication : option string;
  clipboardContent : option string;
  selectedText : option string
}.
End AdditionalData.

(** The result of a categorization: [{ type, confidence, indicators }]. *)
Record Categorized (A : Type) := {
  type : A;
  confidence : Q;
  indicators : list string
}.
Arguments type {A}.
Arguments confidence {A}.
Arguments indicators {A}.

(** The instance: [config] is never read by the analysis, [activeContext]
    is the last context produced. *)
Record t := { activeContext : option ScreenContext.t }.

Definition ideIndicators : list string :=
  ["visual studio"; "vscode"; "intellij"; "pycharm"; "webstorm";
   "sublime"; "atom"; "vim"; "emacs"; "code"; "jetbrains"].

Definition browserIndicators : list string :=
  ["chrome"; "firefox"; "safari"; "edge"; "opera"; "browser"].

Definition designIndicators : list string :=
  ["figma"; "sketch"; "photoshop"; "illustrator"; "indesign";
   "xd"; "canva"; "affinity"].

Definition documentIndicators : list string :=
  ["word"; "docs"; "pages"; "writer"; "document"; "notion";
   "obsidian"; "typora"; "markdown"].

Definition terminalIndicators : list string :=
  ["terminal"; "iterm"; "cmd"; "powershell"; "bash"; "zsh";
   "command"; "console"].

(** [indicators.some(i => title.includes(i) || app.includes(i))]. *)
Definition someIndicator (indicators : list string) (title app : string) : bool :=
  existsb (fun indicator => Js.includes title indicator || Js.includes app indicator)
    indicators.

Definition isIdeEnvironment : string -> string -> bool := someIndicator ideIndicators.
Definition isBrowserEnvironment : string -> string -> bool := someIndicator browserIndicators.
Definition isDesignEnvironment : string -> string -> bool := someIndicator designIndicators.
Definition isDocumentEnvironment : string -> string -> bool := someIndicator documentIndicators.
Definition isTerminalEnvironment : string -> string -> bool := someIndicator terminalIndicators.

(** [o?.toLowerCase() || ''] on an optional field. *)
Definition lowered (o : option string) : string :=
  match o with Some s => Js.toLowerCase s | None => "" end.

(** [additionalData?.field] on the optional record. *)
Definition field (f : AdditionalData.t -> option string)
  (additionalData : option AdditionalData.t) : option string :=
  match additionalData with Some d => f d | None => None end.

Definition categorizeEnvironment (screenshots : list string)
  (additionalData : option AdditionalData.t) : Categorized EnvironmentType.t :=
  let confidence := 0 in
  let unknown :=
    {| type := EnvironmentType.unknown; confidence := 0.1;
       indicators := ["Unable to determine environment"] |} in
  if Js.truthy_opt (field AdditionalData.windowTitle additionalData)
     || Js.truthy_opt (field AdditionalData.activeApplication additionalData)
  then
    let title := lowered (field AdditionalData.windowTitle additionalData) in
    let app := lowered (field AdditionalData.activeApplication additionalData) in
    if isIdeEnvironment title app then
      {| type := EnvironmentType.ide; confidence := confidence + 0.4;
         indicators := ["IDE application detected"] |}
    else if isBrowserEnvironment title app then
      {| type := EnvironmentType.browser; confidence := confidence + 0.3;
         indicators := ["Browser application detected"] |}
    else if isDesignEnvironment title app then
      {| type := EnvironmentType.design; confidence := confidence + 0.4;
         indicators := ["Design application detected"] |}
    else if isDocumentEnvironment title app then
      {| type := EnvironmentType.document; confidence := confidence + 0.3;
         indicators := ["Document application detected"] |}
    else if isTerminalEnvironment title app then
      {| type := EnvironmentType.terminal; confidence := confidence + 0.4;
         indicators := ["Terminal application detected"] |}
    else unknown
  else unknown.

(** The eight expressions of [isCodeContent]. *)
Definition codeIndicators : list Regex.t :=
  let s := Regex.space in
  let w := Regex.word in
  [ Regex.seq [Regex.lit "function"; Regex.Plus s; Regex.Plus w; Regex.Star s; Regex.Chr "("];
    Regex.seq [Regex.lit "class"; Regex.Plus s; Regex.Plus w];
    Regex.seq [Regex.lit "import"; Regex.Plus s; Regex.Star Regex.dot; Regex.lit "from"];
    Regex.seq [Regex.lit "const"; Regex.Plus s; Regex.Plus w; Regex.Star s; Regex.Chr "="];
    Regex.seq [Regex.lit "def"; Regex.Plus s; Regex.Plus w; Regex.Star s; Regex.Chr "("];
    Regex.seq [Regex.lit "public"; Regex.Plus s; Regex.lit "class"];
    Regex.seq [Regex.Chr "<"; Regex.Opt (Regex.Chr "/"); Regex.Plus w; Regex.Chr ">"];
    Regex.seq [Regex.Chr "{"; Regex.Star s; Regex.Plus w; Regex.Chr ":"; Regex.Star s; Regex.Plus w] ].

Definition isCodeContent (text : string) : bool :=
  existsb (fun pattern => Regex.test pattern text) codeIndicators.

(** [text.split(/[.!?]+/)]: the pieces between the maximal runs of
    sentence marks, the last piece included.  [piece] is the piece being
    read, [inRun] tells that the previous code unit was a mark. *)
Definition isSentenceMark (c : ascii) : bool :=
  (Ascii.eqb c "." || Ascii.eqb c "!" || Ascii.eqb c "?")%bool.

Fixpoint splitSentences (piece : string) (inRun : bool) (text : string) : list string :=
  match text with
  | EmptyString => [piece]
  | String c r =>
      if isSentenceMark c then
        if inRun then splitSentences EmptyString true r
        else piece :: splitSentences EmptyString true r
      else splitSentences (piece ++ String c EmptyString) false r
  end.

(** [sentence.trim().split(/\s+/).length]: one more than the number of
    whitespace runs that have a word before and after them.  [seen]
    tells that a word was read, [gap] that whitespace followed it. *)
Fixpoint countWords (seen gap : bool) (sentence : string) : nat :=
  match sentence with
  | EmptyString => 1
  | String c r =>
      if Js.isSpace c then countWords seen seen r
      else if gap then S (countWords true false r)
      else countWords true false r
  end.

Definition isWritingContent (text : string) : bool :=
  let sentences := splitSentences EmptyString false text in
  let total := fold_left (fun acc sentence => (acc + countWords false false sentence)%nat)
                 sentences 0%nat in
  let avgWordsPerSentence :=
    inject_Z (Z.of_nat total) / inject_Z (Z.of_nat (List.length sentences)) in
  negb (Qle_bool avgWordsPerSentence 8) && negb (Qle_bool 30 avgWordsPerSentence).

Definition categorizeUserActivity (screenshots : list string)
  (additionalData : option AdditionalData.t) : Categorized ActivityType.t :=
  let confidence := 0 in
  let idle :=
    {| type := ActivityType.idle; confidence := 0.1;
       indicators := ["Activity unclear"] |} in
  if Js.truthy_opt (field AdditionalData.selectedText additionalData) then
    let selectedText := lowered (field AdditionalData.selectedText additionalData) in
    if isCodeContent selectedText then
      {| type := ActivityType.coding; confidence := confidence + 0.3;
         indicators := ["Code content selected"] |}
    else if isWritingContent selectedText then
      {| type := ActivityType.writing; confidence := confidence + 0.2;
         indicators := ["Writing content detected"] |}
    else idle
  else idle.

(** [field || fallback] on an optional string. *)
Definition orElse (o : option string) (fallback : string) : string :=
  match o with
  | Some s => if Js.truthy s then s else fallback
  | None => fallback
  end.

Definition extractApplicationContext (screenshots : list string)
  (additionalData : option AdditionalData.t) : ApplicationContext.t :=
  {| ApplicationContext.activeApplication :=
       orElse (field AdditionalData.activeApplication additionalData) "unknown";
     ApplicationContext.windowTitle :=
       orElse (field AdditionalData.windowTitle additionalData) "";
     ApplicationContext.selectedText := field AdditionalData.selectedText additionalData;
     ApplicationContext.recentActions := [] |}.

Definition analyzeContent (screenshots : list string) : ContentAnalysis.t :=
  {| ContentAnalysis.textContent := [];
     ContentAnalysis.codeSnippets := [];
     ContentAnalysis.uiElements := [] |}.

Definition analyzeUserIntent (screenshots : list string)
  (additionalData : option AdditionalData.t) : IntentAnalysis.t :=
  let selected := field AdditionalData.selectedText additionalData in
  let suggestedActions :=
    if Js.truthy_opt selected && isCodeContent (orElse selected "") then
      [ {| SuggestedAction.action := "analyze-code";
           SuggestedAction.priority := 1;
           SuggestedAction.reasoning := "Code content detected in selection";
           SuggestedAction.prerequisites := [];
           SuggestedAction.expectedOutcome := "Code analysis and suggestions" |} ]
    else [] in
  {| IntentAnalysis.primaryIntent := "unknown";
     IntentAnalysis.secondaryIntents := [];
     IntentAnalysis.urgencyLevel := IntentAnalysis.medium;
     IntentAnalysis.complexityLevel := IntentAnalysis.moderate;
     IntentAnalysis.suggestedActions := suggestedActions;
     IntentAnalysis.contextDependencies := [] |}.

(** The five sub-results handed to [calculateContextConfidence]. *)
Record AnalysisResults := {
  environmentType : Categorized EnvironmentType.t;
  activityType : Categorized ActivityType.t;
  applicationContext : ApplicationContext.t;
  contentAnalysis : ContentAnalysis.t;
  intentAnalysis : IntentAnalysis.t
}.

(** The weight table the function declares. *)
Record Weights := {
  environment : Q; activity : Q; application : Q; content : Q; intent : Q
}.

Definition calculateContextConfidence (analysisResults : AnalysisResults) : Q :=
  let weights :=
    {| environment := 0.3; activity := 0.2; application := 0.2;
       content := 0.2; intent := 0.1 |} in
  0.7.

Definition determineContextSources (screenshots : list string)
  (additionalData : option AdditionalData.t) : list ContextSource.t :=
  [ContextSource.screenshot]
  ++ (if Js.truthy_opt (field AdditionalData.windowTitle additionalData)
      then [ContextSource.window_title] else [])
  ++ (if Js.truthy_opt (field AdditionalData.activeApplication additionalData)
      then [ContextSource.application_state] else [])
  ++ (if Js.truthy_opt (field AdditionalData.selectedText additionalData)
      then [ContextSource.user_input] else []).

(** [contextId] is the value of [generateId()], [now] the clock reading
    when the context is assembled.  No step raises an exception on these
    inputs, so the call always resolves; the instance keeps the context
    as its active one. *)
Definition analyzeScreenContext (self : t) (contextId : string) (now : Z)
  (screenshots : list string) (additionalData : option AdditionalData.t)
  : ScreenContext.t * t :=
  let environmentType := categorizeEnvironment screenshots additionalData in
  let activityType := categorizeUserActivity screenshots additionalData in
  let applicationContext := extractApplicationContext screenshots additionalData in
  let contentAnalysis := analyzeContent screenshots in
  let intentAnalysis := analyzeUserIntent screenshots additionalData in
  let confidence :=
    calculateContextConfidence
      {| environmentType := environmentType;
         activityType := activityType;
         applicationContext := applicationContext;
         contentAnalysis := contentAnalysis;
         intentAnalysis := intentAnalysis |} in
  let context :=
    {| ScreenContext.id := contextId;
       ScreenContext.timestamp := now;
       ScreenContext.environment := type environmentType;
       ScreenContext.activity := type activityType;
       ScreenContext.confidence := confidence;
       ScreenContext.applicationDetails := applicationContext;
       ScreenContext.visibleContent := contentAnalysis;
       ScreenContext.userIntent := intentAnalysis;
       ScreenContext.contextSources := determineContextSources screenshots additionalData |} in
  (context, {| activeContext := Some context |}).

End ContextAnalyzer.

(** ** Context Memory ([engines/ContextMemory.ts]) *)

Module ContextMemory.

(** The instance.  [contextPatterns] is the [Map] from pattern id to
    pattern, in insertion order.  The cleanup timer only calls
    [cleanup]; it is not part of the state. *)
Record t := {
  config : ContextMemoryConfig.t;
  contextHistory : list ContextSnapshot.t;
  contextPatterns : list (string * ContextPattern.t)
}.

Definition new (config : ContextMemoryConfig.t) : t :=
  {| config := config; contextHistory := []; contextPatterns := [] |}.

Definition calculateRelevanceScore (current historical : ScreenContext.t) : Q :=
  let score := 0 in
  let score :=
    if EnvironmentType.eqb (ScreenContext.environment current)
         (ScreenContext.environment historical)
    then score + 0.3 else score in
  let score :=
    if ActivityType.eqb (ScreenContext.activity current) (ScreenContext.activity historical)
    then score + 0.25 else score in
  let score :=
    if (ApplicationContext.activeApplication (ScreenContext.applicationDetails current)
        =? ApplicationContext.activeApplication (ScreenContext.applicationDetails historical))%string
    then score + 0.2 else score in
  let timeDiff := (ScreenContext.timestamp current - ScreenContext.timestamp historical)%Z in
  let maxTime := (24 * 60 * 60 * 1000)%Z in
  let timeScore := Qmax 0 (1 - inject_Z timeDiff / inject_Z maxTime) in
  let score := score + timeScore * 0.15 in
  let score := score + ScreenContext.confidence historical * 0.1 in
  Qmin 1 score.

Definition identifyTriggers (snapshot : ContextSnapshot.t) : list ContextTrigger.t :=
  let context := ContextSnapshot.context snapshot in
  let app := ApplicationContext.activeApplication (ScreenContext.applicationDetails context) in
  (if Js.truthy app
   then [ {| ContextTrigger.type := "application";
             ContextTrigger.condition := "app=" ++ app;
             ContextTrigger.weight := 0.8 |} ]
   else [])
  ++ [ {| ContextTrigger.type := "environment";
          ContextTrigger.condition :=
            "env=" ++ EnvironmentType.to_string (ScreenContext.environment context);
          ContextTrigger.weight := 0.6 |} ].

(** The combined-key pattern of a new snapshot: created on the first
    occurrence, updated in place afterwards. *)
Definition updatePatterns (self : t) (snapshot : ContextSnapshot.t) : t :=
  let context := ContextSnapshot.context snapshot in
  let env := EnvironmentType.to_string (ScreenContext.environment context) in
  let act := ActivityType.to_string (ScreenContext.activity context) in
  let patternKey := env ++ "-" ++ act in
  let patterns :=
    match Js.get String.eqb (contextPatterns self) patternKey with
    | None =>
        Js.set String.eqb (contextPatterns self) patternKey
          {| ContextPattern.id := patternKey;
             ContextPattern.name := env ++ " " ++ act ++ " pattern";
             ContextPattern.frequency := 1;
             ContextPattern.contexts := [context];
             ContextPattern.triggers := identifyTriggers snapshot;
             ContextPattern.outcomes := [];
             ContextPattern.confidence := 0.1 |}
    | Some existingPattern =>
        let frequency := (ContextPattern.frequency existingPattern + 1)%nat in
        Js.set String.eqb (contextPatterns self) patternKey
          {| ContextPattern.id := ContextPattern.id existingPattern;
             ContextPattern.name := ContextPattern.name existingPattern;
             ContextPattern.frequency := frequency;
             ContextPattern.contexts :=
               (ContextPattern.contexts existingPattern ++ [context])%list;
             ContextPattern.triggers := ContextPattern.triggers existingPattern;
             ContextPattern.outcomes := ContextPattern.outcomes existingPattern;
             ContextPattern.confidence := Qmin 1 (inject_Z (Z.of_nat frequency) / 10) |}
    end in
  {| config := config self;
     contextHistory := contextHistory self;
     contextPatterns := patterns |}.

Definition addContextSnapshot (self : t) (context : ScreenContext.t)
  (userActions : list UserAction.t) (outcomes : list ContextOutcome.t) (duration : Z) : t :=
  let snapshot :=
    {| ContextSnapshot.context := context;
       ContextSnapshot.userActions := userActions;
       ContextSnapshot.outcomes := outcomes;
       ContextSnapshot.duration := duration |} in
  let history := (contextHistory self ++ [snapshot])%list in
  let maxHistorySize := ContextMemoryConfig.maxHistorySize (config self) in
  let history :=
    if (maxHistorySize <? List.length history)%nat
    then Js.slice history (- Z.of_nat maxHistorySize) None
    else history in
  updatePatterns
    {| config := config self;
       contextHistory := history;
       contextPatterns := contextPatterns self |}
    snapshot.

(** A history entry with its score, as built by [getRelevantContext]. *)
Record Scored := { snapshot : ContextSnapshot.t; relevanceScore : Q }.

Definition byRelevanceDescending (a b : Scored) : Q := relevanceScore b - relevanceScore a.

Definition getRelevantContext (self : t) (currentContext : ScreenContext.t)
  (maxResults : nat) : list ContextSnapshot.t :=
  let others :=
    filter (fun s => negb (ScreenContext.id (ContextSnapshot.context s)
                           =? ScreenContext.id currentContext)%string)
      (contextHistory self) in
  let scored :=
    map (fun s =>
           {| snapshot := s;
              relevanceScore :=
                calculateRelevanceScore currentContext (ContextSnapshot.context s) |})
      others in
  map snapshot
    (Js.slice (Js.sort byRelevanceDescending scored) 0 (Some (Z.of_nat maxResults))).

(** The grouping loops: a [Map] from a key to the snapshots that have
    it, keys in order of first occurrence, snapshots in history order. *)
Section Grouping.
Context {K : Type} (eqb : K -> K -> bool) (key : ContextSnapshot.t -> K).

Definition addToGroup (groups : list (K * list ContextSnapshot.t))
  (s : ContextSnapshot.t) : list (K * list ContextSnapshot.t) :=
  let groups := if Js.has eqb groups (key s) then groups else Js.set eqb groups (key s) [] in
  match Js.get eqb groups (key s) with
  | Some members => Js.set eqb groups (key s) (members ++ [s])%list
  | None => groups
  end.

Definition groupBy (history : list ContextSnapshot.t) : list (K * list ContextSnapshot.t) :=
  fold_left addToGroup history [].

End Grouping.

Definition extractCommonTriggers (snapshots : list ContextSnapshot.t) : list ContextTrigger.t :=
  match snapshots with
  | first :: _ =>
      [ {| ContextTrigger.type := "environment";
           ContextTrigger.condition :=
             "environment="
             ++ EnvironmentType.to_string
                  (ScreenContext.environment (ContextSnapshot.context first));
           ContextTrigger.weight := 0.7 |} ]
  | [] => []
  end.

(** The running totals of one metric in [extractCommonOutcomes]. *)
Record Stats := { count : nat; successes : nat; totalValue : Q }.

Definition addOutcome (outcomeMap : list (string * Stats)) (outcome : ContextOutcome.t)
  : list (string * Stats) :=
  let metric := ContextOutcome.metric outcome in
  let outcomeMap :=
    if Js.has String.eqb outcomeMap metric then outcomeMap
    else Js.set String.eqb outcomeMap metric {| count := 0; successes := 0; totalValue := 0 |} in
  match Js.get String.eqb outcomeMap metric with
  | Some stats =>
      Js.set String.eqb outcomeMap metric
        {| count := count stats + 1;
           successes := if ContextOutcome.success outcome
                        then successes stats + 1 else successes stats;
           totalValue := totalValue stats + ContextOutcome.value outcome |}
  | None => outcomeMap
  end.

Definition extractCommonOutcomes (snapshots : list ContextSnapshot.t) : list PatternOutcome.t :=
  let outcomeMap :=
    fold_left (fun m s => fold_left addOutcome (ContextSnapshot.outcomes s) m) snapshots [] in
  map (fun '(metric, stats) =>
         {| PatternOutcome.pattern := metric;
            PatternOutcome.frequency := count stats;
            PatternOutcome.successRate :=
              inject_Z (Z.of_nat (successes stats)) / inject_Z (Z.of_nat (count stats));
            PatternOutcome.averageValue :=
              totalValue stats / inject_Z (Z.of_nat (count stats)) |})
    outcomeMap.

(** One pattern family: the groups that reach the detection threshold,
    in [Map] order.  [K] is the divisor of the confidence. *)
Definition meetsThreshold (self : t) (snapshots : list ContextSnapshot.t) : bool :=
  (ContextMemoryConfig.patternDetectionThreshold (config self) <=? List.length snapshots)%nat.

Definition frequencyConfidence (n : nat) (K : Q) : Q :=
  Qmin 1 (inject_Z (Z.of_nat n) / K).

Definition identifyEnvironmentPatterns (self : t) : list ContextPattern.t :=
  let environmentGroups :=
    groupBy EnvironmentType.eqb
      (fun s => ScreenContext.environment (ContextSnapshot.context s))
      (contextHistory self) in
  flat_map (fun '(environment, snapshots) =>
              if meetsThreshold self snapshots then
                [ {| ContextPattern.id := "env-" ++ EnvironmentType.to_string environment;
                     ContextPattern.name :=
                       EnvironmentType.to_string environment ++ " environment pattern";
                     ContextPattern.frequency := List.length snapshots;
                     ContextPattern.contexts := map ContextSnapshot.context snapshots;
                     ContextPattern.triggers := extractCommonTriggers snapshots;
                     ContextPattern.outcomes := extractCommonOutcomes snapshots;
                     ContextPattern.confidence :=
                       frequencyConfidence (List.length snapshots) 20 |} ]
              else [])
    environmentGroups.

Definition identifyActivityPatterns (self : t) : list ContextPattern.t :=
  let activityGroups :=
    groupBy ActivityType.eqb
      (fun s => ScreenContext.activity (ContextSnapshot.context s))
      (contextHistory self) in
  flat_map (fun '(activity, snapshots) =>
              if meetsThreshold self snapshots then
                [ {| ContextPattern.id := "activity-" ++ ActivityType.to_string activity;
                     ContextPattern.name :=
                       ActivityType.to_string activity ++ " activity pattern";
                     ContextPattern.frequency := List.length snapshots;
                     ContextPattern.contexts := map ContextSnapshot.context snapshots;
                     ContextPattern.triggers := extractCommonTriggers snapshots;
                     ContextPattern.outcomes := extractCommonOutcomes snapshots;
                     ContextPattern.confidence :=
                       frequencyConfidence (List.length snapshots) 15 |} ]
              else [])
    activityGroups.

(** The hour of a [Date]: a number between 0 and 23, or [NaN] for an
    invalid date ([None]).  As a [Map] key [NaN] is equal to itself
    (SameValueZero), and in a template literal it reads [NaN]. *)
Definition hour_eqb (a b : option Z) : bool :=
  match a, b with
  | Some x, Some y => (x =? y)%Z
  | None, None => true
  | _, _ => false
  end.

Definition hourText (hour : option Z) : string :=
  match hour with
  | Some h => Js.of_Z h
  | None => "NaN"
  end.

Section LocalTime.
(** [localOffset t] is the offset in milliseconds of local time from UTC
    at the instant [t]; it fixes [new Date(t).getHours()] for the time
    values of a valid date, those within 8.64e15 ms of the epoch.
    Beyond them [new Date(t)] is an invalid date and its hour is
    [NaN]. *)
Variable localOffset : Z -> Z.

Definition getHours (timestamp : Z) : option Z :=
  if (Z.abs timestamp <=? 8640000000000000)%Z
  then Some (((timestamp + localOffset timestamp) / 3600000) mod 24)%Z
  else None.

Definition identifyTemporalPatterns (self : t) : list ContextPattern.t :=
  let hourlyGroups :=
    groupBy hour_eqb
      (fun s => getHours (ScreenContext.timestamp (ContextSnapshot.context s)))
      (contextHistory self) in
  flat_map (fun '(hour, snapshots) =>
              if meetsThreshold self snapshots then
                [ {| ContextPattern.id := "time-" ++ hourText hour;
                     ContextPattern.name := hourText hour ++ ":00 temporal pattern";
                     ContextPattern.frequency := List.length snapshots;
                     ContextPattern.contexts := map ContextSnapshot.context snapshots;
                     ContextPattern.triggers :=
                       [ {| ContextTrigger.type := "temporal";
                            ContextTrigger.condition := "hour=" ++ hourText hour;
                            ContextTrigger.weight := 1 |} ];
                     ContextPattern.outcomes := extractCommonOutcomes snapshots;
                     ContextPattern.confidence :=
                       frequencyConfidence (List.length snapshots) 10 |} ]
              else [])
    hourlyGroups.

(** The patterns found, and the instance with each of them stored under
    its id. *)
Definition identifyPatterns (self : t) : list ContextPattern.t * t :=
  let patterns :=
    (identifyEnvironmentPatterns self
     ++ identifyActivityPatterns self
     ++ identifyTemporalPatterns self)%list in
  (patterns,
   {| config := config self;
      contextHistory := contextHistory self;
      contextPatterns :=
        fold_left (fun m pattern => Js.set String.eqb m (ContextPattern.id pattern) pattern)
          patterns (contextPatterns self) |}).

End LocalTime.

Definition getPatterns (self : t) : list ContextPattern.t := map snd (contextPatterns self).

Definition getPattern (self : t) (id : string) : option ContextPattern.t :=
  Js.get String.eqb (contextPatterns self) id.

(** [limit = None] is a call without argument; a limit of 0 is falsy. *)
Definition getContextHistory (self : t) (limit : option nat) : list ContextSnapshot.t :=
  match limit with
  | Some (S n) => Js.slice (contextHistory self) (- Z.of_nat (S n)) None
  | _ => contextHistory self
  end.

(** [now] is the reading of [Date.now()]. *)
Definition cleanup (self : t) (now : Z) : t :=
  let cutoffTime := (now - ContextMemoryConfig.contextRetentionPeriod (config self))%Z in
  {| config := config self;
     contextHistory :=
       filter (fun s => (cutoffTime <? ScreenContext.timestamp (ContextSnapshot.context s))%Z)
         (contextHistory self);
     contextPatterns := contextPatterns self |}.

End ContextMemory.

(** ** Context Synthesizer ([engines/ContextSynthesizer.ts]) *)

Module ContextSynthesizer.

(** The instance: the domain-knowledge table. *)
Record t := { domainKnowledge : list (string * DomainContext.t) }.

Definition developmentDomain : DomainContext.t :=
  {| DomainContext.domain := "development";
     DomainContext.expertise := "intermediate";
     DomainContext.tools :=
       [ {| Tool.name := "Git"; Tool.version := "2.0";
            Tool.capabilities := ["version-control"];
            Tool.integrations := ["github"; "gitlab"] |};
         {| Tool.name := "NPM"; Tool.version := "8.0";
            Tool.capabilities := ["package-management"];
            Tool.integrations := ["nodejs"] |} ];
     DomainContext.conventions :=
       [ {| Convention.type := "naming";
            Convention.description := "Use camelCase for variables";
            Convention.importance := 0.8;
            Convention.examples := ["userName"; "isActive"] |};
         {| Convention.type := "structure";
            Convention.description := "Organize code in modules";
            Convention.importance := 0.9;
            Convention.examples := ["src/"; "lib/"; "components/"] |} ];
     DomainContext.patterns :=
       [ {| DomainPattern.name := "MVC";
            DomainPattern.description := "Model-View-Controller pattern";
            DomainPattern.frequency := 0.7;
            DomainPattern.examples := ["express.js"; "rails"] |};
         {| DomainPattern.name := "Component-based";
            DomainPattern.description := "Reusable component architecture";
            DomainPattern.frequency := 0.8;
            DomainPattern.examples := ["React"; "Vue"] |} ];
     DomainContext.resources :=
       [ {| Resource.name := "MDN"; Resource.type := "documentation";
            Resource.url := Some "https://developer.mozilla.org";
            Resource.description := "Web development docs";
            Resource.relevance := 0.9 |};
         {| Resource.name := "Stack Overflow"; Resource.type := "community";
            Resource.url := Some "https://stackoverflow.com";
            Resource.description := "Programming Q&A";
            Resource.relevance := 0.8 |} ] |}.

(** The constructor ([initializeDomainKnowledge]). *)
Definition new : t :=
  {| domainKnowledge := Js.set String.eqb [] "development" developmentDomain |}.

Definition determineDomain (environment : EnvironmentType.t) (activity : ActivityType.t)
  : string :=
  let env := EnvironmentType.to_string environment in
  let act := ActivityType.to_string activity in
  if ((env =? "ide") || (act =? "coding"))%string then "development"
  else if ((env =? "browser") && (act =? "research"))%string then "research"
  else if (env =? "design")%string then "design"
  else if ((env =? "document") || (act =? "writing"))%string then "writing"
  else if (env =? "terminal")%string then "system-administration"
  else "general".

Definition getDefaultDomainContext (domain : string) : DomainContext.t :=
  {| DomainContext.domain := domain;
     DomainContext.expertise := "intermediate";
     DomainContext.tools := [];
     DomainContext.conventions := [];
     DomainContext.patterns := [];
     DomainContext.resources := [] |}.

Definition customizeDomainContext (base : DomainContext.t)
  (environment : EnvironmentType.t) (activity : ActivityType.t) : DomainContext.t :=
  {| DomainContext.domain := DomainContext.domain base;
     DomainContext.expertise := DomainContext.expertise base;
     DomainContext.tools :=
       if EnvironmentType.eqb environment EnvironmentType.ide then
         (DomainContext.tools base
          ++ [ {| Tool.name := "IDE"; Tool.version := "unknown";
                  Tool.capabilities := ["editing"; "debugging"];
                  Tool.integrations := [] |} ])%list
       else DomainContext.tools base;
     DomainContext.conventions := DomainContext.conventions base;
     DomainContext.patterns :=
       if ActivityType.eqb activity ActivityType.debugging then
         (DomainContext.patterns base
          ++ [ {| DomainPattern.name := "debugging-workflow";
                  DomainPattern.description := "Common debugging patterns and practices";
                  DomainPattern.frequency := 0.8;
                  DomainPattern.examples :=
                    ["breakpoint debugging"; "log analysis"; "step-through execution"] |} ])%list
       else DomainContext.patterns base;
     DomainContext.resources := DomainContext.resources base |}.

(** The customized record is a shallow copy of the base: its [tools]
    and [patterns] arrays are the arrays of the base, so what
    [customizeDomainContext] pushes is also pushed into the entry of the
    table the base was read from.  A default record is fresh. *)
Definition buildDomainContext (self : t) (environment : EnvironmentType.t)
  (activity : ActivityType.t) : DomainContext.t * t :=
  let domain := determineDomain environment activity in
  match Js.get String.eqb (domainKnowledge self) domain with
  | Some base =>
      let customized := customizeDomainContext base environment activity in
      (customized,
       {| domainKnowledge := Js.set String.eqb (domainKnowledge self) domain customized |})
  | None =>
      (customizeDomainContext (getDefaultDomainContext domain) environment activity, self)
  end.

Definition calculateEnvironmentWeight (context : ScreenContext.t) : Q :=
  match ScreenContext.environment context with
  | EnvironmentType.ide => 0.9
  | EnvironmentType.browser => 0.8
  | EnvironmentType.terminal => 0.9
  | EnvironmentType.design => 0.8
  | EnvironmentType.document => 0.7
  | EnvironmentType.unknown => 0.3
  | EnvironmentType.mixed => 0.5
  end.

Definition calculateActivityWeight (context : ScreenContext.t) : Q :=
  match ScreenContext.activity context with
  | ActivityType.coding => 0.9
  | ActivityType.debugging => 0.9
  | ActivityType.writing => 0.8
  | ActivityType.research => 0.7
  | ActivityType.design => 0.8
  | ActivityType.idle => 0.2
  | ActivityType.communication | ActivityType.learning => 0.5
  end.

Definition calculateApplicationWeight (context : ScreenContext.t) : Q :=
  let details := ScreenContext.applicationDetails context in
  let weight := 0.5 in
  let weight :=
    if negb (ApplicationContext.activeApplication details =? "unknown")%string
    then weight + 0.2 else weight in
  let weight :=
    if Js.truthy (ApplicationContext.windowTitle details) then weight + 0.2 else weight in
  let weight :=
    if Js.truthy_opt (ApplicationContext.selectedText details) then weight + 0.1 else weight in
  Qmin 1 weight.

Definition len {A : Type} (l : list A) : Q := inject_Z (Z.of_nat (List.length l)).

Definition calculateContentWeight (context : ScreenContext.t) : Q :=
  let content := ScreenContext.visibleContent context in
  let weight := 0.3 in
  let weight := weight + len (ContentAnalysis.textContent content) * 0.02 in
  let weight := weight + len (ContentAnalysis.codeSnippets content) * 0.1 in
  let weight := weight + len (ContentAnalysis.uiElements content) * 0.01 in
  Qmin 1 weight.

Definition calculateIntentWeight (context : ScreenContext.t) : Q :=
  let intent := ScreenContext.userIntent context in
  let weight := 0.4 in
  let weight :=
    if negb (IntentAnalysis.primaryIntent intent =? "unknown")%string
    then weight + 0.3 else weight in
  let weight := weight + len (IntentAnalysis.suggestedActions intent) * 0.1 in
  Qmin 1 weight.

Record Weights := {
  environment : Q; activity : Q; application : Q; content : Q; intent : Q
}.

Definition weightContextElements (context : ScreenContext.t) : Weights :=
  {| environment := calculateEnvironmentWeight context;
     activity := calculateActivityWeight context;
     application := calculateApplicationWeight context;
     content := calculateContentWeight context;
     intent := calculateIntentWeight context |}.

(** The double quote that frames the window title. *)
Definition dquote : string := String "034"%char EmptyString.

Definition generateSituationalDescription (context : ScreenContext.t) (weights : Weights)
  : string :=
  let details := ScreenContext.applicationDetails context in
  let parts : list string :=
    ["User is working in a "
       ++ EnvironmentType.to_string (ScreenContext.environment context) ++ " environment"] in
  let parts :=
    if negb (ActivityType.to_string (ScreenContext.activity context) =? "idle")%string
    then Js.push parts
           ("currently engaged in " ++ ActivityType.to_string (ScreenContext.activity context))
    else parts in
  let parts :=
    if negb (ApplicationContext.activeApplication details =? "unknown")%string
    then Js.push parts ("using " ++ ApplicationContext.activeApplication details)
    else parts in
  let parts :=
    if Js.truthy (ApplicationContext.windowTitle details) then
      let cleanTitle := Js.substring0 50 (ApplicationContext.windowTitle details) in
      Js.push parts
        ("with focus on " ++ dquote ++ cleanTitle
           ++ (if (50 <=? String.length cleanTitle)%nat then "..." else "")
           ++ dquote)
    else parts in
  let parts :=
    if (0 <? List.length (ContentAnalysis.codeSnippets (ScreenContext.visibleContent context)))%nat
    then Js.push parts "with code content visible"
    else parts in
  let confidenceLevel :=
    if negb (Qle_bool (ScreenContext.confidence context) 0.8) then "high"
    else if negb (Qle_bool (ScreenContext.confidence context) 0.5) then "moderate"
    else "low" in
  let parts := Js.push parts ("(" ++ confidenceLevel ++ " confidence)") in
  Js.join " " parts.

Definition calculateHistoricalRelevance (current historical : ScreenContext.t) : Q :=
  let relevance := 0 in
  let relevance :=
    if EnvironmentType.eqb (ScreenContext.environment current)
         (ScreenContext.environment historical)
    then relevance + 0.3 else relevance in
  let relevance :=
    if ActivityType.eqb (ScreenContext.activity current) (ScreenContext.activity historical)
    then relevance + 0.25 else relevance in
  let relevance :=
    if (ApplicationContext.activeApplication (ScreenContext.applicationDetails current)
        =? ApplicationContext.activeApplication (ScreenContext.applicationDetails historical))%string
    then relevance + 0.2 else relevance in
  let timeDiff := (ScreenContext.timestamp current - ScreenContext.timestamp historical)%Z in
  let timeWeight := Qmax 0 (1 - inject_Z timeDiff / inject_Z (24 * 60 * 60 * 1000)) in
  let relevance := relevance + timeWeight * 0.25 in
  relevance.

Record Scored := { snapshot : ContextSnapshot.t; relevanceScore : Q }.

Definition byRelevanceDescending (a b : Scored) : Q := relevanceScore b - relevanceScore a.

Definition selectRelevantHistory (currentContext : ScreenContext.t)
  (history : list ContextSnapshot.t) (maxResults : nat) : list ContextSnapshot.t :=
  if (List.length history =? 0)%nat then []
  else
    let scoredHistory :=
      map (fun s =>
             {| snapshot := s;
                relevanceScore :=
                  calculateHistoricalRelevance currentContext (ContextSnapshot.context s) |})
        history in
    map snapshot
      (Js.slice (Js.sort byRelevanceDescending scoredHistory) 0 (Some (Z.of_nat maxResults))).

Definition generateDomainActions (context : ScreenContext.t) (domainContext : DomainContext.t)
  : list Action.t :=
  if ((DomainContext.domain domainContext =? "development")%string
      && ActivityType.eqb (ScreenContext.activity context) ActivityType.coding)%bool
  then [ {| Action.id := "code_review"; Action.type := "development";
            Action.description := "Review and optimize current code";
            Action.priority := 2; Action.dependencies := [];
            Action.estimatedImpact := 0.8 |} ]
  else [].

Definition generateEnvironmentActions (context : ScreenContext.t) : list Action.t :=
  if EnvironmentType.eqb (ScreenContext.environment context) EnvironmentType.ide
  then [ {| Action.id := "analyze_code_context"; Action.type := "environment";
            Action.description := "Analyze visible code for suggestions";
            Action.priority := 1; Action.dependencies := [];
            Action.estimatedImpact := 0.7 |} ]
  else [].

(** The actions carried over from the intent, numbered from [index]. *)
Fixpoint intentActions (index : nat) (suggestions : list SuggestedAction.t) : list Action.t :=
  match suggestions with
  | [] => []
  | suggestion :: rest =>
      {| Action.id := "intent_action_" ++ Js.of_nat index;
         Action.type := "user-intent";
         Action.description := SuggestedAction.action suggestion;
         Action.priority := SuggestedAction.priority suggestion;
         Action.dependencies := SuggestedAction.prerequisites suggestion;
         Action.estimatedImpact := 0.7 |}
      :: intentActions (S index) rest
  end.

Definition byPriorityImpactDescending (a b : Action.t) : Q :=
  Action.priority b * Action.estimatedImpact b - Action.priority a * Action.estimatedImpact a.

Definition generateContextualActions (context : ScreenContext.t)
  (domainContext : DomainContext.t) (userIntent : option IntentAnalysis.t) : list Action.t :=
  let actions :=
    match userIntent with
    | Some i => intentActions 0 (IntentAnalysis.suggestedActions i)
    | None => []
    end in
  let actions := (actions ++ generateDomainActions context domainContext)%list in
  let actions := (actions ++ generateEnvironmentActions context)%list in
  Js.sort byPriorityImpactDescending actions.

Definition calculateCompleteness (context : ScreenContext.t) (domainContext : DomainContext.t)
  : Q :=
  let details := ScreenContext.applicationDetails context in
  let completeness := 0.4 in
  let completeness :=
    if negb (EnvironmentType.eqb (ScreenContext.environment context) EnvironmentType.unknown)
    then completeness + 0.15 else completeness in
  let completeness :=
    if negb (ActivityType.eqb (ScreenContext.activity context) ActivityType.idle)
    then completeness + 0.15 else completeness in
  let completeness :=
    if negb (ApplicationContext.activeApplication details =? "unknown")%string
    then completeness + 0.1 else completeness in
  let completeness :=
    if Js.truthy (ApplicationContext.windowTitle details)
    then completeness + 0.1 else completeness in
  let completeness :=
    if (0 <? List.length (DomainContext.tools domainContext))%nat
    then completeness + 0.1 else completeness in
  completeness.

Definition calculateRelevance (context : ScreenContext.t) (domainContext : DomainContext.t)
  (history : list ContextSnapshot.t) : Q :=
  let relevance := 0.5 in
  let relevance :=
    if negb (DomainContext.domain domainContext =? "general")%string
    then relevance + 0.2 else relevance in
  let relevance :=
    if (0 <? List.length history)%nat
    then relevance + Qmin 0.2 (len history * 0.05) else relevance in
  let relevance := relevance + ScreenContext.confidence context * 0.1 in
  relevance.

(** [now] is the reading of [Date.now()]. *)
Definition calculateTimeliness (now : Z) (context : ScreenContext.t) : Q :=
  let age := (now - ScreenContext.timestamp context)%Z in
  let maxAge := (5 * 60 * 1000)%Z in
  Qmax 0 (1 - inject_Z age / inject_Z maxAge).

Definition calculateActionability (context : ScreenContext.t) (domainContext : DomainContext.t)
  : Q :=
  let actionability := 0.3 in
  let actionability :=
    actionability
    + len (IntentAnalysis.suggestedActions (ScreenContext.userIntent context)) * 0.1 in
  let actionability := actionability + len (DomainContext.tools domainContext) * 0.05 in
  let actionability :=
    if negb (EnvironmentType.eqb (ScreenContext.environment context) EnvironmentType.unknown)
    then actionability + 0.2 else actionability in
  Qmin 1 actionability.

Definition assessContextQuality (now : Z) (context : ScreenContext.t)
  (domainContext : DomainContext.t) (relevantHistory : list ContextSnapshot.t)
  : ContextQualityMetrics.t :=
  let accuracy :=
    ScreenContext.confidence context * 0.8
    + (len (ScreenContext.contextSources context) / 5) * 0.2 in
  let completeness := calculateCompleteness context domainContext in
  let relevance := calculateRelevance context domainContext relevantHistory in
  let timeliness := calculateTimeliness now context in
  let actionability := calculateActionability context domainContext in
  let overallScore :=
    accuracy * 0.25 + completeness * 0.2 + relevance * 0.2
    + timeliness * 0.15 + actionability * 0.2 in
  {| ContextQualityMetrics.accuracy := Qmin 1 accuracy;
     ContextQualityMetrics.completeness := Qmin 1 completeness;
     ContextQualityMetrics.relevance := Qmin 1 relevance;
     ContextQualityMetrics.timeliness := Qmin 1 timeliness;
     ContextQualityMetrics.actionability := Qmin 1 actionability;
     ContextQualityMetrics.overallScore := Qmin 1 overallScore |}.

(** [contextId] is the identifier drawn from the clock and
    [Math.random()]; [nowQuality] and [nowStamp] are the clock readings
    of the timeliness score and of the result's timestamp.  No step
    raises an exception on these inputs. *)
Definition synthesizeContext (self : t) (contextId : string) (nowQuality nowStamp : Z)
  (currentScreen : ScreenContext.t) (history : list ContextSnapshot.t)
  (userIntent : option IntentAnalysis.t) : EngineeredContext.t * t :=
  let weightedContext := weightContextElements currentScreen in
  let '(domainContext, self') :=
    buildDomainContext self (ScreenContext.environment currentScreen)
      (ScreenContext.activity currentScreen) in
  let situationalContext := generateSituationalDescription currentScreen weightedContext in
  let relevantHistory := selectRelevantHistory currentScreen history 5 in
  let suggestedActions := generateContextualActions currentScreen domainContext userIntent in
  let contextQuality :=
    assessContextQuality nowQuality currentScreen domainContext relevantHistory in
  ({| EngineeredContext.id := contextId;
      EngineeredContext.timestamp := nowStamp;
      EngineeredContext.situationalContext := situationalContext;
      EngineeredContext.relevantHistory := relevantHistory;
      EngineeredContext.domainSpecificInfo := domainContext;
      EngineeredContext.suggestedActions := suggestedActions;
      EngineeredContext.contextQuality := contextQuality |},
   self').

End ContextSynthesizer.

(** ** Prompt Engineer ([engines/PromptEngineer.ts]) *)

(** A call that may raise an exception. *)
Inductive result (A : Type) :=
| Ok (value : A)
| Throw (message : string).
Arguments Ok {A}.
Arguments Throw {A}.

(** Modelled from the spec: the declarations of [types/prompts]
    (objectives, templates, configuration, engineered prompt) are not
    among the sources.  The types below follow the way the engine uses
    them: the objectives are the keys of the outcome table of
    [generateExpectedOutcome], the template fields those of the literals
    of [initializeDefaultTemplates], the prompt fields those assigned by
    [generateContextualPrompt]. *)
Module PromptObjective.
Inductive t :=
  code_generation | problem_solving | analysis | explanation | optimization
| debugging | research | creative | planning.

Definition to_string (o : t) : string :=
  match o with
  | code_generation => "code-generation" | problem_solving => "problem-solving"
  | analysis => "analysis" | explanation => "explanation"
  | optimization => "optimization" | debugging => "debugging"
  | research => "research" | creative => "creative" | planning => "planning"
  end.

Definition eqb (a b : t) : bool := (to_string a =? to_string b)%string.
End PromptObjective.

Module TemplateVariable.
Record t := { name : string; type : string; required : bool; description : string }.
End TemplateVariable.

Module TemplateConstraint.
Record t := { type : string; constraint : string; priority : Q }.
End TemplateConstraint.

Module TemplateMetadata.
(** [successRate] may be unset; the creation and update times are not
    read. *)
Record t := {
  version : string; author : string; usageCount : nat;
  successRate : option Q; averageRating : Q
}.
End TemplateMetadata.

Module PromptTemplate.
(** Modelled from the spec: a named text pattern with variable slots
    that carry a required flag, constraints with a priority, and running
    metadata; the fields are those of the template literals of
    [initializeDefaultTemplates].  [examples] is always empty and never
    read. *)
Record t := {
  id : string;
  name : string;
  description : string;
  objective : PromptObjective.t;
  domain : string;
  template : string;
  variables : list TemplateVariable.t;
  constraints : list TemplateConstraint.t;
  metadata : TemplateMetadata.t
}.
End PromptTemplate.

Module PromptEngineeringConfig.
Record t := {
  defaultObjective : PromptObjective.t;
  defaultStyle : string;
  defaultLength : string
}.
End PromptEngineeringConfig.

Module EngineeredPrompt.
(** The text fields of the result; the clarity, specificity,
    actionability and confidence scores are left out. *)
Record t := {
  id : string;
  timestamp : Z;
  prompt : string;
  contextSummary : string;
  objective : PromptObjective.t;
  expectedOutcome : string;
  fallbackPrompts : list string;
  templateUsed : string;
  contextElementsUsed : list string;
  tokens : nat;
  originalLength : nat;
  optimizedLength : nat;
  optimizationStrategy : list string
}.
End EngineeredPrompt.

Module PromptEngineer.

Record t := {
  config : PromptEngineeringConfig.t;
  templates : list (string * PromptTemplate.t)
}.

Definition codeAnalysisTemplate : PromptTemplate.t :=
  {| PromptTemplate.id := "code-analysis";
     PromptTemplate.name := "Code Analysis Template";
     PromptTemplate.description := "Analyzes code and provides suggestions";
     PromptTemplate.objective := PromptObjective.analysis;
     PromptTemplate.domain := "development";
     PromptTemplate.template :=
"You are an expert code analyst. Analyze the following context:

Context: {{CONTEXT}}
User Query: {{USER_QUERY}}
Environment: {{ENVIRONMENT}}
Available Tools: {{TOOLS}}

Please provide:
1. A clear analysis of the situation
2. Specific recommendations
3. Implementation steps
4. Potential issues to consider

Focus on practical, actionable advice.";
     PromptTemplate.variables :=
       [ {| TemplateVariable.name := "CONTEXT"; TemplateVariable.type := "string";
            TemplateVariable.required := true;
            TemplateVariable.description := "Current context" |};
         {| TemplateVariable.name := "USER_QUERY"; TemplateVariable.type := "string";
            TemplateVariable.required := true;
            TemplateVariable.description := "User question" |};
         {| TemplateVariable.name := "ENVIRONMENT"; TemplateVariable.type := "string";
            TemplateVariable.required := false;
            TemplateVariable.description := "Development environment" |};
         {| TemplateVariable.name := "TOOLS"; TemplateVariable.type := "string";
            TemplateVariable.required := false;
            TemplateVariable.description := "Available tools" |} ];
     PromptTemplate.constraints :=
       [ {| TemplateConstraint.type := "length";
            TemplateConstraint.constraint := "moderate";
            TemplateConstraint.priority := 1 |};
         {| TemplateConstraint.type := "style";
            TemplateConstraint.constraint := "technical";
            TemplateConstraint.priority := 2 |} ];
     PromptTemplate.metadata :=
       {| TemplateMetadata.version := "1.0"; TemplateMetadata.author := "system";
          TemplateMetadata.usageCount := 0;
          TemplateMetadata.successRate := Some 0.8;
          TemplateMetadata.averageRating := 4.2 |} |}.

Definition problemSolvingTemplate : PromptTemplate.t :=
  {| PromptTemplate.id := "problem-solving";
     PromptTemplate.name := "General Problem Solving";
     PromptTemplate.description := "Helps solve various types of problems";
     PromptTemplate.objective := PromptObjective.problem_solving;
     PromptTemplate.domain := "general";
     PromptTemplate.template :=
"You are a helpful problem-solving assistant. Here's the situation:

Context: {{CONTEXT}}
Problem: {{USER_QUERY}}
Domain: {{DOMAIN}}
Expertise Level: {{EXPERTISE_LEVEL}}

Historical Context: {{HISTORICAL_CONTEXT}}
Suggested Actions: {{SUGGESTED_ACTIONS}}

Please provide:
1. Problem analysis
2. Step-by-step solution
3. Alternative approaches
4. Expected outcomes

Tailor your response to the user's expertise level.";
     PromptTemplate.variables :=
       [ {| TemplateVariable.name := "CONTEXT"; TemplateVariable.type := "string";
            TemplateVariable.required := true;
            TemplateVariable.description := "Situational context" |};
         {| TemplateVariable.name := "USER_QUERY"; TemplateVariable.type := "string";
            TemplateVariable.required := true;
            TemplateVariable.description := "Problem to solve" |};
         {| TemplateVariable.name := "DOMAIN"; TemplateVariable.type := "string";
            TemplateVariable.required := false;
            TemplateVariable.description := "Problem domain" |};
         {| TemplateVariable.name := "EXPERTISE_LEVEL"; TemplateVariable.type := "string";
            TemplateVariable.required := false;
            TemplateVariable.description := "User expertise" |} ];
     PromptTemplate.constraints :=
       [ {| TemplateConstraint.type := "length";
            TemplateConstraint.constraint := "detailed";
            TemplateConstraint.priority := 1 |};
         {| TemplateConstraint.type := "style";
            TemplateConstraint.constraint := "conversational";
            TemplateConstraint.priority := 2 |} ];
     PromptTemplate.metadata :=
       {| TemplateMetadata.version := "1.0"; TemplateMetadata.author := "system";
          TemplateMetadata.usageCount := 0;
          TemplateMetadata.successRate := Some 0.75;
          TemplateMetadata.averageRating := 4.0 |} |}.

(** The constructor ([initializeDefaultTemplates]). *)
Definition new (config : PromptEngineeringConfig.t) : t :=
  {| config := config;
     templates :=
       Js.set String.eqb
         (Js.set String.eqb [] (PromptTemplate.id codeAnalysisTemplate) codeAnalysisTemplate)
         (PromptTemplate.id problemSolvingTemplate) problemSolvingTemplate |}.

Definition newline : string := String "010"%char EmptyString.

Definition createFallbackTemplate (objective : PromptObjective.t) : PromptTemplate.t :=
  {| PromptTemplate.id := "fallback";
     PromptTemplate.name := "Fallback Template";
     PromptTemplate.description := "Basic template for any objective";
     PromptTemplate.objective := objective;
     PromptTemplate.domain := "general";
     PromptTemplate.template :=
       "Please help with: {{USER_QUERY}}" ++ newline ++ newline ++ "Context: {{CONTEXT}}";
     PromptTemplate.variables := [];
     PromptTemplate.constraints := [];
     PromptTemplate.metadata :=
       {| TemplateMetadata.version := "1.0"; TemplateMetadata.author := "system";
          TemplateMetadata.usageCount := 0;
          TemplateMetadata.successRate := Some 0.6;
          TemplateMetadata.averageRating := 3.0 |} |}.

Definition getGeneralTemplate (self : t) (objective : PromptObjective.t) : PromptTemplate.t :=
  match Js.get String.eqb (templates self) "problem-solving" with
  | Some template => template
  | None => createFallbackTemplate objective
  end.

(** [rate || fallback]: an unset rate and a rate of zero are falsy. *)
Definition rateOr (rate : option Q) (fallback : Q) : Q :=
  match rate with
  | Some r => if Qeq_bool r 0 then fallback else r
  | None => fallback
  end.

Definition scoreTemplateCompatibility (template : PromptTemplate.t)
  (context : EngineeredContext.t) : Q :=
  let score := 0 in
  let score :=
    if (PromptTemplate.domain template
        =? DomainContext.domain (EngineeredContext.domainSpecificInfo context))%string
    then score + 0.5 else score in
  let score :=
    score + rateOr (TemplateMetadata.successRate (PromptTemplate.metadata template)) 0.5 * 0.3 in
  let score :=
    score
    + Qmin 0.2
        (inject_Z (Z.of_nat (TemplateMetadata.usageCount (PromptTemplate.metadata template)))
         / 100) in
  score.

Record ScoredTemplate := { template : PromptTemplate.t; score : Q }.

Definition byScoreDescending (a b : ScoredTemplate) : Q := score b - score a.

(** [scoredTemplates[0].template] raises a [TypeError] on an empty
    array. *)
Definition selectOptimalTemplate (self : t) (engineeredContext : EngineeredContext.t)
  (objective : PromptObjective.t) : result PromptTemplate.t :=
  let candidateTemplates :=
    filter (fun template => PromptObjective.eqb (PromptTemplate.objective template) objective)
      (map snd (templates self)) in
  if (List.length candidateTemplates =? 0)%nat then Ok (getGeneralTemplate self objective)
  else
    let scoredTemplates :=
      map (fun template =>
             {| template := template;
                score := scoreTemplateCompatibility template engineeredContext |})
        candidateTemplates in
    match Js.sort byScoreDescending scoredTemplates with
    | best :: _ => Ok (template best)
    | [] => Throw "Cannot read properties of undefined (reading 'template')"
    end.

Definition summarizeHistoricalContext (history : list ContextSnapshot.t) : string :=
  if (List.length history =? 0)%nat then "No relevant history available"
  else "Based on " ++ Js.of_nat (List.length history) ++ " previous similar contexts".

(** The object literal [variables] of [adaptPromptToContext], as
    [Object.entries] lists it. *)
Definition variables (engineeredContext : EngineeredContext.t) (userQuery : string)
  : list (string * string) :=
  let info := EngineeredContext.domainSpecificInfo engineeredContext in
  [ ("USER_QUERY", userQuery);
    ("CONTEXT", EngineeredContext.situationalContext engineeredContext);
    ("DOMAIN", DomainContext.domain info);
    ("ENVIRONMENT",
     if Js.includes (EngineeredContext.situationalContext engineeredContext) "ide"
     then "development" else "general");
    ("EXPERTISE_LEVEL", DomainContext.expertise info);
    ("SUGGESTED_ACTIONS",
     Js.join ", " (map Action.description (EngineeredContext.suggestedActions engineeredContext)));
    ("HISTORICAL_CONTEXT",
     summarizeHistoricalContext (EngineeredContext.relevantHistory engineeredContext));
    ("TOOLS", Js.join ", " (map Tool.name (DomainContext.tools info))) ].

Definition placeholder (key : string) : string := "{{" ++ key ++ "}}".

Definition adaptPromptToContext (template : PromptTemplate.t)
  (engineeredContext : EngineeredContext.t) (userQuery : string) : string :=
  fold_left (fun adaptedPrompt '(key, value) =>
               Js.replaceAll adaptedPrompt (placeholder key) value)
    (variables engineeredContext userQuery)
    (PromptTemplate.template template).

(** [removeRedundancy]: [prompt.replace(/\b(\w+)\s+\1\b/gi, '$1')].  A
    match starts at the first code unit of a word, spans the whole word,
    the whole run of whitespace after it and a second word equal to the
    first up to the case of its letters; it is replaced by the first
    word, and the scan goes on after the second. *)
Fixpoint takeWhile (p : ascii -> bool) (s : string) : string :=
  match s with
  | EmptyString => EmptyString
  | String c r => if p c then String c (takeWhile p r) else EmptyString
  end.

Fixpoint dropWhile (p : ascii -> bool) (s : string) : string :=
  match s with
  | EmptyString => EmptyString
  | String c r => if p c then dropWhile p r else s
  end.

Definition upper_letter (c : ascii) : ascii :=
  let n := Js.code c in
  if ((97 <=? n) && (n <=? 122))%nat then ascii_of_nat (n - 32) else c.

Fixpoint prefixIgnoreCase (w s : string) : bool :=
  match w, s with
  | EmptyString, _ => true
  | String a w', String b s' =>
      Ascii.eqb (upper_letter a) (upper_letter b) && prefixIgnoreCase w' s'
  | String _ _, EmptyString => false
  end.

Definition startsWithWord (s : string) : bool :=
  match s with
  | String c _ => Js.isWord c
  | EmptyString => false
  end.

Fixpoint removeRedundancy_from (previousIsWord : bool) (skip : nat) (s : string) : string :=
  match s with
  | EmptyString => EmptyString
  | String c r =>
      match skip with
      | S k => removeRedundancy_from (Js.isWord c) k r
      | O =>
          let first := takeWhile Js.isWord s in
          let gap := takeWhile Js.isSpace (dropWhile Js.isWord s) in
          let second := dropWhile Js.isSpace (dropWhile Js.isWord s) in
          if Js.isWord c && negb previousIsWord
             && (0 <? String.length gap)%nat
             && prefixIgnoreCase first second
             && negb (startsWithWord (Js.drop (String.length first) second))
          then
            first ++ removeRedundancy_from true
                       (String.length first + String.length gap + String.length first - 1) r
          else String c (removeRedundancy_from (Js.isWord c) 0 r)
      end
  end.

Definition removeRedundancy (prompt : string) : string :=
  removeRedundancy_from false 0 prompt.

(** [enhanceClarity]: [prompt.replace(/\s+/g, ' ').trim()]. *)
Fixpoint collapseSpaces (inRun : bool) (s : string) : string :=
  match s with
  | EmptyString => EmptyString
  | String c r =>
      if Js.isSpace c then
        if inRun then collapseSpaces true r else String " " (collapseSpaces true r)
      else String c (collapseSpaces false r)
  end.

Fixpoint trimEnd (s : string) : string :=
  match s with
  | EmptyString => EmptyString
  | String c r =>
      let r' := trimEnd r in
      if Js.isSpace c && (r' =? "")%string then EmptyString else String c r'
  end.

Definition trim (s : string) : string := trimEnd (dropWhile Js.isSpace s).

Definition enhanceClarity (prompt : string) : string := trim (collapseSpaces false prompt).

Definition improveSpecificity (prompt : string) : string := prompt.

Definition applyLengthConstraints (prompt : string) (template : PromptTemplate.t) : string :=
  let lengthConstraint :=
    match find (fun c => (TemplateConstraint.type c =? "length")%string)
            (PromptTemplate.constraints template) with
    | Some c => Some (TemplateConstraint.constraint c)
    | None => None
    end in
  match lengthConstraint with
  | Some constraint =>
      if ((constraint =? "concise")%string && (500 <? String.length prompt)%nat)%bool
      then Js.substring0 500 prompt ++ "..."
      else prompt
  | None => prompt
  end.

Definition getOptimizationStrategies (original optimized : string) : list string :=
  ((if (String.length optimized <? String.length original)%nat
    then ["length-reduction"] else [])
   ++ (if negb (optimized =? original)%string then ["clarity-enhancement"] else []))%list.

(** The text produced by [optimizePrompt] with the lengths and
    strategies it records. *)
Record Optimization := {
  opt_originalLength : nat;
  opt_optimizedLength : nat;
  opt_optimizationStrategy : list string;
  optimizedPrompt : string
}.

Definition optimizePrompt (prompt : string) (template : PromptTemplate.t) : Optimization :=
  let originalLength := String.length prompt in
  let optimizedPrompt := prompt in
  let optimizedPrompt := removeRedundancy optimizedPrompt in
  let optimizedPrompt := enhanceClarity optimizedPrompt in
  let optimizedPrompt := improveSpecificity optimizedPrompt in
  let optimizedPrompt := applyLengthConstraints optimizedPrompt template in
  {| opt_originalLength := originalLength;
     opt_optimizedLength := String.length optimizedPrompt;
     opt_optimizationStrategy := getOptimizationStrategies prompt optimizedPrompt;
     optimizedPrompt := optimizedPrompt |}.

Definition generateSimplifiedPrompt (userQuery : string) (context : EngineeredContext.t)
  : string := "Help with: " ++ userQuery.

Definition generateDirectPrompt (userQuery : string) : string := userQuery.

Definition generateContextFreePrompt (userQuery : string) (objective : PromptObjective.t)
  : string :=
  "As an expert assistant, please "
  ++ (if PromptObjective.eqb objective PromptObjective.analysis then "analyze" else "help with")
  ++ ": " ++ userQuery.

Definition generateFallbackPrompts (template : PromptTemplate.t)
  (engineeredContext : EngineeredContext.t) (userQuery : string) : list string :=
  [ generateSimplifiedPrompt userQuery engineeredContext;
    generateDirectPrompt userQuery;
    generateContextFreePrompt userQuery (PromptTemplate.objective template) ].

Definition generateContextSummary (engineeredContext : EngineeredContext.t) : string :=
  DomainContext.domain (EngineeredContext.domainSpecificInfo engineeredContext)
  ++ " context with "
  ++ Js.of_nat (List.length (EngineeredContext.relevantHistory engineeredContext))
  ++ " historical references".

Definition generateExpectedOutcome (objective : PromptObjective.t)
  (context : EngineeredContext.t) : string :=
  match objective with
  | PromptObjective.code_generation => "Well-structured, functional code with explanations"
  | PromptObjective.problem_solving => "Step-by-step solution with alternatives"
  | PromptObjective.analysis => "Detailed analysis with insights and recommendations"
  | PromptObjective.explanation => "Clear, comprehensive explanation"
  | PromptObjective.optimization => "Improved solution with performance benefits"
  | PromptObjective.debugging => "Identified issues with fixes"
  | PromptObjective.research => "Comprehensive research findings"
  | PromptObjective.creative => "Creative solutions and ideas"
  | PromptObjective.planning => "Structured plan with actionable steps"
  end.

Definition extractUsedContextElements (context : EngineeredContext.t) : list string :=
  (["situational-context"]
   ++ (if Js.truthy (DomainContext.domain (EngineeredContext.domainSpecificInfo context))
       then ["domain-info"] else [])
   ++ (if (0 <? List.length (EngineeredContext.relevantHistory context))%nat
       then ["historical-context"] else [])
   ++ (if (0 <? List.length (EngineeredContext.suggestedActions context))%nat
       then ["suggested-actions"] else []))%list.

(** [Math.ceil(text.length / 4)]. *)
Definition estimateTokenCount (text : string) : nat := (String.length text + 3) / 4.

(** [promptId] is the value of [generatePromptId()], [now] the clock
    reading of the result.  The body of the [try] block is [attempt]; a
    caught exception is raised again with the prefix of the [catch]
    block. *)
Definition generateContextualPrompt (self : t) (promptId : string) (now : Z)
  (engineeredContext : EngineeredContext.t) (userQuery : string)
  (objective : PromptObjective.t) : result EngineeredPrompt.t :=
  let attempt :=
    match selectOptimalTemplate self engineeredContext objective with
    | Throw message => Throw message
    | Ok template =>
        let adaptedPrompt := adaptPromptToContext template engineeredContext userQuery in
        let optimization := optimizePrompt adaptedPrompt template in
        let fallbackPrompts := generateFallbackPrompts template engineeredContext userQuery in
        Ok {| EngineeredPrompt.id := promptId;
              EngineeredPrompt.timestamp := now;
              EngineeredPrompt.prompt := optimizedPrompt optimization;
              EngineeredPrompt.contextSummary := generateContextSummary engineeredContext;
              EngineeredPrompt.objective := objective;
              EngineeredPrompt.expectedOutcome :=
                generateExpectedOutcome objective engineeredContext;
              EngineeredPrompt.fallbackPrompts := fallbackPrompts;
              EngineeredPrompt.templateUsed := PromptTemplate.id template;
              EngineeredPrompt.contextElementsUsed :=
                extractUsedContextElements engineeredContext;
              EngineeredPrompt.tokens := estimateTokenCount (optimizedPrompt optimization);
              EngineeredPrompt.originalLength := opt_originalLength optimization;
              EngineeredPrompt.optimizedLength := opt_optimizedLength optimization;
              EngineeredPrompt.optimizationStrategy :=
                opt_optimizationStrategy optimization |}
    end in
  match attempt with
  | Ok prompt => Ok prompt
  | Throw message => Throw ("Prompt generation failed: " ++ message)
  end.

End PromptEngineer.

(** ** The contracts of the specification

    The scoring and classification rules as the specification words
    them, to be compared with the functions above. *)

Module Contract.

(** The three equality terms of a relevance score: environment 0.3,
    activity 0.25, active application 0.2. *)
Definition matchScore (current historical : ScreenContext.t) : Q :=
  (if EnvironmentType.eqb (ScreenContext.environment current)
        (ScreenContext.environment historical) then 0.3 else 0)
  + (if ActivityType.eqb (ScreenContext.activity current)
          (ScreenContext.activity historical) then 0.25 else 0)
  + (if (ApplicationContext.activeApplication (ScreenContext.applicationDetails current)
         =? ApplicationContext.activeApplication (ScreenContext.applicationDetails historical))%string
     then 0.2 else 0).

(** [max(0, 1 - dt/24h)]. *)
Definition recency (current historical : ScreenContext.t) : Q :=
  Qmax 0 (1 - inject_Z (ScreenContext.timestamp current - ScreenContext.timestamp historical)
              / inject_Z 86400000).

(** The relevance function of the Memory: the equality terms, recency
    times 0.15, the historical confidence times 0.1, capped at 1. *)
Definition relevance (current historical : ScreenContext.t) : Q :=
  Qmin 1 (matchScore current historical
          + recency current historical * 0.15
          + ScreenContext.confidence historical * 0.1).

(** The environment vocabularies in priority order, each with the
    environment it stands for and its confidence increment. *)
Definition vocabularies : list (EnvironmentType.t * list string * Q) :=
  [ (EnvironmentType.ide, ContextAnalyzer.ideIndicators, 0.4);
    (EnvironmentType.browser, ContextAnalyzer.browserIndicators, 0.3);
    (EnvironmentType.design, ContextAnalyzer.designIndicators, 0.4);
    (EnvironmentType.document, ContextAnalyzer.documentIndicators, 0.3);
    (EnvironmentType.terminal, ContextAnalyzer.terminalIndicators, 0.4) ].

(** The first vocabulary with a word in the lowered title or
    application name, or unknown with confidence 0.1 when there is no
    signal or no match. *)
Definition environment (additionalData : option ContextAnalyzer.AdditionalData.t)
  : EnvironmentType.t * Q :=
  let title := ContextAnalyzer.field ContextAnalyzer.AdditionalData.windowTitle additionalData in
  let app := ContextAnalyzer.field ContextAnalyzer.AdditionalData.activeApplication additionalData in
  if Js.truthy_opt title || Js.truthy_opt app then
    match find (fun '(_, vocabulary, _) =>
                  ContextAnalyzer.someIndicator vocabulary
                    (ContextAnalyzer.lowered title) (ContextAnalyzer.lowered app))
            vocabularies with
    | Some (environment, _, increment) => (environment, increment)
    | None => (EnvironmentType.unknown, 0.1)
    end
  else (EnvironmentType.unknown, 0.1).

(** The quality record as the specification words it: every sub-score
    clamped, and the overall score the clamped weighted sum of the
    sub-scores of the record. *)
Definition overallOfRecord (m : ContextQualityMetrics.t) : Q :=
  Qmin 1 (ContextQualityMetrics.accuracy m * 0.25
          + ContextQualityMetrics.completeness m * 0.2
          + ContextQualityMetrics.relevance m * 0.2
          + ContextQualityMetrics.timeliness m * 0.15
          + ContextQualityMetrics.actionability m * 0.2).

Definition unit (x : Q) : Prop := 0 <= x /\ x <= 1.

(** All five sub-scores and the overall score are in [0, 1]. *)
Definition withinBounds (m : ContextQualityMetrics.t) : Prop :=
  unit (ContextQualityMetrics.accuracy m)
  /\ unit (ContextQualityMetrics.completeness m)
  /\ unit (ContextQualityMetrics.relevance m)
  /\ unit (ContextQualityMetrics.timeliness m)
  /\ unit (ContextQualityMetrics.actionability m)
  /\ unit (ContextQualityMetrics.overallScore m).

(** The placeholder of a required variable of the template is still in
    the text. *)
Definition unresolved (template : PromptTemplate.t) (text : string) : bool :=
  existsb (fun v => TemplateVariable.required v
                    && Js.includes text (PromptEngineer.placeholder (TemplateVariable.name v)))
    (PromptTemplate.variables template).

(** The keys [adaptPromptToContext] substitutes. *)
Definition fixedKeys : list string :=
  ["USER_QUERY"; "CONTEXT"; "DOMAIN"; "ENVIRONMENT"; "EXPERTISE_LEVEL";
   "SUGGESTED_ACTIONS"; "HISTORICAL_CONTEXT"; "TOOLS"].

(** The code unit [c] does not occur in [s]. *)
Fixpoint lacks (c : ascii) (s : string) : bool :=
  match s with
  | EmptyString => true
  | String d r => negb (Ascii.eqb d c) && lacks c r
  end.

(** A variable name without braces. *)
Definition braceless (name : string) : bool := lacks "{" name && lacks "}" name.

(** The text of a template read as pieces: literal text and
    placeholders [{{name}}]. *)
Inductive Piece :=
| Text (s : string)
| Var (name : string).

Definition pieceText (p : Piece) : string :=
  match p with
  | Text s => s
  | Var name => PromptEngineer.placeholder name
  end.

Definition render (pieces : list Piece) : string :=
  fold_right (fun p rest => pieceText p ++ rest) EmptyString pieces.

(** The literal text has no opening brace and the names have no
    braces, so the placeholders are the pieces [Var]. *)
Definition plain (pieces : list Piece) : bool :=
  forallb (fun p => match p with
                    | Text s => lacks "{" s
                    | Var name => braceless name
                    end) pieces.

(** A value that a replacement inserts as it is and that brings no
    placeholder of its own: no dollar sign, no opening brace. *)
Definition verbatim (value : string) : bool := lacks "$" value && lacks "{" value.

(** One substitution: the placeholders of [key] become the value. *)
Definition fill (key value : string) (p : Piece) : Piece :=
  match p with
  | Text s => Text s
  | Var name => if (name =? key)%string then Text value else Var name
  end.

(** The template with every placeholder that has an entry replaced by
    the value of the entry, and all other pieces as they are. *)
Definition instantiate (entries : list (string * string)) (pieces : list Piece) : string :=
  fold_right
    (fun p rest =>
       match p with
       | Text s => s
       | Var name =>
           match Js.get String.eqb entries name with
           | Some value => value
           | None => PromptEngineer.placeholder name
           end
       end ++ rest)
    EmptyString pieces.

End Contract.

(** ** Sample inputs

    Concrete contexts, histories and templates on which the functions
    are evaluated below. *)

Module Sample.

Definition details (app title : string) : ApplicationContext.t :=
  {| ApplicationContext.activeApplication := app;
     ApplicationContext.windowTitle := title;
     ApplicationContext.selectedText := None;
     ApplicationContext.recentActions := [] |}.

Definition noContent : ContentAnalysis.t :=
  {| ContentAnalysis.textContent := [];
     ContentAnalysis.codeSnippets := [];
     ContentAnalysis.uiElements := [] |}.

Definition noIntent : IntentAnalysis.t :=
  {| IntentAnalysis.primaryIntent := "unknown";
     IntentAnalysis.secondaryIntents := [];
     IntentAnalysis.urgencyLevel := IntentAnalysis.medium;
     IntentAnalysis.complexityLevel := IntentAnalysis.moderate;
     IntentAnalysis.suggestedActions := [];
     IntentAnalysis.contextDependencies := [] |}.

Definition context (id : string) (timestamp : Z) (environment : EnvironmentType.t)
  (activity : ActivityType.t) (confidence : Q) (app title : string)
  (sources : list ContextSource.t) : ScreenContext.t :=
  {| ScreenContext.id := id;
     ScreenContext.timestamp := timestamp;
     ScreenContext.environment := environment;
     ScreenContext.activity := activity;
     ScreenContext.confidence := confidence;
     ScreenContext.applicationDetails := details app title;
     ScreenContext.visibleContent := noContent;
     ScreenContext.userIntent := noIntent;
     ScreenContext.contextSources := sources |}.

Definition snapshotOf (context : ScreenContext.t) : ContextSnapshot.t :=
  {| ContextSnapshot.context := context;
     ContextSnapshot.userActions := [];
     ContextSnapshot.outcomes := [];
     ContextSnapshot.duration := 0 |}.

Definition titleSources : list ContextSource.t :=
  [ContextSource.screenshot; ContextSource.window_title; ContextSource.application_state].

(** An editing session, and the same session twelve hours earlier. *)
Definition editing : ScreenContext.t :=
  context "ctx-2" 1700043200000 EnvironmentType.ide ActivityType.coding 0.7
    "Code" "main.ts - kontext" titleSources.

Definition editingEarlier : ScreenContext.t :=
  context "ctx-1" 1700000000000 EnvironmentType.ide ActivityType.coding 0.7
    "Code" "main.ts - kontext" titleSources.

(** An analysis request with the title of an editor window. *)
Definition editorWindow : ContextAnalyzer.AdditionalData.t :=
  {| ContextAnalyzer.AdditionalData.windowTitle := Some "main.ts - vscode";
     ContextAnalyzer.AdditionalData.activeApplication := None;
     ContextAnalyzer.AdditionalData.clipboardContent := None;
     ContextAnalyzer.AdditionalData.selectedText := None |}.

Definition idleAnalyzer : ContextAnalyzer.t := {| ContextAnalyzer.activeContext := None |}.

(** A memory configured to keep no history, with a day of retention. *)
Definition keepNothing : ContextMemoryConfig.t :=
  {| ContextMemoryConfig.maxHistorySize := 0;
     ContextMemoryConfig.patternDetectionThreshold := 3;
     ContextMemoryConfig.contextRetentionPeriod := 86400000 |}.

(** A memory that keeps two snapshots. *)
Definition keepTwo : ContextMemoryConfig.t :=
  {| ContextMemoryConfig.maxHistorySize := 2;
     ContextMemoryConfig.patternDetectionThreshold := 3;
     ContextMemoryConfig.contextRetentionPeriod := 86400000 |}.

(** A context reported by all six kinds of source with full confidence,
    and the same context stamped one minute after the clock reading
    [1700000000000] used to assess it. *)
Definition allSources : list ContextSource.t :=
  [ContextSource.screenshot; ContextSource.clipboard; ContextSource.window_title;
   ContextSource.application_state; ContextSource.user_input; ContextSource.temporal].

Definition corroborated : ScreenContext.t :=
  context "ctx-3" 1700000000000 EnvironmentType.unknown ActivityType.idle 1
    "unknown" "" allSources.

Definition stampedAhead : ScreenContext.t :=
  context "ctx-4" 1700000060000 EnvironmentType.unknown ActivityType.idle 0.7
    "unknown" "" [ContextSource.screenshot].

Definition generalDomain : DomainContext.t :=
  ContextSynthesizer.getDefaultDomainContext "general".

(** A window title of exactly fifty code units. *)
Definition fiftyTitle : string := "kontext/src/engines/ContextSynthesizer.ts - VSCode".

Definition fiftyContext : ScreenContext.t :=
  context "ctx-5" 1700000000000 EnvironmentType.ide ActivityType.coding 0.7
    "Code" fiftyTitle titleSources.

(** The history of a memory that has recorded the earlier session and
    the current one. *)
Definition recordedHistory : list ContextSnapshot.t :=
  [snapshotOf editingEarlier; snapshotOf editing].

Definition recordedMemory : ContextMemory.t :=
  {| ContextMemory.config := keepTwo;
     ContextMemory.contextHistory := recordedHistory;
     ContextMemory.contextPatterns := [] |}.

(** The engineered context of the editing session. *)
Definition engineered : EngineeredContext.t :=
  fst (ContextSynthesizer.synthesizeContext ContextSynthesizer.new "engineered_1"
         1700043260000 1700043260000 editing [snapshotOf editingEarlier] None).

Definition promptConfig : PromptEngineeringConfig.t :=
  {| PromptEngineeringConfig.defaultObjective := PromptObjective.analysis;
     PromptEngineeringConfig.defaultStyle := "technical";
     PromptEngineeringConfig.defaultLength := "moderate" |}.

(** A template with a required variable that [adaptPromptToContext] does
    not know. *)
Definition topicTemplate : PromptTemplate.t :=
  {| PromptTemplate.id := "explain-topic";
     PromptTemplate.name := "Topic Explanation";
     PromptTemplate.description := "Explains a topic to the user";
     PromptTemplate.objective := PromptObjective.explanation;
     PromptTemplate.domain := "general";
     PromptTemplate.template := "Explain {{TOPIC}} to the user. Question: {{USER_QUERY}}";
     PromptTemplate.variables :=
       [ {| TemplateVariable.name := "TOPIC"; TemplateVariable.type := "string";
            TemplateVariable.required := true;
            TemplateVariable.description := "Topic to explain" |};
         {| TemplateVariable.name := "USER_QUERY"; TemplateVariable.type := "string";
            TemplateVariable.required := true;
            TemplateVariable.description := "User question" |} ];
     PromptTemplate.constraints := [];
     PromptTemplate.metadata :=
       {| TemplateMetadata.version := "1.0"; TemplateMetadata.author := "system";
          TemplateMetadata.usageCount := 0;
          TemplateMetadata.successRate := Some 0.7;
          TemplateMetadata.averageRating := 4.0 |} |}.

(** The text of the built-in code-analysis template, piece by piece. *)
Definition codeAnalysisPieces : list Contract.Piece :=
  [ Contract.Text "You are an expert code analyst. Analyze the following context:

Context: ";
    Contract.Var "CONTEXT";
    Contract.Text "
User Query: ";
    Contract.Var "USER_QUERY";
    Contract.Text "
Environment: ";
    Contract.Var "ENVIRONMENT";
    Contract.Text "
Available Tools: ";
    Contract.Var "TOOLS";
    Contract.Text "

Please provide:
1. A clear analysis of the situation
2. Specific recommendations
3. Implementation steps
4. Potential issues to consider

Focus on practical, actionable advice." ].

End Sample.

(** ** Reference functions for the mining and the memory *)

Module Reference.

(** The distinct elements of a list, in the order of their first
    occurrence: the key order of a [Map] filled by a loop. *)
Section FirstOccurrences.
Context {K : Type} (eqb : K -> K -> bool).

Definition addKey (seen : list K) (k : K) : list K :=
  if existsb (eqb k) seen then seen else (seen ++ [k])%list.

Definition firstOccurrences (l : list K) : list K := fold_left addKey l [].

End FirstOccurrences.

(** The snapshots of a history with a given environment, activity or
    local hour. *)
Definition withEnvironment (e : EnvironmentType.t) (history : list ContextSnapshot.t)
  : list ContextSnapshot.t :=
  filter (fun s => EnvironmentType.eqb
                     (ScreenContext.environment (ContextSnapshot.context s)) e) history.

Definition withActivity (a : ActivityType.t) (history : list ContextSnapshot.t)
  : list ContextSnapshot.t :=
  filter (fun s => ActivityType.eqb
                     (ScreenContext.activity (ContextSnapshot.context s)) a) history.

Definition atHour (localOffset : Z -> Z) (hour : option Z)
  (history : list ContextSnapshot.t) : list ContextSnapshot.t :=
  filter (fun s => ContextMemory.hour_eqb
                     (ContextMemory.getHours localOffset
                        (ScreenContext.timestamp (ContextSnapshot.context s))) hour)
    history.

(** The key of the combined pattern that [updatePatterns] maintains. *)
Definition combinedKey (context : ScreenContext.t) : string :=
  EnvironmentType.to_string (ScreenContext.environment context) ++ "-"
  ++ ActivityType.to_string (ScreenContext.activity context).

(** A stored pattern is filed under its own id and its frequency counts
    its contexts. *)
Definition wellStored (self : ContextMemory.t) : Prop :=
  Forall (fun entry =>
            ContextPattern.id (snd entry) = fst entry
            /\ ContextPattern.frequency (snd entry)
               = List.length (ContextPattern.contexts (snd entry))
            /\ (0 < ContextPattern.frequency (snd entry))%nat)
    (ContextMemory.contextPatterns self).

(** The outcomes recorded in a group of snapshots, in order, those of
    one metric, and the reference entry of a metric: how often it was
    recorded, the share of successes and the mean value. *)
Definition outcomesOf (snapshots : list ContextSnapshot.t) : list ContextOutcome.t :=
  flat_map ContextSnapshot.outcomes snapshots.

Definition withMetric (metric : string) (outcomes : list ContextOutcome.t)
  : list ContextOutcome.t :=
  filter (fun o => (ContextOutcome.metric o =? metric)%string) outcomes.

Definition sumOfValues (outcomes : list ContextOutcome.t) : Q :=
  fold_left (fun total o => total + ContextOutcome.value o) outcomes 0.

Definition tally (outcomes : list ContextOutcome.t) (metric : string) : PatternOutcome.t :=
  let recorded := withMetric metric outcomes in
  {| PatternOutcome.pattern := metric;
     PatternOutcome.frequency := List.length recorded;
     PatternOutcome.successRate :=
       inject_Z (Z.of_nat (List.length (filter ContextOutcome.success recorded)))
       / inject_Z (Z.of_nat (List.length recorded));
     PatternOutcome.averageValue :=
       sumOfValues recorded / inject_Z (Z.of_nat (List.length recorded)) |}.

(** The running totals of [extractCommonOutcomes] for one metric. *)
Definition addToStats (stats : ContextMemory.Stats) (outcome : ContextOutcome.t)
  : ContextMemory.Stats :=
  {| ContextMemory.count := ContextMemory.count stats + 1;
     ContextMemory.successes :=
       if ContextOutcome.success outcome
       then ContextMemory.successes stats + 1 else ContextMemory.successes stats;
     ContextMemory.totalValue :=
       ContextMemory.totalValue stats + ContextOutcome.value outcome |}.

Definition statsOf (outcomes : list ContextOutcome.t) (metric : string)
  : ContextMemory.Stats :=
  fold_left addToStats (withMetric metric outcomes)
    {| ContextMemory.count := 0; ContextMemory.successes := 0;
       ContextMemory.totalValue := 0 |}.

End Reference.

Module RegexReference.

(** [covers r r']: whenever [r] matches a text, [r'] matches the text in
    lower case.  The rules follow the derivatives of [Regex.deriv]. *)
Inductive covers : Regex.t -> Regex.t -> Prop :=
| covers_empty (r : Regex.t) : covers Regex.Empty r
| covers_eps : covers Regex.Eps Regex.Eps
| covers_class (p q : ascii -> bool) :
    (forall c, p c = true -> q (Js.lower_char c) = true) ->
    covers (Regex.Class p) (Regex.Class q)
| covers_seq (a b a' b' : Regex.t) :
    covers a a' -> covers b b' -> covers (Regex.Seq a b) (Regex.Seq a' b')
| covers_alt (a b a' b' : Regex.t) :
    covers a a' -> covers b b' -> covers (Regex.Alt a b) (Regex.Alt a' b')
| covers_alt_l (r a' b' : Regex.t) : covers r a' -> covers r (Regex.Alt a' b')
| covers_star (a a' : Regex.t) : covers a a' -> covers (Regex.Star a) (Regex.Star a').

End RegexReference.

Module PromptReference.

(** The first length constraint of the template asks for a concise
    prompt. *)
Definition isConcise (template : PromptTemplate.t) : bool :=
  match find (fun c => (TemplateConstraint.type c =? "length")%string)
          (PromptTemplate.constraints template) with
  | Some c => (TemplateConstraint.constraint c =? "concise")%string
  | None => false
  end.

(** The templates of the library that have the requested objective. *)
Definition candidates (self : PromptEngineer.t) (objective : PromptObjective.t)
  : list PromptTemplate.t :=
  filter (fun template => PromptObjective.eqb (PromptTemplate.objective template) objective)
    (map snd (PromptEngineer.templates self)).

(** A text in which every whitespace character is a single space that
    follows a character other than whitespace; [inRun] tells that the
    character before the text is whitespace. *)
Fixpoint tidy (inRun : bool) (s : string) : bool :=
  match s with
  | EmptyString => true
  | String c r =>
      if Js.isSpace c then Ascii.eqb c " " && negb inRun && tidy true r
      else tidy false r
  end.

(** The text neither starts nor ends with whitespace. *)
Fixpoint endsWithSpace (s : string) : bool :=
  match s with
  | EmptyString => false
  | String c EmptyString => Js.isSpace c
  | String _ r => endsWithSpace r
  end.

Definition trimmed (s : string) : bool :=
  match s with
  | EmptyString => true
  | String c _ => negb (Js.isSpace c) && negb (endsWithSpace s)
  end.

End PromptReference.

Module MoreSamples.

(** The session seen again one minute later, and six minutes later. *)
Definition editingLater : ScreenContext.t :=
  Sample.context "ctx-6" 1700043260000 EnvironmentType.ide ActivityType.coding 0.7
    "Code" "main.ts - kontext" Sample.titleSources.

(** A template whose only placeholder is the one of the query. *)
Definition plainTemplate : PromptTemplate.t :=
  {| PromptTemplate.id := "plain";
     PromptTemplate.name := "Plain Question";
     PromptTemplate.description := "Passes the question on";
     PromptTemplate.objective := PromptObjective.explanation;
     PromptTemplate.domain := "general";
     PromptTemplate.template := "Please answer: {{USER_QUERY}} Thank you.";
     PromptTemplate.variables := [];
     PromptTemplate.constraints := [];
     PromptTemplate.metadata :=
       {| TemplateMetadata.version := "1.0"; TemplateMetadata.author := "system";
          TemplateMetadata.usageCount := 0;
          TemplateMetadata.successRate := Some 0.7;
          TemplateMetadata.averageRating := 4.0 |} |}.

(** A selection of code, as typed and in capitals. *)
Definition codeSelected : ContextAnalyzer.AdditionalData.t :=
  {| ContextAnalyzer.AdditionalData.windowTitle := None;
     ContextAnalyzer.AdditionalData.activeApplication := None;
     ContextAnalyzer.AdditionalData.clipboardContent := None;
     ContextAnalyzer.AdditionalData.selectedText := Some "class Foo extends Bar" |}.

Definition capitalsSelected : ContextAnalyzer.AdditionalData.t :=
  {| ContextAnalyzer.AdditionalData.windowTitle := None;
     ContextAnalyzer.AdditionalData.activeApplication := None;
     ContextAnalyzer.AdditionalData.clipboardContent := None;
     ContextAnalyzer.AdditionalData.selectedText := Some "PUBLIC CLASS Foo" |}.

(** A context stamped one millisecond past the last valid date,
    recorded in a memory that finds a pattern from one occurrence. *)
Definition pastTheLastDate : ScreenContext.t :=
  Sample.context "ctx-9" 8640000000000001 EnvironmentType.ide ActivityType.coding 0.7
    "Code" "main.ts - kontext" Sample.titleSources.

Definition detectAtOnce : ContextMemoryConfig.t :=
  {| ContextMemoryConfig.maxHistorySize := 10;
     ContextMemoryConfig.patternDetectionThreshold := 1;
     ContextMemoryConfig.contextRetentionPeriod := 86400000 |}.

End MoreSamples.

(** * Properties of the primitives *)

(** ** Sorting *)

Section SortPermutation.
Context {A : Type} (comparefn : A -> A -> Q).

Lemma sort_insert_permutation (x : A) (l : list A) :
  Permutation (Js.sort_insert comparefn x l) (x :: l).
Proof.
  induction l as [|y t IH]; simpl.
  - reflexivity.
  - destruct (Qle_bool (comparefn x y) 0).
    + reflexivity.
    + rewrite IH. apply perm_swap.
Qed.

Lemma sort_permutation (l : list A) : Permutation (Js.sort comparefn l) l.
Proof.
  induction l as [|x t IH]; simpl.
  - reflexivity.
  - rewrite sort_insert_permutation. now apply perm_skip.
Qed.

Lemma sort_length (l : list A) : List.length (Js.sort comparefn l) = List.length l.
Proof. apply Permutation_length, sort_permutation. Qed.

Lemma sort_Forall (P : A -> Prop) (l : list A) :
  Forall P l -> Forall P (Js.sort comparefn l).
Proof.
  intros H. eapply Permutation_Forall; [|exact H].
  symmetry. apply sort_permutation.
Qed.

End SortPermutation.

(** A comparator [key b - key a] sorts by decreasing key. *)
Section SortDescending.
Context {A : Type} (key : A -> Q).

Lemma sort_insert_descending (x : A) (l : list A) :
  StronglySorted (fun a b => key b <= key a) l ->
  StronglySorted (fun a b => key b <= key a)
    (Js.sort_insert (fun a b => key b - key a) x l).
Proof.
  induction l as [|y t IH]; intros Hs; simpl.
  - constructor; constructor.
  - apply StronglySorted_inv in Hs. destruct Hs as [Ht Hy].
    destruct (Qle_bool (key y - key x) 0) eqn:E.
    + apply Qle_bool_iff in E.
      assert (Hxy : key y <= key x).
      { apply Qle_minus_iff in E. apply Qle_minus_iff.
        setoid_replace (key x + - key y) with (0 + - (key y - key x)) by ring.
        exact E. }
      constructor.
      * constructor; assumption.
      * constructor; [exact Hxy|].
        eapply Forall_impl; [|exact Hy].
        intros z Hz. simpl in Hz. eapply Qle_trans; eassumption.
    + assert (Hyx : key x <= key y).
      { destruct (Qlt_le_dec (key y) (key x)) as [Hlt|Hle]; [|exact Hle].
        exfalso. assert (Hb : Qle_bool (key y - key x) 0 = true).
        { apply Qle_bool_iff. apply Qlt_le_weak in Hlt.
          apply Qle_minus_iff in Hlt. apply Qle_minus_iff.
          setoid_replace (0 + - (key y - key x)) with (key x + - key y) by ring.
          exact Hlt. }
        congruence. }
      constructor.
      * apply IH, Ht.
      * eapply Permutation_Forall.
        { symmetry. apply sort_insert_permutation. }
        constructor; assumption.
Qed.

Lemma sort_descending (l : list A) :
  StronglySorted (fun a b => key b <= key a) (Js.sort (fun a b => key b - key a) l).
Proof.
  induction l as [|x t IH]; simpl.
  - constructor.
  - apply sort_insert_descending, IH.
Qed.

End SortDescending.

Lemma firstn_In {A : Type} (x : A) (n : nat) (l : list A) :
  In x (firstn n l) -> In x l.
Proof.
  revert l. induction n as [|n IH]; intros l H; simpl in H; [destruct H|].
  destruct l as [|y t]; [destruct H|].
  destruct H as [->|H]; [now left|right; apply IH, H].
Qed.

Lemma StronglySorted_firstn {A : Type} (R : A -> A -> Prop) (n : nat) (l : list A) :
  StronglySorted R l -> StronglySorted R (firstn n l).
Proof.
  revert l. induction n as [|n IH]; intros l Hs; simpl.
  - constructor.
  - destruct l as [|x t]; [constructor|].
    apply StronglySorted_inv in Hs. destruct Hs as [Ht Hx].
    constructor; [apply IH, Ht|].
    apply Forall_forall. intros y Hy.
    rewrite Forall_forall in Hx. apply Hx.
    eapply firstn_In. exact Hy.
Qed.

Lemma StronglySorted_map {A B : Type} (f : A -> B) (R : B -> B -> Prop) (l : list A) :
  StronglySorted (fun a b => R (f a) (f b)) l -> StronglySorted R (map f l).
Proof.
  induction 1 as [|x t Ht IH Hx]; simpl; constructor; [exact IH|].
  apply Forall_map. exact Hx.
Qed.

(** ** Slices *)

Lemma slice_prefix {A : Type} (l : list A) (n : nat) :
  Js.slice l 0 (Some (Z.of_nat n)) = firstn n l.
Proof.
  unfold Js.slice.
  replace (if (0 <? 0)%Z then _ else _) with 0%Z
    by (rewrite Z.ltb_irrefl; lia).
  assert (Hn : (Z.of_nat n <? 0)%Z = false) by (apply Z.ltb_ge; lia).
  rewrite Hn. simpl skipn.
  destruct (Nat.le_gt_cases n (List.length l)) as [Hle|Hgt].
  - f_equal. lia.
  - rewrite (firstn_all2 (n := n)) by lia.
    apply firstn_all2. lia.
Qed.

Lemma slice_suffix {A : Type} (l : list A) (n : nat) :
  (0 < n)%nat ->
  Js.slice l (- Z.of_nat n) None = skipn (List.length l - n) l.
Proof.
  intros Hn. unfold Js.slice.
  assert (Hneg : (- Z.of_nat n <? 0)%Z = true) by (apply Z.ltb_lt; lia).
  rewrite Hneg.
  replace (Z.to_nat (Z.max (Z.of_nat (List.length l) + - Z.of_nat n) 0))
    with (List.length l - n)%nat by lia.
  apply firstn_all2. rewrite length_skipn. lia.
Qed.

(** [slice(-0)] is [slice(0)]: the whole array. *)
Lemma slice_minus_zero {A : Type} (l : list A) :
  Js.slice l (- Z.of_nat 0) None = l.
Proof.
  unfold Js.slice. simpl Z.opp. rewrite Z.ltb_irrefl.
  replace (Z.min 0 (Z.of_nat (List.length l))) with 0%Z by lia.
  simpl skipn. rewrite Z.sub_0_r, Nat2Z.id. apply firstn_all.
Qed.

(** ** Strings *)

Lemma append_empty_r (s : string) : (s ++ "")%string = s.
Proof. induction s as [|c s IH]; simpl; [reflexivity|now rewrite IH]. Qed.

Lemma append_associative (a b c : string) : ((a ++ b) ++ c)%string = (a ++ b ++ c)%string.
Proof. induction a as [|d a IH]; simpl; [reflexivity|now rewrite IH]. Qed.

Lemma length_append (a b : string) :
  String.length (a ++ b) = (String.length a + String.length b)%nat.
Proof. induction a as [|d a IH]; simpl; [reflexivity|now rewrite IH]. Qed.

Lemma prefix_append (x s : string) : prefix x (x ++ s) = true.
Proof.
  induction x as [|c x IH]; simpl.
  - destruct s; reflexivity.
  - destruct (ascii_dec c c); [exact IH|congruence].
Qed.

Lemma includes_unfold (s x : string) :
  Js.includes s x =
  if prefix x s then true
  else match s with
       | EmptyString => false
       | String _ r => Js.includes r x
       end.
Proof. destruct s; reflexivity. Qed.

Lemma includes_here (x s : string) : Js.includes (x ++ s) x = true.
Proof. rewrite includes_unfold, prefix_append. reflexivity. Qed.

Lemma includes_append_r (a b x : string) :
  Js.includes b x = true -> Js.includes (a ++ b) x = true.
Proof.
  intros H. induction a as [|c a IH].
  - exact H.
  - change (String c a ++ b)%string with (String c (a ++ b)).
    rewrite includes_unfold. cbv beta iota. rewrite IH.
    destruct (prefix x (String c (a ++ b))); reflexivity.
Qed.

Lemma prefix_append_l (x a b : string) : prefix x a = true -> prefix x (a ++ b) = true.
Proof.
  revert a. induction x as [|c x IH]; intros a H.
  - destruct (a ++ b)%string; reflexivity.
  - destruct a as [|d a]; simpl in *; [discriminate|].
    destruct (ascii_dec c d); [apply IH, H|discriminate].
Qed.

Lemma includes_append_l (a b x : string) :
  Js.includes a x = true -> Js.includes (a ++ b) x = true.
Proof.
  induction a as [|c a IH]; intros H; rewrite includes_unfold in H.
  - destruct (prefix x "") eqn:E; [|discriminate].
    rewrite includes_unfold, (prefix_append_l x "" b E). reflexivity.
  - rewrite includes_unfold.
    destruct (prefix x (String c a)) eqn:E.
    + rewrite (prefix_append_l x (String c a) b E). reflexivity.
    + change (String c a ++ b)%string with (String c (a ++ b)).
      cbv beta iota. rewrite (IH H).
      destruct (prefix x (String c (a ++ b))); reflexivity.
Qed.

Lemma includes_middle (a x b : string) : Js.includes (a ++ x ++ b) x = true.
Proof. apply includes_append_r, includes_here. Qed.

Lemma includes_join (sep x : string) (parts : list string) :
  In x parts -> Js.includes (Js.join sep parts) x = true.
Proof.
  unfold Js.join. induction parts as [|p rest IH]; intros Hin; [destruct Hin|].
  destruct Hin as [->|Hin].
  - destruct rest; simpl.
    + rewrite <- (append_empty_r x) at 1. apply includes_here.
    + apply includes_here.
  - destruct rest as [|q rest]; [destruct Hin|].
    change (String.concat sep (p :: q :: rest))
      with (p ++ sep ++ String.concat sep (q :: rest))%string.
    apply includes_append_r, includes_append_r, IH, Hin.
Qed.

Lemma toLowerCase_append (a b : string) :
  Js.toLowerCase (a ++ b) = (Js.toLowerCase a ++ Js.toLowerCase b)%string.
Proof. induction a as [|c a IH]; simpl; [reflexivity|now rewrite IH]. Qed.

Lemma truthy_append (a b : string) : Js.truthy b = true -> Js.truthy (a ++ b) = true.
Proof.
  destruct a; simpl; [trivial|reflexivity].
Qed.

(** A text without the pattern is left as it is, whatever the
    replacement. *)
Lemma replace_from_absent (pattern replacement : string) (s before : string) :
  Js.includes s pattern = false ->
  Js.replace_from pattern replacement before 0 s = s.
Proof.
  revert before. induction s as [|c r IH]; intros before H.
  - reflexivity.
  - rewrite includes_unfold in H. cbn [Js.replace_from].
    destruct (prefix pattern (String c r)); [discriminate|].
    f_equal. apply IH, H.
Qed.

Lemma replaceAll_absent (s pattern replacement : string) :
  Js.includes s pattern = false -> Js.replaceAll s pattern replacement = s.
Proof. apply replace_from_absent. Qed.

(** ** String-literal unions *)

Lemma EnvironmentType_eqb_refl (e : EnvironmentType.t) : EnvironmentType.eqb e e = true.
Proof. unfold EnvironmentType.eqb. apply String.eqb_refl. Qed.

Lemma ActivityType_eqb_refl (a : ActivityType.t) : ActivityType.eqb a a = true.
Proof. unfold ActivityType.eqb. apply String.eqb_refl. Qed.

(** ** Rationals *)

Lemma len_nonneg {A : Type} (l : list A) : 0 <= ContextSynthesizer.len l.
Proof.
  unfold ContextSynthesizer.len.
  change 0 with (inject_Z 0). rewrite <- Zle_Qle. lia.
Qed.

Lemma clamp_unit (x : Q) : 0 <= x -> 0 <= Qmin 1 x /\ Qmin 1 x <= 1.
Proof.
  intros H. split.
  - apply Q.min_glb; [discriminate|exact H].
  - apply Q.le_min_l.
Qed.

Lemma StronglySorted_within {A : Type} (R R' : A -> A -> Prop) (l : list A) :
  (forall a b, In a l -> In b l -> R a b -> R' a b) ->
  StronglySorted R l -> StronglySorted R' l.
Proof.
  intros Himp Hs. induction Hs as [|x t Ht IH Hx]; constructor.
  - apply IH. intros a b Ha Hb. apply Himp; now right.
  - apply Forall_forall. intros y Hy. rewrite Forall_forall in Hx.
    apply Himp; [now left|now right|apply Hx, Hy].
Qed.

(** The ranking shared by the Memory and the Synthesizer: score every
    entry, sort by decreasing score, keep the first [n], drop the
    scores. *)
Section Ranking.
Context {A S : Type} (mk : A -> S) (item : S -> A) (key : S -> Q) (score : A -> Q).
Hypothesis item_mk : forall a, item (mk a) = a.
Hypothesis key_mk : forall a, key (mk a) = score a.

Let ranked (n : nat) (l : list A) : list A :=
  map item (Js.slice (Js.sort (fun a b => key b - key a) (map mk l)) 0 (Some (Z.of_nat n))).

Lemma ranked_In (n : nat) (l : list A) (a : A) : In a (ranked n l) -> In a l.
Proof.
  unfold ranked. rewrite slice_prefix. intros H.
  apply in_map_iff in H. destruct H as [s [<- Hs]].
  apply firstn_In in Hs.
  apply (Permutation_in _ (sort_permutation _ _)) in Hs.
  apply in_map_iff in Hs. destruct Hs as [a' [<- Ha']].
  rewrite item_mk. exact Ha'.
Qed.

Lemma ranked_length (n : nat) (l : list A) : (List.length (ranked n l) <= n)%nat.
Proof.
  unfold ranked. rewrite slice_prefix, length_map. apply firstn_le_length.
Qed.

Lemma ranked_descending (n : nat) (l : list A) :
  StronglySorted (fun a b => score b <= score a) (ranked n l).
Proof.
  unfold ranked. rewrite slice_prefix.
  apply StronglySorted_map, StronglySorted_firstn.
  apply (StronglySorted_within (fun a b => key b <= key a)).
  - intros s s' Hs Hs' Hle.
    assert (Hk : forall x, In x (Js.sort (fun a b => key b - key a) (map mk l)) ->
                           key x = score (item x)).
    { intros x Hx. apply (Permutation_in _ (sort_permutation _ _)) in Hx.
      apply in_map_iff in Hx. destruct Hx as [a [<- _]].
      now rewrite item_mk, key_mk. }
    rewrite <- (Hk s Hs), <- (Hk s' Hs'). exact Hle.
  - apply sort_descending.
Qed.

(** When everything fits, the ranking is a rearrangement of the
    entries: none is left out. *)
Lemma ranked_permutation (n : nat) (l : list A) :
  (List.length l <= n)%nat -> Permutation (ranked n l) l.
Proof.
  intros Hn. unfold ranked. rewrite slice_prefix.
  rewrite firstn_all2 by (rewrite sort_length, length_map; exact Hn).
  rewrite (Permutation_map item (sort_permutation _ (map mk l))).
  rewrite map_map. erewrite map_ext; [rewrite map_id; reflexivity|].
  intros a. apply item_mk.
Qed.

End Ranking.

(** ** Placeholders and replacement *)

Lemma prefix_cons (a b : ascii) (p s : string) :
  prefix (String a p) (String b s) = if ascii_dec a b then prefix p s else false.
Proof. reflexivity. Qed.

Lemma prefix_split (p s : string) :
  prefix p s = true -> s = (p ++ Js.drop (String.length p) s)%string.
Proof.
  revert s. induction p as [|a p IH]; intros s H.
  - reflexivity.
  - destruct s as [|b s]; [discriminate|].
    rewrite prefix_cons in H. destruct (ascii_dec a b) as [->|]; [|discriminate].
    simpl. f_equal. apply IH, H.
Qed.

Lemma lacks_append (c : ascii) (a b : string) :
  Contract.lacks c (a ++ b) = Contract.lacks c a && Contract.lacks c b.
Proof.
  induction a as [|d a IH]; simpl; [reflexivity|].
  rewrite IH. apply andb_assoc.
Qed.

(** A text that starts with another code unit than the first one of
    the pattern does not start with the pattern. *)
Lemma prefix_other_head (c : ascii) (p v b : string) :
  v <> EmptyString -> Contract.lacks c v = true -> prefix (String c p) (v ++ b) = false.
Proof.
  intros Hv Hl. destruct v as [|d v]; [congruence|].
  simpl in Hl. apply andb_prop in Hl. destruct Hl as [Hd _].
  apply negb_true_iff, Ascii.eqb_neq in Hd.
  simpl append. rewrite prefix_cons.
  destruct (ascii_dec c d); [congruence|reflexivity].
Qed.

(** Two names without braces whose placeholders agree up to the closing
    braces are the same name. *)
Lemma closing_braces_align (key name b : string) :
  Contract.lacks "}" key = true -> Contract.lacks "}" name = true ->
  prefix (key ++ "}}") ((name ++ "}}") ++ b) = true -> key = name.
Proof.
  revert name. induction key as [|c key IH]; intros name Hk Hn H.
  - destruct name as [|d name]; [reflexivity|].
    simpl in Hn. apply andb_prop in Hn. destruct Hn as [Hd _].
    apply negb_true_iff, Ascii.eqb_neq in Hd.
    cbn [append] in H. rewrite prefix_cons in H.
    destruct (ascii_dec "}" d); [congruence|discriminate].
  - simpl in Hk. apply andb_prop in Hk. destruct Hk as [Hc Hk].
    apply negb_true_iff, Ascii.eqb_neq in Hc.
    destruct name as [|d name].
    + cbn [append] in H. rewrite prefix_cons in H.
      destruct (ascii_dec c "}"); [congruence|discriminate].
    + simpl in Hn. apply andb_prop in Hn. destruct Hn as [_ Hn].
      cbn [append] in H. rewrite prefix_cons in H.
      destruct (ascii_dec c d) as [->|]; [|discriminate].
      f_equal. apply (IH name Hk Hn H).
Qed.

(** No occurrence of the placeholder of [key] starts inside an
    occurrence of the placeholder of another name. *)
Section Overlap.
Variables key name : string.
Hypothesis key_braceless : Contract.braceless key = true.
Hypothesis name_braceless : Contract.braceless name = true.
Hypothesis distinct : key <> name.

Lemma placeholder_not_inside (u v b : string) :
  PromptEngineer.placeholder name = (u ++ v)%string -> v <> EmptyString ->
  prefix (PromptEngineer.placeholder key) (v ++ b) = false.
Proof.
  unfold Contract.braceless in *.
  apply andb_prop in key_braceless. destruct key_braceless as [_ Hkr].
  apply andb_prop in name_braceless. destruct name_braceless as [Hnl Hnr].
  intros Hsplit Hv.
  change (PromptEngineer.placeholder name)
    with (String "{" (String "{" (name ++ "}}"))) in Hsplit.
  change (PromptEngineer.placeholder key) with (String "{" (String "{" (key ++ "}}"))).
  assert (Hl : Contract.lacks "{" (name ++ "}}") = true)
    by (rewrite lacks_append, Hnl; reflexivity).
  destruct u as [|u0 u].
  - cbn [append] in Hsplit. subst v. cbn [append]. rewrite !prefix_cons.
    destruct (ascii_dec "{" "{"); [|reflexivity].
    destruct (prefix (key ++ "}}") ((name ++ "}}") ++ b)) eqn:E; [|reflexivity].
    exfalso. apply distinct. apply (closing_braces_align key name b Hkr Hnr E).
  - cbn [append] in Hsplit. injection Hsplit as _ Hsplit.
    destruct u as [|u1 u].
    + cbn [append] in Hsplit. subst v. cbn [append]. rewrite prefix_cons.
      destruct (ascii_dec "{" "{"); [|reflexivity].
      apply (prefix_other_head "{" (key ++ "}}") (name ++ "}}") b); [|exact Hl].
      destruct name; discriminate.
    + cbn [append] in Hsplit. injection Hsplit as _ Hsplit.
      apply prefix_other_head; [exact Hv|].
      rewrite Hsplit, lacks_append in Hl. apply andb_prop in Hl. apply Hl.
Qed.

End Overlap.

Section PassThrough.
Variables pattern replacement x : string.
(** No match of the pattern starts inside an occurrence of [x], and no
    occurrence of [x] starts inside a match of the pattern. *)
Hypothesis pattern_not_inside :
  forall u v b, x = (u ++ v)%string -> v <> EmptyString -> prefix pattern (v ++ b) = false.
Hypothesis x_not_inside :
  forall u v b, pattern = (u ++ v)%string -> v <> EmptyString -> prefix x (v ++ b) = false.

Lemma replace_from_skip (q s before : string) :
  Js.replace_from pattern replacement before (String.length q) (q ++ s)
  = Js.replace_from pattern replacement (before ++ q) 0 s.
Proof.
  revert before. induction q as [|c q IH]; intros before.
  - simpl. now rewrite append_empty_r.
  - simpl. rewrite IH. now rewrite append_associative.
Qed.

Lemma replace_from_copies (w b before : string) :
  (forall u v, w = (u ++ v)%string -> v <> EmptyString -> prefix pattern (v ++ b) = false) ->
  Js.replace_from pattern replacement before 0 (w ++ b)
  = (w ++ Js.replace_from pattern replacement (before ++ w) 0 b)%string.
Proof.
  revert before. induction w as [|c w IH]; intros before Hw.
  - simpl. now rewrite append_empty_r.
  - simpl append. cbn [Js.replace_from].
    change (String c (w ++ b)) with (String c w ++ b)%string.
    rewrite (Hw EmptyString (String c w) eq_refl) by discriminate.
    simpl append. f_equal. rewrite IH.
    + now rewrite append_associative.
    + intros u v Huv Hv. apply (Hw (String c u) v); [simpl; now rewrite Huv|exact Hv].
Qed.

Lemma includes_skips (w s : string) :
  (forall u v, w = (u ++ v)%string -> v <> EmptyString -> prefix x (v ++ s) = false) ->
  Js.includes (w ++ s) x = Js.includes s x.
Proof.
  induction w as [|c w IH]; intros Hw.
  - reflexivity.
  - rewrite includes_unfold.
    rewrite (Hw EmptyString (String c w) eq_refl) by discriminate.
    simpl append. cbv beta iota. apply IH.
    intros u v Huv Hv. apply (Hw (String c u) v); [simpl; now rewrite Huv|exact Hv].
Qed.

Lemma includes_cons (c : ascii) (s : string) :
  Js.includes s x = true -> Js.includes (String c s) x = true.
Proof. intros H. apply (includes_append_r (String c EmptyString) s x H). Qed.

Hypothesis pattern_nonempty : pattern <> EmptyString.

Lemma replace_from_keeps (n : nat) :
  forall s before,
    (String.length s <= n)%nat ->
    Js.includes s x = true ->
    Js.includes (Js.replace_from pattern replacement before 0 s) x = true.
Proof.
  induction n as [|n IH]; intros s before Hlen Hin.
  - destruct s; [|simpl in Hlen; lia].
    rewrite includes_unfold in Hin.
    destruct (prefix x "") eqn:E; [|discriminate].
    cbn [Js.replace_from]. rewrite includes_unfold, E. reflexivity.
  - destruct s as [|c r].
    + rewrite includes_unfold in Hin.
      destruct (prefix x "") eqn:E; [|discriminate].
      cbn [Js.replace_from]. rewrite includes_unfold, E. reflexivity.
    + cbn [Js.replace_from].
      destruct (prefix pattern (String c r)) eqn:Ep.
      * (* a match of the pattern: the occurrence of [x] lies after it *)
        pose proof (prefix_split _ _ Ep) as Hs.
        set (rest := Js.drop (String.length pattern) (String c r)) in *.
        assert (Hp : exists p', pattern = String c p' /\ r = (p' ++ rest)%string).
        { clear - Hs pattern_nonempty.
          destruct pattern as [|p0 p']; [congruence|].
          cbn [append] in Hs. injection Hs as -> Hr.
          exists p'. split; [reflexivity|exact Hr]. }
        destruct Hp as [p' [Hp Hr]].
        apply includes_append_r.
        replace (String.length pattern - 1)%nat with (String.length p')
          by (rewrite Hp; simpl; lia).
        rewrite Hr at 1. rewrite replace_from_skip.
        apply IH.
        -- rewrite Hr in Hlen. simpl in Hlen. rewrite length_append in Hlen. lia.
        -- rewrite <- (includes_skips pattern rest).
           ++ rewrite <- Hs. exact Hin.
           ++ intros u v Huv Hv. apply (x_not_inside u v rest Huv Hv).
      * rewrite includes_unfold in Hin.
        destruct (prefix x (String c r)) eqn:Ex.
        -- (* an occurrence of [x] here: it is copied *)
           pose proof (prefix_split _ _ Ex) as Hs.
           set (rest := Js.drop (String.length x) (String c r)) in *.
           assert (Hcopy : Js.replace_from pattern replacement before 0 (x ++ rest)
                           = (x ++ Js.replace_from pattern replacement (before ++ x) 0 rest)%string).
           { apply replace_from_copies. intros u v Huv Hv.
             apply (pattern_not_inside u v rest Huv Hv). }
           rewrite <- Hs in Hcopy. cbn [Js.replace_from] in Hcopy. rewrite Ep in Hcopy.
           rewrite Hcopy. apply includes_here.
        -- apply includes_cons, IH; [simpl in Hlen; lia|exact Hin].
Qed.

Lemma replaceAll_keeps (s : string) :
  Js.includes s x = true -> Js.includes (Js.replaceAll s pattern replacement) x = true.
Proof.
  intros H. unfold Js.replaceAll.
  apply (replace_from_keeps (String.length s)); [lia|exact H].
Qed.

End PassThrough.

(** ** Replacement texts *)

Lemma getSubstitution_other (matched before after : string) (c : ascii) (r : string) :
  c <> "$"%char ->
  Js.getSubstitution matched before after (String c r)
  = String c (Js.getSubstitution matched before after r).
Proof.
  intros Hc.
  destruct c as [[] [] [] [] [] [] [] []]; try reflexivity.
  exfalso. apply Hc. reflexivity.
Qed.

Lemma getSubstitution_plain (matched before after template : string) :
  Contract.lacks "$" template = true ->
  Js.getSubstitution matched before after template = template.
Proof.
  induction template as [|c r IH]; intros H; [reflexivity|].
  cbn [Contract.lacks] in H. apply andb_prop in H. destruct H as [Hc Hr].
  apply negb_true_iff, Ascii.eqb_neq in Hc.
  rewrite getSubstitution_other by exact Hc.
  f_equal. apply IH, Hr.
Qed.

Lemma drop_append (p rest : string) : Js.drop (String.length p) (p ++ rest) = rest.
Proof. induction p as [|c p IH]; [destruct rest; reflexivity|exact IH]. Qed.

(** At a match the replacement text is expanded, and the scan goes on
    after the match. *)
Lemma replace_from_match (c : ascii) (p replacement before rest : string) :
  Js.replace_from (String c p) replacement before 0 (String c p ++ rest)
  = (Js.getSubstitution (String c p) before rest replacement
     ++ Js.replace_from (String c p) replacement (before ++ String c p) 0 rest)%string.
Proof.
  cbn [append Js.replace_from].
  change (String c (p ++ rest)) with (String c p ++ rest)%string.
  rewrite prefix_append, drop_append.
  replace (String.length (String c p) - 1)%nat with (String.length p)
    by (cbn [String.length]; lia).
  rewrite replace_from_skip, append_associative. reflexivity.
Qed.

Lemma lacks_includes (c : ascii) (x s : string) :
  Contract.lacks c s = true -> Js.includes s (String c x) = false.
Proof.
  induction s as [|d s IH]; intros H; rewrite includes_unfold.
  - reflexivity.
  - cbn [Contract.lacks] in H. apply andb_prop in H. destruct H as [Hd Hs].
    apply negb_true_iff, Ascii.eqb_neq in Hd.
    rewrite prefix_cons. destruct (ascii_dec c d); [congruence|]. apply IH, Hs.
Qed.

(** * Relevance scoring *)

Section Relevance.
Variables current historical : ScreenContext.t.

Lemma memory_score_is_contract :
  ContextMemory.calculateRelevanceScore current historical
  == Contract.relevance current historical.
Proof.
  unfold ContextMemory.calculateRelevanceScore, Contract.relevance,
    Contract.matchScore, Contract.recency.
  change (24 * 60 * 60 * 1000)%Z with 86400000%Z.
  apply Q.min_compat; [reflexivity|].
  destruct (EnvironmentType.eqb _ _), (ActivityType.eqb _ _), (String.eqb _ _); ring.
Qed.

Lemma synthesizer_score_formula :
  ContextSynthesizer.calculateHistoricalRelevance current historical
  == Contract.matchScore current historical + Contract.recency current historical * 0.25.
Proof.
  unfold ContextSynthesizer.calculateHistoricalRelevance, Contract.matchScore,
    Contract.recency.
  change (24 * 60 * 60 * 1000)%Z with 86400000%Z.
  destruct (EnvironmentType.eqb _ _), (ActivityType.eqb _ _), (String.eqb _ _); ring.
Qed.

End Relevance.

(** C1, as the code has it.  The relevance score of the Memory is the
    contract of the specification: environment equality 0.3, activity
    equality 0.25, active-application equality 0.2, recency
    [max(0, 1 - dt/24h)] times 0.15 and the historical confidence times
    0.1, capped at 1.  The score of the Synthesizer has the same three
    equality terms but weights recency by 0.25, has no confidence term
    and no cap. *)
Theorem relevance_scores_of_memory_and_synthesizer :
  forall current historical : ScreenContext.t,
    ContextMemory.calculateRelevanceScore current historical
    == Qmin 1 (Contract.matchScore current historical
               + Contract.recency current historical * 0.15
               + ScreenContext.confidence historical * 0.1)
    /\ ContextSynthesizer.calculateHistoricalRelevance current historical
       == Contract.matchScore current historical
          + Contract.recency current historical * 0.25.
Proof.
  intros current historical. split.
  - apply memory_score_is_contract.
  - apply synthesizer_score_formula.
Qed.

(** C1 fails as stated: for an editing session and the same session
    twelve hours earlier (historical confidence 0.7) the Memory scores
    0.895 and the Synthesizer 0.875. *)
Lemma relevance_scores_differ :
  ContextMemory.calculateRelevanceScore Sample.editing Sample.editingEarlier == 0.895
  /\ ContextSynthesizer.calculateHistoricalRelevance Sample.editing Sample.editingEarlier
     == 0.875
  /\ ~ (ContextMemory.calculateRelevanceScore Sample.editing Sample.editingEarlier
        == ContextSynthesizer.calculateHistoricalRelevance Sample.editing Sample.editingEarlier).
Proof.
  split; [vm_compute; reflexivity|].
  split; [vm_compute; reflexivity|].
  intros H. vm_compute in H. discriminate H.
Qed.

(** * The confidence of an analysis *)

Lemma calculateContextConfidence_constant (results : ContextAnalyzer.AnalysisResults) :
  ContextAnalyzer.calculateContextConfidence results = 0.7.
Proof. reflexivity. Qed.

(** C2, on the code.  The overall confidence of an analysis is the
    constant 0.7 whatever the sub-results are: the weights are declared
    and never used.  A request with the window title of an editor
    (environment confidence 0.4) and a request without auxiliary data
    (environment confidence 0.1) both get 0.7. *)
Theorem analysis_confidence_is_the_placeholder :
  (forall (self : ContextAnalyzer.t) (contextId : string) (now : Z)
          (screenshots : list string)
          (additionalData : option ContextAnalyzer.AdditionalData.t),
      ScreenContext.confidence
        (fst (ContextAnalyzer.analyzeScreenContext self contextId now screenshots
                additionalData))
      = 0.7)
  /\ ContextAnalyzer.confidence
       (ContextAnalyzer.categorizeEnvironment [] (Some Sample.editorWindow)) == 0.4
  /\ ContextAnalyzer.confidence (ContextAnalyzer.categorizeEnvironment [] None) == 0.1
  /\ ScreenContext.confidence
       (fst (ContextAnalyzer.analyzeScreenContext Sample.idleAnalyzer "a" 0 []
               (Some Sample.editorWindow)))
     = ScreenContext.confidence
         (fst (ContextAnalyzer.analyzeScreenContext Sample.idleAnalyzer "b" 0 [] None)).
Proof.
  split; [intros; reflexivity|].
  split; [vm_compute; reflexivity|].
  split; [vm_compute; reflexivity|].
  reflexivity.
Qed.

(** * Retention of the history *)

Lemma updatePatterns_history (self : ContextMemory.t) (s : ContextSnapshot.t) :
  ContextMemory.contextHistory (ContextMemory.updatePatterns self s)
  = ContextMemory.contextHistory self.
Proof. reflexivity. Qed.

Section Retention.
Variable self : ContextMemory.t.
Variables (context : ScreenContext.t) (userActions : list UserAction.t)
  (outcomes : list ContextOutcome.t) (duration : Z).

Let recorded : ContextSnapshot.t :=
  {| ContextSnapshot.context := context;
     ContextSnapshot.userActions := userActions;
     ContextSnapshot.outcomes := outcomes;
     ContextSnapshot.duration := duration |}.

Let capacity : nat := ContextMemoryConfig.maxHistorySize (ContextMemory.config self).

(** With a positive capacity the history after a record is the longest
    suffix of the extended history that fits: the entries dropped are
    the oldest ones. *)
Lemma record_keeps_most_recent :
  (0 < capacity)%nat ->
  ContextMemory.contextHistory
    (ContextMemory.addContextSnapshot self context userActions outcomes duration)
  = skipn (List.length (ContextMemory.contextHistory self ++ [recorded]) - capacity)
      (ContextMemory.contextHistory self ++ [recorded]).
Proof.
  intros Hpos. unfold ContextMemory.addContextSnapshot.
  rewrite updatePatterns_history. cbn [ContextMemory.contextHistory ContextMemory.config].
  fold recorded. fold capacity.
  destruct (capacity <? List.length (ContextMemory.contextHistory self ++ [recorded]))%nat eqn:E.
  - apply slice_suffix, Hpos.
  - apply Nat.ltb_ge in E.
    replace (List.length (ContextMemory.contextHistory self ++ [recorded]) - capacity)%nat
      with 0%nat by lia.
    reflexivity.
Qed.

Lemma record_bounded :
  (0 < capacity)%nat ->
  (List.length
     (ContextMemory.contextHistory
        (ContextMemory.addContextSnapshot self context userActions outcomes duration))
   <= capacity)%nat.
Proof.
  intros Hpos. rewrite (record_keeps_most_recent Hpos), length_skipn. lia.
Qed.

(** With a capacity of zero the guard fires and [slice(-0)] returns the
    whole array: nothing is evicted. *)
Lemma record_without_capacity :
  capacity = 0%nat ->
  ContextMemory.contextHistory
    (ContextMemory.addContextSnapshot self context userActions outcomes duration)
  = (ContextMemory.contextHistory self ++ [recorded])%list.
Proof.
  intros Hzero. unfold ContextMemory.addContextSnapshot.
  rewrite updatePatterns_history. cbn [ContextMemory.contextHistory ContextMemory.config].
  fold recorded. fold capacity. rewrite Hzero.
  destruct (0 <? List.length (ContextMemory.contextHistory self ++ [recorded]))%nat;
    [apply slice_minus_zero|reflexivity].
Qed.

(** After a cleanup every snapshot kept is younger than the retention
    period. *)
Lemma cleanup_retention (now : Z) :
  Forall (fun s =>
            (now - ContextMemoryConfig.contextRetentionPeriod (ContextMemory.config self)
             < ScreenContext.timestamp (ContextSnapshot.context s))%Z)
    (ContextMemory.contextHistory (ContextMemory.cleanup self now)).
Proof.
  apply Forall_forall. intros s Hs.
  unfold ContextMemory.cleanup in Hs. cbn [ContextMemory.contextHistory] in Hs.
  apply filter_In in Hs. destruct Hs as [_ Hs].
  apply Z.ltb_lt in Hs. exact Hs.
Qed.

End Retention.

(** C3, on the code.  A memory configured with a maximum history size
    of zero keeps every snapshot it records: after one record on any
    history the new snapshot is retained with all the earlier ones, so
    the history is longer than the configured maximum. *)
Theorem record_exceeds_zero_capacity :
  forall (history : list ContextSnapshot.t) (patterns : list (string * ContextPattern.t))
         (context : ScreenContext.t),
    let memory :=
      {| ContextMemory.config := Sample.keepNothing;
         ContextMemory.contextHistory := history;
         ContextMemory.contextPatterns := patterns |} in
    let after := ContextMemory.addContextSnapshot memory context [] [] 0 in
    ContextMemoryConfig.maxHistorySize (ContextMemory.config after) = 0%nat
    /\ ContextMemory.contextHistory after = (history ++ [Sample.snapshotOf context])%list
    /\ (ContextMemoryConfig.maxHistorySize (ContextMemory.config after)
        < List.length (ContextMemory.contextHistory after))%nat.
Proof.
  intros history patterns context memory after.
  assert (H : ContextMemory.contextHistory after
              = (history ++ [Sample.snapshotOf context])%list).
  { apply (record_without_capacity memory). reflexivity. }
  assert (Hc : ContextMemoryConfig.maxHistorySize (ContextMemory.config after) = 0%nat)
    by reflexivity.
  split; [exact Hc|]. split; [exact H|].
  rewrite Hc, H, length_app. simpl. lia.
Qed.

(** * Ranked retrieval from the Memory *)

(** C4.  [getRelevantContext] never returns a snapshot whose context id
    is the id of the query, returns at most [maxResults] snapshots, all
    of them taken from the history, and returns them by decreasing
    relevance score against the query. *)
Theorem relevant_context_excluded_bounded_ranked :
  forall (self : ContextMemory.t) (currentContext : ScreenContext.t) (maxResults : nat),
    let result := ContextMemory.getRelevantContext self currentContext maxResults in
    let score s :=
      ContextMemory.calculateRelevanceScore currentContext (ContextSnapshot.context s) in
    Forall (fun s => ScreenContext.id (ContextSnapshot.context s)
                     <> ScreenContext.id currentContext) result
    /\ (List.length result <= maxResults)%nat
    /\ StronglySorted (fun a b => score b <= score a) result
    /\ incl result (ContextMemory.contextHistory self).
Proof.
  intros self currentContext maxResults result score.
  assert (Hin : forall s, In s result ->
                In s (filter (fun s => negb (ScreenContext.id (ContextSnapshot.context s)
                                             =? ScreenContext.id currentContext)%string)
                        (ContextMemory.contextHistory self))).
  { intros s. unfold result, ContextMemory.getRelevantContext.
    apply (ranked_In _ ContextMemory.snapshot ContextMemory.relevanceScore).
    intros a. reflexivity. }
  split; [|split; [|split]].
  - apply Forall_forall. intros s Hs. apply Hin, filter_In in Hs.
    destruct Hs as [_ Hs]. apply negb_true_iff, String.eqb_neq in Hs. exact Hs.
  - unfold result, ContextMemory.getRelevantContext.
    apply (ranked_length _ ContextMemory.snapshot ContextMemory.relevanceScore).
  - unfold result, ContextMemory.getRelevantContext.
    apply (ranked_descending _ ContextMemory.snapshot ContextMemory.relevanceScore score);
      intros a; reflexivity.
  - intros s Hs. apply Hin, filter_In in Hs. apply Hs.
Qed.

(** * Quality metrics *)

Lemma div_by_five (x : Q) : x / 5 == x * (1 # 5).
Proof. reflexivity. Qed.

Section Quality.
Variables (now : Z) (context : ScreenContext.t) (domainContext : DomainContext.t)
  (history : list ContextSnapshot.t).
Hypothesis confidence_nonneg : 0 <= ScreenContext.confidence context.

Let rawAccuracy : Q :=
  ScreenContext.confidence context * 0.8
  + (ContextSynthesizer.len (ScreenContext.contextSources context) / 5) * 0.2.

Lemma rawAccuracy_nonneg : 0 <= rawAccuracy.
Proof.
  unfold rawAccuracy. rewrite div_by_five.
  pose proof (len_nonneg (ScreenContext.contextSources context)) as HL.
  set (L := ContextSynthesizer.len _) in *.
  set (c := ScreenContext.confidence context) in *.
  lra.
Qed.

Lemma completeness_range :
  0.4 <= ContextSynthesizer.calculateCompleteness context domainContext
  /\ ContextSynthesizer.calculateCompleteness context domainContext <= 1.
Proof.
  unfold ContextSynthesizer.calculateCompleteness.
  destruct (negb (EnvironmentType.eqb _ _)), (negb (ActivityType.eqb _ _)),
    (negb (String.eqb _ _)), (Js.truthy _), (0 <? _)%nat; split; lra.
Qed.

Lemma relevance_nonneg :
  0 <= ContextSynthesizer.calculateRelevance context domainContext history.
Proof.
  unfold ContextSynthesizer.calculateRelevance.
  assert (Hm : 0 <= Qmin 0.2 (ContextSynthesizer.len history * 0.05)).
  { apply Q.min_glb; [discriminate|].
    pose proof (len_nonneg history) as HL.
    set (L := ContextSynthesizer.len history) in *. lra. }
  set (m := Qmin 0.2 _) in *.
  set (c := ScreenContext.confidence context) in *.
  destruct (negb (String.eqb _ _)), (0 <? _)%nat; lra.
Qed.

Lemma timeliness_nonneg : 0 <= ContextSynthesizer.calculateTimeliness now context.
Proof. unfold ContextSynthesizer.calculateTimeliness. apply Q.le_max_l. Qed.

Lemma actionability_range :
  0 <= ContextSynthesizer.calculateActionability context domainContext
  /\ ContextSynthesizer.calculateActionability context domainContext <= 1.
Proof.
  unfold ContextSynthesizer.calculateActionability. apply clamp_unit.
  pose proof (len_nonneg (IntentAnalysis.suggestedActions (ScreenContext.userIntent context)))
    as HA.
  pose proof (len_nonneg (DomainContext.tools domainContext)) as HT.
  set (a := ContextSynthesizer.len (IntentAnalysis.suggestedActions _)) in *.
  set (t := ContextSynthesizer.len (DomainContext.tools _)) in *.
  destruct (negb (EnvironmentType.eqb _ _)); lra.
Qed.

Lemma quality_within_bounds :
  Contract.withinBounds
    (ContextSynthesizer.assessContextQuality now context domainContext history).
Proof.
  pose proof rawAccuracy_nonneg as Ha. pose proof completeness_range as [Hc _].
  pose proof relevance_nonneg as Hr. pose proof timeliness_nonneg as Ht.
  pose proof actionability_range as [Hk _].
  unfold Contract.withinBounds, ContextSynthesizer.assessContextQuality.
  cbn [ContextQualityMetrics.accuracy ContextQualityMetrics.completeness
       ContextQualityMetrics.relevance ContextQualityMetrics.timeliness
       ContextQualityMetrics.actionability ContextQualityMetrics.overallScore].
  fold rawAccuracy.
  set (a := rawAccuracy) in *.
  set (c := ContextSynthesizer.calculateCompleteness _ _) in *.
  set (r := ContextSynthesizer.calculateRelevance _ _ _) in *.
  set (t := ContextSynthesizer.calculateTimeliness _ _) in *.
  set (k := ContextSynthesizer.calculateActionability _ _) in *.
  repeat split; try apply Q.le_min_l; apply Q.min_glb; try discriminate; lra.
Qed.

End Quality.

(** C5, as the code has it.  For a context with confidence in [0, 1],
    any domain context and any history, the five sub-scores and the
    overall score of the quality record are in [0, 1]; every reported
    sub-score is its computed value capped at 1; the overall score is
    the weighted sum accuracy 0.25, completeness 0.2, relevance 0.2,
    timeliness 0.15, actionability 0.2 of the computed values, before
    they are capped, itself capped at 1; and the computed timeliness is
    [max(0, 1 - age/5min)]. *)
Theorem quality_metrics_bounds_and_formula :
  forall (now : Z) (context : ScreenContext.t) (domainContext : DomainContext.t)
         (history : list ContextSnapshot.t),
    0 <= ScreenContext.confidence context ->
    ScreenContext.confidence context <= 1 ->
    let m := ContextSynthesizer.assessContextQuality now context domainContext history in
    let accuracy :=
      ScreenContext.confidence context * 0.8
      + (ContextSynthesizer.len (ScreenContext.contextSources context) / 5) * 0.2 in
    let completeness := ContextSynthesizer.calculateCompleteness context domainContext in
    let relevance := ContextSynthesizer.calculateRelevance context domainContext history in
    let timeliness := ContextSynthesizer.calculateTimeliness now context in
    let actionability := ContextSynthesizer.calculateActionability context domainContext in
    Contract.withinBounds m
    /\ ContextQualityMetrics.overallScore m
       == Qmin 1 (accuracy * 0.25 + completeness * 0.2 + relevance * 0.2
                  + timeliness * 0.15 + actionability * 0.2)
    /\ ContextQualityMetrics.accuracy m == Qmin 1 accuracy
    /\ ContextQualityMetrics.completeness m == Qmin 1 completeness
    /\ ContextQualityMetrics.relevance m == Qmin 1 relevance
    /\ ContextQualityMetrics.timeliness m == Qmin 1 timeliness
    /\ ContextQualityMetrics.actionability m == Qmin 1 actionability
    /\ timeliness
       == Qmax 0 (1 - inject_Z (now - ScreenContext.timestamp context) / inject_Z 300000).
Proof.
  intros now context domainContext history Hlo Hhi m accuracy completeness relevance
    timeliness actionability.
  split; [apply quality_within_bounds, Hlo|].
  repeat split; reflexivity.
Qed.

(** The bounds hold for a context reported with confidence 0.7, as the
    Analyzer produces them. *)
Lemma quality_metrics_bounds_and_formula_witness :
  0 <= ScreenContext.confidence Sample.editing
  /\ ScreenContext.confidence Sample.editing <= 1
  /\ Contract.withinBounds
       (ContextSynthesizer.assessContextQuality 1700043260000 Sample.editing
          ContextSynthesizer.developmentDomain [Sample.snapshotOf Sample.editingEarlier]).
Proof.
  assert (Hlo : 0 <= ScreenContext.confidence Sample.editing) by discriminate.
  assert (Hhi : ScreenContext.confidence Sample.editing <= 1) by discriminate.
  split; [exact Hlo|]. split; [exact Hhi|].
  exact (proj1 (quality_metrics_bounds_and_formula 1700043260000 Sample.editing
                  ContextSynthesizer.developmentDomain
                  [Sample.snapshotOf Sample.editingEarlier] Hlo Hhi)).
Defined.

(** C5 fails as stated.  For a context reported by six sources with
    confidence 1 the computed accuracy is 1.04 and is reported as 1; the
    overall score, 0.67, is the weighted sum of the computed values and
    not the weighted sum 0.66 of the reported sub-scores.  For a context
    stamped one minute ahead of the clock the reported timeliness is 1
    and not [max(0, 1 - age/5min)], which is 1.2. *)
Lemma quality_overall_uses_uncapped_scores :
  let m :=
    ContextSynthesizer.assessContextQuality 1700000000000 Sample.corroborated
      Sample.generalDomain [] in
  let ahead :=
    ContextSynthesizer.assessContextQuality 1700000000000 Sample.stampedAhead
      Sample.generalDomain [] in
  ContextQualityMetrics.accuracy m == 1
  /\ ContextQualityMetrics.overallScore m == 0.67
  /\ Contract.overallOfRecord m == 0.66
  /\ ~ (ContextQualityMetrics.overallScore m == Contract.overallOfRecord m)
  /\ ContextQualityMetrics.timeliness ahead == 1
  /\ Qmax 0 (1 - inject_Z (1700000000000 - ScreenContext.timestamp Sample.stampedAhead)
                 / inject_Z 300000) == 1.2
  /\ ~ (ContextQualityMetrics.timeliness ahead
        == Qmax 0 (1 - inject_Z (1700000000000 - ScreenContext.timestamp Sample.stampedAhead)
                       / inject_Z 300000)).
Proof.
  cbv zeta.
  repeat split; try (vm_compute; reflexivity); intros H; vm_compute in H; discriminate H.
Qed.

(** * Template adaptation *)

Lemma variables_keys (engineeredContext : EngineeredContext.t) (userQuery : string) :
  map fst (PromptEngineer.variables engineeredContext userQuery) = Contract.fixedKeys.
Proof. reflexivity. Qed.

Lemma fixedKeys_braceless : Forall (fun key => Contract.braceless key = true) Contract.fixedKeys.
Proof. repeat constructor. Qed.

Lemma replace_placeholder_keeps (key name s replacement : string) :
  Contract.braceless key = true -> Contract.braceless name = true -> key <> name ->
  Js.includes s (PromptEngineer.placeholder name) = true ->
  Js.includes (Js.replaceAll s (PromptEngineer.placeholder key) replacement)
    (PromptEngineer.placeholder name) = true.
Proof.
  intros Hkey Hname Hne. apply replaceAll_keeps.
  - intros u v b. apply (placeholder_not_inside key name Hkey Hname Hne).
  - intros u v b. apply (placeholder_not_inside name key Hname Hkey).
    intros E. apply Hne. now symmetry.
  - discriminate.
Qed.

Lemma substitution_keeps (name : string) (entries : list (string * string)) (s : string) :
  Contract.braceless name = true ->
  Forall (fun key => Contract.braceless key = true /\ key <> name) (map fst entries) ->
  Js.includes s (PromptEngineer.placeholder name) = true ->
  Js.includes
    (fold_left (fun adaptedPrompt '(key, value) =>
                  Js.replaceAll adaptedPrompt (PromptEngineer.placeholder key) value)
       entries s)
    (PromptEngineer.placeholder name) = true.
Proof.
  intros Hname. revert s. induction entries as [|[key value] rest IH]; intros s Hall Hin.
  - exact Hin.
  - simpl in Hall. inversion Hall as [|? ? [Hkey Hne] Hrest]; subst.
    simpl fold_left. apply IH; [exact Hrest|].
    apply replace_placeholder_keeps; assumption.
Qed.

Lemma adaptation_keeps_unknown_placeholder (template : PromptTemplate.t)
  (engineeredContext : EngineeredContext.t) (userQuery name : string) :
  Contract.braceless name = true ->
  ~ In name Contract.fixedKeys ->
  Js.includes (PromptTemplate.template template) (PromptEngineer.placeholder name) = true ->
  Js.includes (PromptEngineer.adaptPromptToContext template engineeredContext userQuery)
    (PromptEngineer.placeholder name) = true.
Proof.
  intros Hname Hnot Hin. unfold PromptEngineer.adaptPromptToContext.
  apply substitution_keeps; [exact Hname| |exact Hin].
  rewrite variables_keys.
  pose proof fixedKeys_braceless as Hb. rewrite Forall_forall in Hb.
  apply Forall_forall. intros key Hkey. split; [apply Hb, Hkey|].
  intros ->. apply Hnot, Hkey.
Qed.

(** A template without any of the eight placeholders is returned as it
    is. *)
Lemma adaptation_without_fixed_placeholders (template : PromptTemplate.t)
  (engineeredContext : EngineeredContext.t) (userQuery : string) :
  Forall (fun key => Js.includes (PromptTemplate.template template)
                       (PromptEngineer.placeholder key) = false) Contract.fixedKeys ->
  PromptEngineer.adaptPromptToContext template engineeredContext userQuery
  = PromptTemplate.template template.
Proof.
  intros H. unfold PromptEngineer.adaptPromptToContext, PromptEngineer.variables.
  unfold Contract.fixedKeys in H.
  repeat match goal with
         | Hf : Forall _ (_ :: _) |- _ => inversion Hf; subst; clear Hf
         end.
  cbn [fold_left].
  repeat match goal with
         | Hk : Js.includes _ ?p = false |- context [Js.replaceAll _ ?p ?v] =>
             rewrite (replaceAll_absent _ p v Hk)
         end.
  reflexivity.
Qed.

Lemma selectOptimalTemplate_returns (self : PromptEngineer.t)
  (engineeredContext : EngineeredContext.t) (objective : PromptObjective.t) :
  exists template,
    PromptEngineer.selectOptimalTemplate self engineeredContext objective = Ok template.
Proof.
  unfold PromptEngineer.selectOptimalTemplate.
  set (candidates := filter _ _).
  destruct (List.length candidates =? 0)%nat eqn:E; [eexists; reflexivity|].
  apply Nat.eqb_neq in E.
  destruct (Js.sort _ _) as [|best rest] eqn:Es; [|eexists; reflexivity].
  exfalso. apply E.
  rewrite <- (length_map (fun template =>
    {| PromptEngineer.template := template;
       PromptEngineer.score :=
         PromptEngineer.scoreTemplateCompatibility template engineeredContext |}) candidates).
  rewrite <- (sort_length PromptEngineer.byScoreDescending), Es. reflexivity.
Qed.

(** A template made of literal text without opening braces and of
    placeholders: one substitution replaces the placeholders of its key
    and nothing else. *)
Lemma render_cons (p : Contract.Piece) (rest : list Contract.Piece) :
  Contract.render (p :: rest) = (Contract.pieceText p ++ Contract.render rest)%string.
Proof. reflexivity. Qed.

Lemma replace_from_pieces (key value : string) (pieces : list Contract.Piece) :
  Contract.braceless key = true ->
  Contract.lacks "$" value = true ->
  Contract.plain pieces = true ->
  forall before : string,
    Js.replace_from (PromptEngineer.placeholder key) value before 0 (Contract.render pieces)
    = Contract.render (map (Contract.fill key value) pieces).
Proof.
  intros Hkey Hvalue. induction pieces as [|p rest IH]; intros Hplain before; [reflexivity|].
  cbn [Contract.plain forallb] in Hplain. apply andb_prop in Hplain.
  destruct Hplain as [Hp Hrest]. cbn [map]. rewrite !render_cons.
  destruct p as [s|name]; cbn [Contract.fill].
  - cbn [Contract.pieceText]. rewrite replace_from_copies.
    + f_equal. apply (IH Hrest).
    + intros u v Huv Hv.
      change (PromptEngineer.placeholder key) with (String "{" (String "{" (key ++ "}}"))).
      apply prefix_other_head; [exact Hv|].
      rewrite Huv, lacks_append in Hp. apply andb_prop in Hp. apply Hp.
  - destruct (name =? key)%string eqn:E.
    + apply String.eqb_eq in E. subst name. cbn [Contract.pieceText].
      change (PromptEngineer.placeholder key) with (String "{" (String "{" (key ++ "}}"))).
      rewrite replace_from_match, getSubstitution_plain by exact Hvalue.
      f_equal. apply (IH Hrest).
    + apply String.eqb_neq in E. cbn [Contract.pieceText]. rewrite replace_from_copies.
      * f_equal. apply (IH Hrest).
      * intros u v. apply (placeholder_not_inside key name Hkey Hp).
        intros Heq. apply E. now symmetry.
Qed.

Lemma plain_fill (key value : string) (pieces : list Contract.Piece) :
  Contract.lacks "{" value = true ->
  Contract.plain pieces = true ->
  Contract.plain (map (Contract.fill key value) pieces) = true.
Proof.
  intros Hvalue. unfold Contract.plain.
  induction pieces as [|p rest IH]; intros H; [reflexivity|].
  cbn [forallb map] in *. apply andb_prop in H. destruct H as [Hp Hrest].
  rewrite (IH Hrest), andb_true_r.
  destruct p as [s|name]; cbn [Contract.fill]; [exact Hp|].
  destruct (name =? key)%string; [exact Hvalue|exact Hp].
Qed.

Lemma substitution_of_pieces (entries : list (string * string)) :
  forall pieces : list Contract.Piece,
    forallb (fun entry => Contract.braceless (fst entry) && Contract.verbatim (snd entry))
      entries = true ->
    Contract.plain pieces = true ->
    fold_left (fun adaptedPrompt '(key, value) =>
                 Js.replaceAll adaptedPrompt (PromptEngineer.placeholder key) value)
      entries (Contract.render pieces)
    = Contract.render
        (fold_left (fun filled '(key, value) => map (Contract.fill key value) filled)
           entries pieces).
Proof.
  induction entries as [|[key value] rest IH]; intros pieces Hentries Hplain; [reflexivity|].
  cbn [forallb fst snd] in Hentries. apply andb_prop in Hentries.
  destruct Hentries as [Hentry Hrest]. apply andb_prop in Hentry.
  destruct Hentry as [Hkey Hvalue]. unfold Contract.verbatim in Hvalue.
  apply andb_prop in Hvalue. destruct Hvalue as [Hdollar Hbrace].
  cbn [fold_left]. unfold Js.replaceAll at 2.
  rewrite (replace_from_pieces key value pieces Hkey Hdollar Hplain).
  apply (IH _ Hrest). apply plain_fill; assumption.
Qed.

Lemma instantiate_fill (key value : string) (rest : list (string * string))
  (pieces : list Contract.Piece) :
  Contract.instantiate rest (map (Contract.fill key value) pieces)
  = Contract.instantiate ((key, value) :: rest) pieces.
Proof.
  unfold Contract.instantiate. induction pieces as [|p pieces IH]; [reflexivity|].
  cbn [map fold_right]. rewrite IH. f_equal.
  destruct p as [s|name]; cbn [Contract.fill Js.get]; [reflexivity|].
  destruct (name =? key)%string; reflexivity.
Qed.

Lemma fills_instantiate (entries : list (string * string)) :
  forall pieces : list Contract.Piece,
    Contract.render
      (fold_left (fun filled '(key, value) => map (Contract.fill key value) filled)
         entries pieces)
    = Contract.instantiate entries pieces.
Proof.
  induction entries as [|[key value] rest IH]; intros pieces.
  - unfold Contract.render, Contract.instantiate.
    induction pieces as [|p pieces IHp]; [reflexivity|].
    cbn [fold_left fold_right] in *. rewrite IHp. destruct p; reflexivity.
  - cbn [fold_left]. rewrite IH. apply instantiate_fill.
Qed.

Lemma forallb_both {A : Type} (f g : A -> bool) (l : list A) :
  forallb f l = true -> forallb g l = true -> forallb (fun a => f a && g a) l = true.
Proof.
  induction l as [|a l IH]; intros Hf Hg; [reflexivity|].
  cbn [forallb] in *. apply andb_prop in Hf. apply andb_prop in Hg.
  destruct Hf as [Hfa Hfl], Hg as [Hga Hgl]. now rewrite Hfa, Hga, IH.
Qed.

(** The adaptation of a template of plain pieces with values that are
    inserted as they are. *)
Lemma adaptation_of_pieces (template : PromptTemplate.t)
  (engineeredContext : EngineeredContext.t) (userQuery : string)
  (pieces : list Contract.Piece) :
  PromptTemplate.template template = Contract.render pieces ->
  Contract.plain pieces = true ->
  forallb (fun entry => Contract.verbatim (snd entry))
    (PromptEngineer.variables engineeredContext userQuery) = true ->
  PromptEngineer.adaptPromptToContext template engineeredContext userQuery
  = Contract.instantiate (PromptEngineer.variables engineeredContext userQuery) pieces.
Proof.
  intros Hbody Hplain Hvalues. unfold PromptEngineer.adaptPromptToContext.
  rewrite Hbody, substitution_of_pieces, fills_instantiate; [reflexivity| |exact Hplain].
  apply forallb_both; [reflexivity|exact Hvalues].
Qed.

Lemma get_Some_In (entries : list (string * string)) (name value : string) :
  Js.get String.eqb entries name = Some value -> In (name, value) entries.
Proof.
  induction entries as [|[k v] rest IH]; intros H; [discriminate H|].
  cbn [Js.get] in H. destruct (name =? k)%string eqn:E.
  - apply String.eqb_eq in E. injection H as ->. subst. now left.
  - right. apply IH, H.
Qed.

Lemma get_None_not_In (entries : list (string * string)) (name : string) :
  Js.get String.eqb entries name = None -> ~ In name (map fst entries).
Proof.
  induction entries as [|[k v] rest IH]; intros H; [intros []|].
  cbn [Js.get] in H. destruct (name =? k)%string eqn:E; [discriminate H|].
  apply String.eqb_neq in E. intros [Hk|Hin]; [apply E; now symmetry|].
  apply (IH H Hin).
Qed.

(** No placeholder of a name that has an entry is left in the
    instantiated template. *)
Lemma instantiate_resolves (entries : list (string * string))
  (pieces : list Contract.Piece) (key : string) :
  Contract.plain pieces = true ->
  forallb (fun entry => Contract.verbatim (snd entry)) entries = true ->
  Contract.braceless key = true ->
  In key (map fst entries) ->
  Js.includes (Contract.instantiate entries pieces) (PromptEngineer.placeholder key) = false.
Proof.
  intros Hplain Hvalues Hkey Hin. unfold Contract.instantiate.
  induction pieces as [|p rest IH]; [reflexivity|].
  cbn [Contract.plain forallb] in Hplain. apply andb_prop in Hplain.
  destruct Hplain as [Hp Hrest]. cbn [fold_right].
  rewrite includes_skips; [apply (IH Hrest)|].
  intros u v Huv Hv.
  assert (Hother : forall w : string,
             w = (u ++ v)%string -> Contract.lacks "{" w = true ->
             prefix (PromptEngineer.placeholder key) (v ++ fold_right
               (fun p rest =>
                  match p with
                  | Contract.Text s => s
                  | Contract.Var name =>
                      match Js.get String.eqb entries name with
                      | Some value => value
                      | None => PromptEngineer.placeholder name
                      end
                  end ++ rest) EmptyString rest) = false).
  { intros w Hw Hl.
    change (PromptEngineer.placeholder key) with (String "{" (String "{" (key ++ "}}"))).
    apply prefix_other_head; [exact Hv|].
    rewrite Hw, lacks_append in Hl. apply andb_prop in Hl. apply Hl. }
  destruct p as [s|name].
  - apply (Hother s Huv Hp).
  - destruct (Js.get String.eqb entries name) as [value|] eqn:E.
    + apply (Hother value Huv).
      apply get_Some_In in E. rewrite forallb_forall in Hvalues.
      specialize (Hvalues _ E). cbn [snd] in Hvalues. unfold Contract.verbatim in Hvalues.
      apply andb_prop in Hvalues. apply Hvalues.
    + refine (placeholder_not_inside key name Hkey Hp _ u v _ Huv Hv).
      intros ->. apply (get_None_not_In _ _ E Hin).
Qed.



(** What the instantiated template reads for that query. *)
Example code_analysis_prompt_for_a_plain_query :
  Js.includes
    (Contract.instantiate (PromptEngineer.variables Sample.engineered "what is a monad")
       Sample.codeAnalysisPieces)
    "User Query: what is a monad" = true
  /\ Contract.unresolved PromptEngineer.codeAnalysisTemplate
       (Contract.instantiate (PromptEngineer.variables Sample.engineered "what is a monad")
          Sample.codeAnalysisPieces) = false.
Proof. split; vm_compute; reflexivity. Qed.

(** A template with a placeholder outside the eight names keeps it. *)
Example unknown_placeholder_is_kept :
  PromptEngineer.adaptPromptToContext Sample.topicTemplate Sample.engineered
    "what is a monad"
  = "Explain {{TOPIC}} to the user. Question: what is a monad".
Proof. vm_compute. reflexivity. Qed.


(** * Pattern mining *)

(** Every group of a family that reaches the threshold gives one
    pattern, built from the group alone. *)
Ltac family_mined self mined :=
  apply Forall_flat_map, Forall_forall; intros [? snapshots] _;
  let E := fresh "E" in
  destruct (ContextMemory.meetsThreshold self snapshots) eqn:E;
  constructor; [|constructor];
  unfold mined; cbn; rewrite length_map;
  split; [reflexivity|]; split; [reflexivity|]; split; [apply Nat.leb_le, E|];
  match goal with |- prefix EmptyString ?s = true => destruct s; reflexivity end.

Section Mining.
Variable self : ContextMemory.t.

Let threshold : nat := ContextMemoryConfig.patternDetectionThreshold (ContextMemory.config self).

(** What every pattern of a family satisfies: the confidence is
    [min(1, frequency / K)], the frequency counts the contributing
    contexts and reaches the threshold, the id has the prefix of the
    family. *)
Let mined (family : string) (K : Q) (p : ContextPattern.t) : Prop :=
  ContextPattern.confidence p
  = Qmin 1 (inject_Z (Z.of_nat (ContextPattern.frequency p)) / K)
  /\ ContextPattern.frequency p = List.length (ContextPattern.contexts p)
  /\ (threshold <= ContextPattern.frequency p)%nat
  /\ prefix family (ContextPattern.id p) = true.

Lemma environment_patterns_mined :
  Forall (mined "env-" 20) (ContextMemory.identifyEnvironmentPatterns self).
Proof. unfold ContextMemory.identifyEnvironmentPatterns. family_mined self mined. Qed.

Lemma activity_patterns_mined :
  Forall (mined "activity-" 15) (ContextMemory.identifyActivityPatterns self).
Proof. unfold ContextMemory.identifyActivityPatterns. family_mined self mined. Qed.

Lemma temporal_patterns_mined (localOffset : Z -> Z) :
  Forall (mined "time-" 10) (ContextMemory.identifyTemporalPatterns localOffset self).
Proof. unfold ContextMemory.identifyTemporalPatterns. family_mined self mined. Qed.

End Mining.

(** Mining reads the history and the configuration and writes the
    pattern map only. *)
Lemma identifyPatterns_preserves (localOffset : Z -> Z) (self : ContextMemory.t) :
  ContextMemory.contextHistory (snd (ContextMemory.identifyPatterns localOffset self))
  = ContextMemory.contextHistory self
  /\ ContextMemory.config (snd (ContextMemory.identifyPatterns localOffset self))
     = ContextMemory.config self.
Proof. split; reflexivity. Qed.

(** C7.  Two calls of [identifyPatterns] in succession return the same
    list of patterns: the same ids, names, frequencies, contributing
    contexts, triggers, outcomes and confidences in the same order.  The
    list is made of the environment, the activity and the hour-of-day
    patterns, whose confidences are [min(1, count/20)],
    [min(1, count/15)] and [min(1, count/10)]. *)
Theorem pattern_mining_is_idempotent :
  forall (localOffset : Z -> Z) (self : ContextMemory.t),
    let first := ContextMemory.identifyPatterns localOffset self in
    let second := ContextMemory.identifyPatterns localOffset (snd first) in
    fst second = fst first
    /\ fst first
       = (ContextMemory.identifyEnvironmentPatterns self
          ++ ContextMemory.identifyActivityPatterns self
          ++ ContextMemory.identifyTemporalPatterns localOffset self)%list
    /\ Forall (fun p =>
                 ContextPattern.confidence p
                 = Qmin 1 (inject_Z (Z.of_nat (ContextPattern.frequency p)) / 20)
                 /\ ContextPattern.frequency p = List.length (ContextPattern.contexts p)
                 /\ prefix "env-" (ContextPattern.id p) = true)
         (ContextMemory.identifyEnvironmentPatterns self)
    /\ Forall (fun p =>
                 ContextPattern.confidence p
                 = Qmin 1 (inject_Z (Z.of_nat (ContextPattern.frequency p)) / 15)
                 /\ ContextPattern.frequency p = List.length (ContextPattern.contexts p)
                 /\ prefix "activity-" (ContextPattern.id p) = true)
         (ContextMemory.identifyActivityPatterns self)
    /\ Forall (fun p =>
                 ContextPattern.confidence p
                 = Qmin 1 (inject_Z (Z.of_nat (ContextPattern.frequency p)) / 10)
                 /\ ContextPattern.frequency p = List.length (ContextPattern.contexts p)
                 /\ prefix "time-" (ContextPattern.id p) = true)
         (ContextMemory.identifyTemporalPatterns localOffset self).
Proof.
  intros localOffset self first second.
  split; [reflexivity|]. split; [reflexivity|].
  split; [|split].
  - eapply Forall_impl; [|apply environment_patterns_mined].
    intros p (Hc & Hf & _ & Hi). auto.
  - eapply Forall_impl; [|apply activity_patterns_mined].
    intros p (Hc & Hf & _ & Hi). auto.
  - eapply Forall_impl; [|apply temporal_patterns_mined].
    intros p (Hc & Hf & _ & Hi). auto.
Qed.

(** * Environment categorization *)

Lemma categorizeEnvironment_is_contract (screenshots : list string)
  (additionalData : option ContextAnalyzer.AdditionalData.t) :
  ContextAnalyzer.type (ContextAnalyzer.categorizeEnvironment screenshots additionalData)
  = fst (Contract.environment additionalData)
  /\ ContextAnalyzer.confidence
       (ContextAnalyzer.categorizeEnvironment screenshots additionalData)
     == snd (Contract.environment additionalData).
Proof.
  unfold ContextAnalyzer.categorizeEnvironment, Contract.environment,
    Contract.vocabularies, ContextAnalyzer.isIdeEnvironment,
    ContextAnalyzer.isBrowserEnvironment, ContextAnalyzer.isDesignEnvironment,
    ContextAnalyzer.isDocumentEnvironment, ContextAnalyzer.isTerminalEnvironment.
  destruct (Js.truthy_opt _ || Js.truthy_opt _); [|split; reflexivity].
  cbn [find].
  destruct (ContextAnalyzer.someIndicator ContextAnalyzer.ideIndicators _ _);
    [split; reflexivity|].
  destruct (ContextAnalyzer.someIndicator ContextAnalyzer.browserIndicators _ _);
    [split; reflexivity|].
  destruct (ContextAnalyzer.someIndicator ContextAnalyzer.designIndicators _ _);
    [split; reflexivity|].
  destruct (ContextAnalyzer.someIndicator ContextAnalyzer.documentIndicators _ _);
    [split; reflexivity|].
  destruct (ContextAnalyzer.someIndicator ContextAnalyzer.terminalIndicators _ _);
    split; reflexivity.
Qed.

Lemma vscode_title_is_ide (pre post app : string) :
  ContextAnalyzer.isIdeEnvironment (Js.toLowerCase (pre ++ "vscode" ++ post)) app = true.
Proof.
  unfold ContextAnalyzer.isIdeEnvironment, ContextAnalyzer.someIndicator.
  apply existsb_exists. exists "vscode". split.
  - unfold ContextAnalyzer.ideIndicators. simpl. tauto.
  - rewrite !toLowerCase_append.
    change (Js.toLowerCase "vscode") with "vscode".
    rewrite includes_middle. reflexivity.
Qed.


(** * The window-title clause of the description *)

Lemma substring_whole (n : nat) (s : string) :
  (String.length s <= n)%nat -> substring 0 n s = s.
Proof.
  revert s. induction n as [|n IH]; intros s H.
  - destruct s; [reflexivity|simpl in H; lia].
  - destruct s as [|c s]; [reflexivity|].
    simpl. f_equal. apply IH. simpl in H. lia.
Qed.

Lemma substring_length (n : nat) (s : string) :
  String.length (substring 0 n s) = Nat.min n (String.length s).
Proof.
  revert s. induction n as [|n IH]; intros s.
  - destruct s; reflexivity.
  - destruct s as [|c s]; [reflexivity|]. simpl. now rewrite IH.
Qed.

(** The description of a context with a non-empty window title contains
    the clause built from the first fifty code units of the title; the
    ellipsis is there exactly when the title has at least fifty. *)
Lemma window_title_clause (context : ScreenContext.t) (weights : ContextSynthesizer.Weights) :
  let title := ApplicationContext.windowTitle (ScreenContext.applicationDetails context) in
  Js.truthy title = true ->
  Js.includes (ContextSynthesizer.generateSituationalDescription context weights)
    ("with focus on " ++ ContextSynthesizer.dquote ++ Js.substring0 50 title
       ++ (if (50 <=? String.length title)%nat then "..." else "")
       ++ ContextSynthesizer.dquote) = true.
Proof.
  intros title Htitle.
  assert (Hlen : (50 <=? String.length (Js.substring0 50 title))%nat
                 = (50 <=? String.length title)%nat).
  { unfold Js.substring0. rewrite substring_length.
    destruct (50 <=? String.length title)%nat eqn:E.
    - apply Nat.leb_le in E. apply Nat.leb_le. lia.
    - apply Nat.leb_gt in E. apply Nat.leb_gt. lia. }
  unfold ContextSynthesizer.generateSituationalDescription.
  fold title. rewrite Htitle, Hlen.
  set (clause := ("with focus on " ++ _)%string).
  apply includes_join.
  unfold Js.push.
  repeat match goal with
         | |- context [if ?b then _ else _] => destruct b
         end;
    repeat (rewrite in_app_iff; simpl); tauto.
Qed.

(** C9, on the code.  A window title of exactly fifty characters is not
    longer than fifty, yet the description shows it in full followed by
    an ellipsis: the test is made on the truncated title with [>=]. *)
Theorem title_of_fifty_characters_gets_an_ellipsis :
  forall (context : ScreenContext.t) (weights : ContextSynthesizer.Weights),
    let title := ApplicationContext.windowTitle (ScreenContext.applicationDetails context) in
    String.length title = 50%nat ->
    Js.includes (ContextSynthesizer.generateSituationalDescription context weights)
      ("with focus on " ++ ContextSynthesizer.dquote ++ title ++ "..."
         ++ ContextSynthesizer.dquote) = true.
Proof.
  intros context weights title Hlen.
  assert (Htruthy : Js.truthy title = true).
  { destruct title; [discriminate Hlen|reflexivity]. }
  pose proof (window_title_clause context weights Htruthy) as H.
  fold title in H. unfold Js.substring0 in H.
  rewrite substring_whole in H by lia.
  rewrite Hlen in H. exact H.
Qed.

(** The title of fifty characters of the sample context. *)
Lemma title_of_fifty_characters_gets_an_ellipsis_witness :
  String.length
    (ApplicationContext.windowTitle (ScreenContext.applicationDetails Sample.fiftyContext))
  = 50%nat
  /\ Js.includes
       (ContextSynthesizer.generateSituationalDescription Sample.fiftyContext
          (ContextSynthesizer.weightContextElements Sample.fiftyContext))
       ("with focus on " ++ ContextSynthesizer.dquote ++ Sample.fiftyTitle ++ "..."
          ++ ContextSynthesizer.dquote) = true.
Proof.
  split; [reflexivity|].
  exact (title_of_fifty_characters_gets_an_ellipsis Sample.fiftyContext
           (ContextSynthesizer.weightContextElements Sample.fiftyContext) eq_refl).
Defined.

(** * History selection of the Synthesizer *)

Lemma identical_context_scores_one (c : ScreenContext.t) :
  ContextSynthesizer.calculateHistoricalRelevance c c == 1.
Proof.
  rewrite synthesizer_score_formula.
  unfold Contract.matchScore, Contract.recency.
  rewrite EnvironmentType_eqb_refl, ActivityType_eqb_refl, String.eqb_refl, Z.sub_diag.
  reflexivity.
Qed.

(** The selection of the Synthesizer filters nothing: when the history
    fits in [maxResults] every snapshot of it is returned. *)
Lemma selectRelevantHistory_permutation (currentContext : ScreenContext.t)
  (history : list ContextSnapshot.t) (maxResults : nat) :
  (List.length history <= maxResults)%nat ->
  Permutation (ContextSynthesizer.selectRelevantHistory currentContext history maxResults)
    history.
Proof.
  intros H. unfold ContextSynthesizer.selectRelevantHistory.
  destruct (List.length history =? 0)%nat eqn:E.
  - apply Nat.eqb_eq in E. destruct history; [reflexivity|discriminate E].
  - apply (ranked_permutation _ ContextSynthesizer.snapshot
             ContextSynthesizer.relevanceScore); [reflexivity|exact H].
Qed.

(** C10.  The history selection of the Synthesizer does not exclude the
    current context.  A context scores 1 against itself; for the memory
    that has recorded the earlier session and the current one, [synthesize]
    returns the snapshot of the current context first in
    [relevantHistory], while [getRelevantContext] on the same history
    leaves it out. *)
Theorem synthesizer_selection_keeps_the_current_context :
  (forall c : ScreenContext.t, ContextSynthesizer.calculateHistoricalRelevance c c == 1)
  /\ exists (current : ScreenContext.t) (memory : ContextMemory.t) (own : ContextSnapshot.t),
       In own (ContextMemory.contextHistory memory)
       /\ ScreenContext.id (ContextSnapshot.context own) = ScreenContext.id current
       /\ hd_error
            (EngineeredContext.relevantHistory
               (fst (ContextSynthesizer.synthesizeContext ContextSynthesizer.new
                       "engineered_1" 1700043260000 1700043260000 current
                       (ContextMemory.contextHistory memory) None)))
          = Some own
       /\ ContextSynthesizer.selectRelevantHistory current
            (ContextMemory.contextHistory memory) 5
          = [own; Sample.snapshotOf Sample.editingEarlier]
       /\ ContextMemory.getRelevantContext memory current 5
          = [Sample.snapshotOf Sample.editingEarlier].
Proof.
  split; [apply identical_context_scores_one|].
  exists Sample.editing, Sample.recordedMemory, (Sample.snapshotOf Sample.editing).
  split; [right; left; reflexivity|].
  split; [reflexivity|].
  split; [vm_compute; reflexivity|].
  split; vm_compute; reflexivity.
Qed.

(** * Further properties of the engines *)

(** ** The insertion-ordered map *)

Section MapFacts.
Context {K V : Type} (eqb : K -> K -> bool).
Hypothesis eqb_eq : forall a b, eqb a b = true <-> a = b.

Lemma eqb_same (k : K) : eqb k k = true.
Proof. now apply eqb_eq. Qed.

Lemma eqb_other (a b : K) : a <> b -> eqb a b = false.
Proof.
  intros H. destruct (eqb a b) eqn:E; [|reflexivity].
  apply eqb_eq in E. contradiction.
Qed.

Lemma get_set_same (m : list (K * V)) (k : K) (v : V) :
  Js.get eqb (Js.set eqb m k v) k = Some v.
Proof.
  induction m as [|[k' v'] r IH]; simpl.
  - now rewrite eqb_same.
  - destruct (eqb k k') eqn:E; simpl; rewrite E; [reflexivity|exact IH].
Qed.

Lemma get_set_other (m : list (K * V)) (k k' : K) (v : V) :
  k <> k' -> Js.get eqb (Js.set eqb m k v) k' = Js.get eqb m k'.
Proof.
  intros Hne. induction m as [|[k0 v0] r IH]; simpl.
  - rewrite eqb_other; [reflexivity|congruence].
  - destruct (eqb k k0) eqn:E; simpl.
    + apply eqb_eq in E. subst k0. rewrite !(eqb_other k' k); congruence.
    + destruct (eqb k' k0); [reflexivity|exact IH].
Qed.

Lemma set_In (m : list (K * V)) (k : K) (v : V) (entry : K * V) :
  In entry (Js.set eqb m k v) -> entry = (k, v) \/ In entry m.
Proof.
  induction m as [|[k0 v0] r IH]; simpl.
  - intros [ <- | [] ]. now left.
  - destruct (eqb k k0) eqn:E; simpl.
    + apply eqb_eq in E. subst k0. intros [ <- | H ]; [now left|right; now right].
    + intros [ <- | H ]; [right; now left|].
      destruct (IH H) as [ -> | H' ]; [now left|right; now right].
Qed.

Lemma has_existsb (m : list (K * V)) (k : K) :
  Js.has eqb m k = existsb (eqb k) (map fst m).
Proof.
  unfold Js.has. induction m as [|[k0 v0] r IH]; simpl; [reflexivity|].
  destruct (eqb k k0); [reflexivity|exact IH].
Qed.

Lemma get_absent (m : list (K * V)) (k : K) :
  existsb (eqb k) (map fst m) = false -> Js.get eqb m k = None.
Proof.
  intros H. rewrite <- has_existsb in H. unfold Js.has in H.
  destruct (Js.get eqb m k); [discriminate|reflexivity].
Qed.

Lemma set_absent (m : list (K * V)) (k : K) (v : V) :
  existsb (eqb k) (map fst m) = false -> Js.set eqb m k v = (m ++ [(k, v)])%list.
Proof.
  induction m as [|[k0 v0] r IH]; simpl; [reflexivity|].
  destruct (eqb k k0); [discriminate|]. intros H. now rewrite IH.
Qed.

Lemma set_set (m : list (K * V)) (k : K) (v w : V) :
  Js.set eqb (Js.set eqb m k v) k w = Js.set eqb m k w.
Proof.
  induction m as [|[k0 v0] r IH]; simpl.
  - now rewrite eqb_same.
  - destruct (eqb k k0) eqn:E; simpl; rewrite E; [reflexivity|now rewrite IH].
Qed.

(** Overwriting the entry of [k] in a table of values computed from the
    keys. *)
Lemma set_map_present (f g : K -> V) (keys : list K) (k : K) :
  NoDup keys -> In k keys ->
  (forall k', k' <> k -> g k' = f k') ->
  Js.set eqb (map (fun k' => (k', f k')) keys) k (g k) = map (fun k' => (k', g k')) keys.
Proof.
  intros Hnd Hin Hother. induction keys as [|k0 r IH]; [destruct Hin|].
  inversion Hnd as [|? ? Hk0 Hr]; subst. simpl.
  destruct (eqb k k0) eqn:E.
  - apply eqb_eq in E. subst k0. f_equal.
    apply map_ext_in. intros k' Hk'. f_equal. symmetry. apply Hother.
    intros ->. contradiction.
  - destruct Hin as [ -> | Hin ]; [rewrite eqb_same in E; discriminate|].
    f_equal.
    + f_equal. symmetry. apply Hother. intros ->. rewrite eqb_same in E. discriminate.
    + apply IH; assumption.
Qed.

Lemma existsb_In (keys : list K) (k : K) : existsb (eqb k) keys = true <-> In k keys.
Proof.
  rewrite existsb_exists. split.
  - intros [x [Hx E]]. apply eqb_eq in E. now subst.
  - intros H. exists k. split; [exact H|apply eqb_same].
Qed.

Lemma addKey_NoDup (seen : list K) (k : K) :
  NoDup seen -> NoDup (Reference.addKey eqb seen k).
Proof.
  intros H. unfold Reference.addKey.
  destruct (existsb (eqb k) seen) eqn:E; [exact H|].
  apply NoDup_app; [exact H|repeat constructor; intros []|].
  intros x Hx [ <- | [] ].
  apply existsb_In in Hx. congruence.
Qed.

Lemma addKey_In (seen : list K) (k x : K) :
  In x (Reference.addKey eqb seen k) <-> In x seen \/ x = k.
Proof.
  unfold Reference.addKey. destruct (existsb (eqb k) seen) eqn:E.
  - apply existsb_In in E. split; [now left|]. intros [ H | -> ]; assumption.
  - rewrite in_app_iff. simpl. intuition.
Qed.

Lemma firstOccurrences_snoc (l : list K) (k : K) :
  Reference.firstOccurrences eqb (l ++ [k])
  = Reference.addKey eqb (Reference.firstOccurrences eqb l) k.
Proof. unfold Reference.firstOccurrences. now rewrite fold_left_app. Qed.

Lemma firstOccurrences_NoDup (l : list K) : NoDup (Reference.firstOccurrences eqb l).
Proof.
  induction l as [|k l IH] using rev_ind.
  - constructor.
  - rewrite firstOccurrences_snoc. now apply addKey_NoDup.
Qed.

Lemma firstOccurrences_In (l : list K) (x : K) :
  In x (Reference.firstOccurrences eqb l) <-> In x l.
Proof.
  induction l as [|k l IH] using rev_ind.
  - reflexivity.
  - rewrite firstOccurrences_snoc, addKey_In, in_app_iff, IH. simpl. intuition.
Qed.

End MapFacts.

(** ** Grouping of the history *)

Section GroupingFacts.
Context {K : Type} (eqb : K -> K -> bool) (key : ContextSnapshot.t -> K).
Hypothesis eqb_eq : forall a b, eqb a b = true <-> a = b.

Let members (history : list ContextSnapshot.t) (k : K) : list ContextSnapshot.t :=
  filter (fun s => eqb (key s) k) history.

Lemma get_map_present (f : K -> list ContextSnapshot.t) (keys : list K) (k : K) :
  In k keys -> Js.get eqb (map (fun k' => (k', f k')) keys) k = Some (f k).
Proof.
  induction keys as [|k0 r IH]; intros Hin; [destruct Hin|]. simpl.
  destruct (eqb k k0) eqn:E.
  - apply eqb_eq in E. now subst.
  - destruct Hin as [ -> | Hin ]; [rewrite (eqb_same eqb eqb_eq) in E; discriminate|].
    now apply IH.
Qed.

Lemma members_snoc_same (history : list ContextSnapshot.t) (s : ContextSnapshot.t) :
  members (history ++ [s]) (key s) = (members history (key s) ++ [s])%list.
Proof.
  unfold members. rewrite filter_app. simpl. now rewrite (eqb_same eqb eqb_eq).
Qed.

Lemma members_snoc_other (history : list ContextSnapshot.t) (s : ContextSnapshot.t) (k : K) :
  k <> key s -> members (history ++ [s]) k = members history k.
Proof.
  intros Hne. unfold members. rewrite filter_app. simpl.
  rewrite (eqb_other eqb eqb_eq) by congruence. apply app_nil_r.
Qed.

Lemma members_absent (history : list ContextSnapshot.t) (k : K) :
  ~ In k (map key history) -> members history k = [].
Proof.
  intros Hnot. unfold members. induction history as [|s r IH]; [reflexivity|].
  simpl. rewrite (eqb_other eqb eqb_eq).
  - apply IH. intros H. apply Hnot. now right.
  - intros E. apply Hnot. left. exact E.
Qed.

(** The groups are the distinct keys in order of first occurrence, each
    with the snapshots that have it, in history order. *)
Lemma groupBy_characterized (history : list ContextSnapshot.t) :
  ContextMemory.groupBy eqb key history
  = map (fun k => (k, members history k))
      (Reference.firstOccurrences eqb (map key history)).
Proof.
  induction history as [|s history IH] using rev_ind; [reflexivity|].
  unfold ContextMemory.groupBy in *. rewrite fold_left_app, IH. simpl fold_left.
  rewrite map_app. simpl map. rewrite (firstOccurrences_snoc eqb).
  set (F := Reference.firstOccurrences eqb (map key history)).
  assert (Hnd : NoDup F) by apply (firstOccurrences_NoDup eqb eqb_eq).
  unfold ContextMemory.addToGroup, Reference.addKey.
  rewrite (has_existsb eqb), map_map. simpl. rewrite map_id.
  destruct (existsb (eqb (key s)) F) eqn:E.
  - assert (Hin : In (key s) F) by (apply (existsb_In eqb eqb_eq); exact E).
    rewrite (get_map_present (members history) F (key s) Hin).
    rewrite <- members_snoc_same.
    apply (set_map_present eqb eqb_eq (members history) (members (history ++ [s])));
      [exact Hnd|exact Hin|].
    intros k' Hne. now apply members_snoc_other.
  - assert (Hout : ~ In (key s) F).
    { intros H. apply (existsb_In eqb eqb_eq) in H. congruence. }
    rewrite (get_set_same eqb eqb_eq), (set_set eqb eqb_eq).
    rewrite (set_absent eqb) by (rewrite map_map; simpl; rewrite map_id; exact E).
    rewrite map_app. simpl map. f_equal.
    + apply map_ext_in. intros k' Hk'. f_equal. symmetry.
      apply members_snoc_other. intros ->. contradiction.
    + rewrite members_snoc_same, members_absent; [reflexivity|].
      intros H. apply Hout. apply (firstOccurrences_In eqb eqb_eq). exact H.
Qed.

End GroupingFacts.

Lemma EnvironmentType_eqb_eq (a b : EnvironmentType.t) :
  EnvironmentType.eqb a b = true <-> a = b.
Proof.
  split; [|intros ->; apply EnvironmentType_eqb_refl].
  destruct a, b; intros H; try reflexivity; discriminate H.
Qed.

Lemma ActivityType_eqb_eq (a b : ActivityType.t) : ActivityType.eqb a b = true <-> a = b.
Proof.
  split; [|intros ->; apply ActivityType_eqb_refl].
  destruct a, b; intros H; try reflexivity; discriminate H.
Qed.

(** ** What the mined patterns contain *)

Section Family.
Context {K : Type} (groupOf : K -> list ContextSnapshot.t)
  (make : K -> list ContextSnapshot.t -> ContextPattern.t) (self : ContextMemory.t).

Let family (keys : list K) : list ContextPattern.t :=
  flat_map (fun '(k, snapshots) =>
              if ContextMemory.meetsThreshold self snapshots then [make k snapshots] else [])
    (map (fun k => (k, groupOf k)) keys).

Lemma family_Forall (P : ContextPattern.t -> Prop) (keys : list K) :
  (forall k, In k keys -> ContextMemory.meetsThreshold self (groupOf k) = true ->
             P (make k (groupOf k))) ->
  Forall P (family keys).
Proof.
  unfold family. induction keys as [|k r IH]; intros H; simpl; [constructor|].
  apply Forall_app. split.
  - destruct (ContextMemory.meetsThreshold self (groupOf k)) eqn:E; repeat constructor.
    apply H; [now left|exact E].
  - apply IH. intros k' Hk'. apply H. now right.
Qed.

Lemma family_ids (keys : list K) :
  map ContextPattern.id (family keys)
  = map (fun k => ContextPattern.id (make k (groupOf k)))
      (filter (fun k => ContextMemory.meetsThreshold self (groupOf k)) keys).
Proof.
  unfold family. induction keys as [|k r IH]; simpl; [reflexivity|].
  rewrite map_app, IH.
  destruct (ContextMemory.meetsThreshold self (groupOf k)); reflexivity.
Qed.

End Family.

Lemma filter_nonempty_of_member {A : Type} (f : A -> bool) (l : list A) (x : A) :
  In x l -> f x = true -> (0 < List.length (filter f l))%nat.
Proof.
  intros Hin Hf. assert (H : In x (filter f l)) by (apply filter_In; now split).
  destruct (filter f l); [destruct H|simpl; lia].
Qed.

Lemma environment_family_counts (self : ContextMemory.t) :
  Forall (fun p =>
            exists e,
              ContextPattern.id p = "env-" ++ EnvironmentType.to_string e
              /\ ContextPattern.contexts p
                 = map ContextSnapshot.context
                     (Reference.withEnvironment e (ContextMemory.contextHistory self))
              /\ ContextPattern.frequency p
                 = List.length
                     (Reference.withEnvironment e (ContextMemory.contextHistory self))
              /\ (0 < ContextPattern.frequency p)%nat
              /\ (ContextMemoryConfig.patternDetectionThreshold (ContextMemory.config self)
                  <= ContextPattern.frequency p)%nat)
    (ContextMemory.identifyEnvironmentPatterns self).
Proof.
  unfold ContextMemory.identifyEnvironmentPatterns.
  rewrite (groupBy_characterized EnvironmentType.eqb _ EnvironmentType_eqb_eq).
  set (history := ContextMemory.contextHistory self).
  apply (family_Forall (fun e => Reference.withEnvironment e history)).
  intros e He Hthr. exists e. cbn.
  split; [reflexivity|]. split; [reflexivity|]. split; [reflexivity|]. split.
  - apply (proj1 (firstOccurrences_In _ EnvironmentType_eqb_eq _ _)) in He.
    apply in_map_iff in He. destruct He as [s [Hs Hin]].
    unfold Reference.withEnvironment.
    apply (filter_nonempty_of_member _ _ s Hin). rewrite Hs.
    apply EnvironmentType_eqb_refl.
  - apply Nat.leb_le, Hthr.
Qed.

Lemma activity_family_counts (self : ContextMemory.t) :
  Forall (fun p =>
            exists a,
              ContextPattern.id p = "activity-" ++ ActivityType.to_string a
              /\ ContextPattern.contexts p
                 = map ContextSnapshot.context
                     (Reference.withActivity a (ContextMemory.contextHistory self))
              /\ ContextPattern.frequency p
                 = List.length
                     (Reference.withActivity a (ContextMemory.contextHistory self))
              /\ (0 < ContextPattern.frequency p)%nat
              /\ (ContextMemoryConfig.patternDetectionThreshold (ContextMemory.config self)
                  <= ContextPattern.frequency p)%nat)
    (ContextMemory.identifyActivityPatterns self).
Proof.
  unfold ContextMemory.identifyActivityPatterns.
  rewrite (groupBy_characterized ActivityType.eqb _ ActivityType_eqb_eq).
  set (history := ContextMemory.contextHistory self).
  apply (family_Forall (fun a => Reference.withActivity a history)).
  intros a Ha Hthr. exists a. cbn.
  split; [reflexivity|]. split; [reflexivity|]. split; [reflexivity|]. split.
  - apply (proj1 (firstOccurrences_In _ ActivityType_eqb_eq _ _)) in Ha.
    apply in_map_iff in Ha. destruct Ha as [s [Hs Hin]].
    unfold Reference.withActivity.
    apply (filter_nonempty_of_member _ _ s Hin). rewrite Hs.
    apply ActivityType_eqb_refl.
  - apply Nat.leb_le, Hthr.
Qed.

Lemma hour_eqb_eq (a b : option Z) : ContextMemory.hour_eqb a b = true <-> a = b.
Proof.
  destruct a as [x|], b as [y|]; simpl; split; intros H;
    try discriminate; try reflexivity.
  - apply Z.eqb_eq in H. now subst.
  - injection H as ->. apply Z.eqb_refl.
Qed.

(** The hour of a time value is a number from 0 to 23 exactly when the
    time value is that of a valid date. *)
Lemma getHours_cases (localOffset : Z -> Z) (timestamp : Z) :
  match ContextMemory.getHours localOffset timestamp with
  | Some h => (0 <= h < 24)%Z /\ (Z.abs timestamp <= 8640000000000000)%Z
  | None => (8640000000000000 < Z.abs timestamp)%Z
  end.
Proof.
  unfold ContextMemory.getHours.
  destruct (Z.abs timestamp <=? 8640000000000000)%Z eqn:E.
  - apply Z.leb_le in E. split; [apply Z.mod_pos_bound; lia|exact E].
  - apply Z.leb_gt in E. exact E.
Qed.

Lemma temporal_family_counts (localOffset : Z -> Z) (self : ContextMemory.t) :
  Forall (fun p =>
            exists hour,
              match hour with
              | Some h =>
                  (0 <= h < 24)%Z
                  /\ Forall (fun c =>
                               (Z.abs (ScreenContext.timestamp c) <= 8640000000000000)%Z)
                       (ContextPattern.contexts p)
              | None =>
                  Forall (fun c => (8640000000000000 < Z.abs (ScreenContext.timestamp c))%Z)
                    (ContextPattern.contexts p)
              end
              /\ ContextPattern.id p = "time-" ++ ContextMemory.hourText hour
              /\ ContextPattern.contexts p
                 = map ContextSnapshot.context
                     (Reference.atHour localOffset hour (ContextMemory.contextHistory self))
              /\ ContextPattern.frequency p
                 = List.length
                     (Reference.atHour localOffset hour (ContextMemory.contextHistory self))
              /\ (0 < ContextPattern.frequency p)%nat
              /\ (ContextMemoryConfig.patternDetectionThreshold (ContextMemory.config self)
                  <= ContextPattern.frequency p)%nat
              /\ map ContextTrigger.condition (ContextPattern.triggers p)
                 = ["hour=" ++ ContextMemory.hourText hour])
    (ContextMemory.identifyTemporalPatterns localOffset self).
Proof.
  unfold ContextMemory.identifyTemporalPatterns.
  rewrite (groupBy_characterized ContextMemory.hour_eqb _ hour_eqb_eq).
  set (history := ContextMemory.contextHistory self).
  apply (family_Forall (fun hour => Reference.atHour localOffset hour history)).
  intros hour Hh Hthr. exists hour.
  apply (proj1 (firstOccurrences_In _ hour_eqb_eq _ _)) in Hh.
  apply in_map_iff in Hh. destruct Hh as [s [Hs Hin]].
  cbn [ContextPattern.id ContextPattern.contexts ContextPattern.frequency
       ContextPattern.triggers map ContextTrigger.condition].
  split.
  { assert (Hall : Forall (fun c => ContextMemory.getHours localOffset
                                       (ScreenContext.timestamp c) = hour)
                     (map ContextSnapshot.context (Reference.atHour localOffset hour history))).
    { apply Forall_map, Forall_forall. intros s' Hs'.
      unfold Reference.atHour in Hs'. apply filter_In in Hs'.
      apply hour_eqb_eq, Hs'. }
    destruct hour as [h|].
    - split.
      + pose proof (getHours_cases localOffset
                      (ScreenContext.timestamp (ContextSnapshot.context s))) as Hc.
        rewrite Hs in Hc. apply Hc.
      + eapply Forall_impl; [|exact Hall]. intros c Hc.
        pose proof (getHours_cases localOffset (ScreenContext.timestamp c)) as Hc'.
        rewrite Hc in Hc'. apply Hc'.
    - eapply Forall_impl; [|exact Hall]. intros c Hc.
      pose proof (getHours_cases localOffset (ScreenContext.timestamp c)) as Hc'.
      rewrite Hc in Hc'. exact Hc'. }
  split; [reflexivity|]. split; [reflexivity|]. split; [reflexivity|].
  split; [|split; [apply Nat.leb_le, Hthr|reflexivity]].
  unfold Reference.atHour.
  apply (filter_nonempty_of_member _ _ s Hin). rewrite Hs. apply hour_eqb_eq. reflexivity.
Qed.

(** X1.  Every environment pattern stands for one environment: its
    contexts are exactly the contexts of the history with that
    environment, in history order, and its frequency is their number,
    which is positive and reaches the detection threshold.  The patterns
    returned are those of the environments that occur at least
    threshold times, in the order of their first occurrence in the
    history. *)
Theorem environment_patterns_count_the_history :
  forall self : ContextMemory.t,
    let history := ContextMemory.contextHistory self in
    let threshold :=
      ContextMemoryConfig.patternDetectionThreshold (ContextMemory.config self) in
    Forall (fun p =>
              exists e,
                ContextPattern.id p = "env-" ++ EnvironmentType.to_string e
                /\ ContextPattern.contexts p
                   = map ContextSnapshot.context (Reference.withEnvironment e history)
                /\ ContextPattern.frequency p
                   = List.length (Reference.withEnvironment e history)
                /\ (0 < ContextPattern.frequency p)%nat
                /\ (threshold <= ContextPattern.frequency p)%nat)
      (ContextMemory.identifyEnvironmentPatterns self)
    /\ map ContextPattern.id (ContextMemory.identifyEnvironmentPatterns self)
       = map (fun e => "env-" ++ EnvironmentType.to_string e)
           (filter (fun e =>
                      (threshold <=? List.length (Reference.withEnvironment e history))%nat)
              (Reference.firstOccurrences EnvironmentType.eqb
                 (map (fun s => ScreenContext.environment (ContextSnapshot.context s))
                    history))).
Proof.
  intros self history threshold.
  split; [apply environment_family_counts|].
  unfold ContextMemory.identifyEnvironmentPatterns.
  rewrite (groupBy_characterized EnvironmentType.eqb _ EnvironmentType_eqb_eq).
  fold history.
  apply (family_ids (fun e => Reference.withEnvironment e history)).
Qed.

(** X2.  The same for the activity patterns: one pattern per activity
    that occurs at least threshold times, with exactly the contexts of
    the history that have it. *)
Theorem activity_patterns_count_the_history :
  forall self : ContextMemory.t,
    let history := ContextMemory.contextHistory self in
    let threshold :=
      ContextMemoryConfig.patternDetectionThreshold (ContextMemory.config self) in
    Forall (fun p =>
              exists a,
                ContextPattern.id p = "activity-" ++ ActivityType.to_string a
                /\ ContextPattern.contexts p
                   = map ContextSnapshot.context (Reference.withActivity a history)
                /\ ContextPattern.frequency p
                   = List.length (Reference.withActivity a history)
                /\ (0 < ContextPattern.frequency p)%nat
                /\ (threshold <= ContextPattern.frequency p)%nat)
      (ContextMemory.identifyActivityPatterns self)
    /\ map ContextPattern.id (ContextMemory.identifyActivityPatterns self)
       = map (fun a => "activity-" ++ ActivityType.to_string a)
           (filter (fun a =>
                      (threshold <=? List.length (Reference.withActivity a history))%nat)
              (Reference.firstOccurrences ActivityType.eqb
                 (map (fun s => ScreenContext.activity (ContextSnapshot.context s))
                    history))).
Proof.
  intros self history threshold.
  split; [apply activity_family_counts|].
  unfold ContextMemory.identifyActivityPatterns.
  rewrite (groupBy_characterized ActivityType.eqb _ ActivityType_eqb_eq).
  fold history.
  apply (family_ids (fun a => Reference.withActivity a history)).
Qed.

(** X3.  Every temporal pattern stands for one hour of the day as
    [new Date(timestamp).getHours()] gives it: a local hour from 0 to
    23, or [NaN] for the time values beyond 8.64e15 ms of the epoch,
    which make an invalid date.  Its id is [time-] followed by the hour
    ([time-NaN] for the invalid dates), its contexts are exactly the
    contexts of the history with that hour, all of them valid dates for
    a numbered hour and all of them invalid for [NaN], and its only
    trigger is the condition on that hour.  The patterns returned are
    those of the hours that occur at least threshold times, in the
    order of their first occurrence in the history. *)
Theorem temporal_patterns_count_the_history :
  forall (localOffset : Z -> Z) (self : ContextMemory.t),
    let history := ContextMemory.contextHistory self in
    let threshold :=
      ContextMemoryConfig.patternDetectionThreshold (ContextMemory.config self) in
    Forall (fun p =>
              exists hour,
                match hour with
                | Some h =>
                    (0 <= h < 24)%Z
                    /\ Forall (fun c =>
                                 (Z.abs (ScreenContext.timestamp c) <= 8640000000000000)%Z)
                         (ContextPattern.contexts p)
                | None =>
                    Forall (fun c =>
                              (8640000000000000 < Z.abs (ScreenContext.timestamp c))%Z)
                      (ContextPattern.contexts p)
                end
                /\ ContextPattern.id p = "time-" ++ ContextMemory.hourText hour
                /\ ContextPattern.contexts p
                   = map ContextSnapshot.context (Reference.atHour localOffset hour history)
                /\ ContextPattern.frequency p
                   = List.length (Reference.atHour localOffset hour history)
                /\ (0 < ContextPattern.frequency p)%nat
                /\ (threshold <= ContextPattern.frequency p)%nat
                /\ map ContextTrigger.condition (ContextPattern.triggers p)
                   = ["hour=" ++ ContextMemory.hourText hour])
      (ContextMemory.identifyTemporalPatterns localOffset self)
    /\ map ContextPattern.id (ContextMemory.identifyTemporalPatterns localOffset self)
       = map (fun hour => "time-" ++ ContextMemory.hourText hour)
           (filter (fun hour =>
                      (threshold <=? List.length (Reference.atHour localOffset hour history))%nat)
              (Reference.firstOccurrences ContextMemory.hour_eqb
                 (map (fun s => ContextMemory.getHours localOffset
                                  (ScreenContext.timestamp (ContextSnapshot.context s)))
                    history)))
    /\ ContextMemory.hourText None = "NaN"
    /\ (forall timestamp : Z,
           ContextMemory.getHours localOffset timestamp = None
           <-> (8640000000000000 < Z.abs timestamp)%Z).
Proof.
  intros localOffset self history threshold.
  split; [apply temporal_family_counts|]. split; [|split; [reflexivity|]].
  - unfold ContextMemory.identifyTemporalPatterns.
    rewrite (groupBy_characterized ContextMemory.hour_eqb _ hour_eqb_eq).
    fold history.
    apply (family_ids (fun hour => Reference.atHour localOffset hour history)).
  - intros timestamp.
    pose proof (getHours_cases localOffset timestamp) as Hc.
    destruct (ContextMemory.getHours localOffset timestamp) as [h|].
    + split; [discriminate|]. intros H. lia.
    + split; [intros _; exact Hc|reflexivity].
Qed.

(** A context whose time value makes an invalid date is mined under
    the hour [NaN]. *)
Example invalid_date_is_mined_as_NaN :
  let memory :=
    ContextMemory.addContextSnapshot (ContextMemory.new MoreSamples.detectAtOnce)
      MoreSamples.pastTheLastDate [] [] 0 in
  map (fun p => (ContextPattern.id p, map ContextTrigger.condition (ContextPattern.triggers p)))
    (ContextMemory.identifyTemporalPatterns (fun _ => 0%Z) memory)
  = [("time-NaN", ["hour=NaN"])].
Proof. reflexivity. Qed.

(** ** The pattern store of the Memory *)

Lemma combinedKey_is_no_family_id (context : ScreenContext.t) :
  prefix "env-" (Reference.combinedKey context) = false
  /\ prefix "activity-" (Reference.combinedKey context) = false
  /\ prefix "time-" (Reference.combinedKey context) = false.
Proof.
  unfold Reference.combinedKey.
  destruct (ScreenContext.environment context); repeat split; reflexivity.
Qed.

Lemma store_other (patterns : list ContextPattern.t) (m : list (string * ContextPattern.t))
  (k : string) :
  Forall (fun p => ContextPattern.id p <> k) patterns ->
  Js.get String.eqb
    (fold_left (fun m pattern => Js.set String.eqb m (ContextPattern.id pattern) pattern)
       patterns m) k
  = Js.get String.eqb m k.
Proof.
  revert m. induction patterns as [|p r IH]; intros m H; [reflexivity|].
  inversion H as [|? ? Hp Hr]; subst. simpl fold_left.
  rewrite (IH _ Hr). apply (get_set_other String.eqb String.eqb_eq). exact Hp.
Qed.

Lemma mined_ids_have_family_prefix (localOffset : Z -> Z) (self : ContextMemory.t) :
  Forall (fun p =>
            prefix "env-" (ContextPattern.id p) = true
            \/ prefix "activity-" (ContextPattern.id p) = true
            \/ prefix "time-" (ContextPattern.id p) = true)
    (fst (ContextMemory.identifyPatterns localOffset self)).
Proof.
  unfold ContextMemory.identifyPatterns. cbn [fst].
  apply Forall_app. split; [|apply Forall_app; split].
  - eapply Forall_impl; [|apply environment_patterns_mined]. intros p H. left. apply H.
  - eapply Forall_impl; [|apply activity_patterns_mined]. intros p H. right. left. apply H.
  - eapply Forall_impl; [|apply temporal_patterns_mined]. intros p H. right. right. apply H.
Qed.

(** X4.  Recording a context files it in the pattern of its
    environment-activity key: a first occurrence creates the pattern
    with frequency 1 and confidence 0.1, a later one adds 1 to the
    frequency, appends the context and sets the confidence to
    [min(1, frequency/10)].  The patterns of all other keys are left as
    they were. *)
Theorem record_updates_the_combined_pattern :
  forall (self : ContextMemory.t) (context : ScreenContext.t)
         (userActions : list UserAction.t) (outcomes : list ContextOutcome.t)
         (duration : Z),
    let key := Reference.combinedKey context in
    let after :=
      ContextMemory.addContextSnapshot self context userActions outcomes duration in
    (exists p,
        ContextMemory.getPattern after key = Some p
        /\ ContextPattern.frequency p
           = match ContextMemory.getPattern self key with
             | Some old => (ContextPattern.frequency old + 1)%nat
             | None => 1%nat
             end
        /\ ContextPattern.contexts p
           = match ContextMemory.getPattern self key with
             | Some old => (ContextPattern.contexts old ++ [context])%list
             | None => [context]
             end
        /\ ContextPattern.confidence p
           == Qmin 1 (inject_Z (Z.of_nat (ContextPattern.frequency p)) / 10))
    /\ (forall k : string,
           ContextMemory.getPattern after k
           = if (key =? k)%string then ContextMemory.getPattern after key
             else ContextMemory.getPattern self k).
Proof.
  intros self context userActions outcomes duration key after.
  unfold after, ContextMemory.addContextSnapshot, ContextMemory.updatePatterns,
    ContextMemory.getPattern.
  cbn [ContextMemory.contextPatterns ContextSnapshot.context].
  fold (Reference.combinedKey context). fold key.
  split.
  - destruct (Js.get String.eqb (ContextMemory.contextPatterns self) key) as [old|];
      rewrite (get_set_same String.eqb String.eqb_eq);
      eexists; (split; [reflexivity|]); cbn; repeat split; reflexivity.
  - intros k. destruct (key =? k)%string eqn:E.
    + apply String.eqb_eq in E. now subst k.
    + apply String.eqb_neq in E.
      destruct (Js.get String.eqb (ContextMemory.contextPatterns self) key);
        apply (get_set_other String.eqb String.eqb_eq); exact E.
Qed.

(** X5.  Mining does not touch the combined patterns of the incremental
    update: the ids it writes start with [env-], [activity-] or
    [time-], which no environment-activity key does, so the pattern
    stored for the key of any context is the same before and after
    [identifyPatterns]. *)
Theorem mining_keeps_the_combined_patterns :
  forall (localOffset : Z -> Z) (self : ContextMemory.t) (context : ScreenContext.t),
    ContextMemory.getPattern (snd (ContextMemory.identifyPatterns localOffset self))
      (Reference.combinedKey context)
    = ContextMemory.getPattern self (Reference.combinedKey context).
Proof.
  intros localOffset self context.
  unfold ContextMemory.getPattern.
  change (ContextMemory.contextPatterns (snd (ContextMemory.identifyPatterns localOffset self)))
    with (fold_left (fun m pattern => Js.set String.eqb m (ContextPattern.id pattern) pattern)
            (fst (ContextMemory.identifyPatterns localOffset self))
            (ContextMemory.contextPatterns self)).
  apply store_other.
  eapply Forall_impl; [|apply mined_ids_have_family_prefix].
  intros p Hp E. cbv beta in Hp.
  destruct (combinedKey_is_no_family_id context) as (He & Ha & Ht).
  rewrite E in Hp. destruct Hp as [H|[H|H]]; congruence.
Qed.

Lemma wellStored_set (m : list (string * ContextPattern.t)) (p : ContextPattern.t) :
  ContextPattern.frequency p = List.length (ContextPattern.contexts p) ->
  (0 < ContextPattern.frequency p)%nat ->
  Forall (fun entry =>
            ContextPattern.id (snd entry) = fst entry
            /\ ContextPattern.frequency (snd entry)
               = List.length (ContextPattern.contexts (snd entry))
            /\ (0 < ContextPattern.frequency (snd entry))%nat) m ->
  Forall (fun entry =>
            ContextPattern.id (snd entry) = fst entry
            /\ ContextPattern.frequency (snd entry)
               = List.length (ContextPattern.contexts (snd entry))
            /\ (0 < ContextPattern.frequency (snd entry))%nat)
    (Js.set String.eqb m (ContextPattern.id p) p).
Proof.
  intros Hf Hpos Hm. apply Forall_forall. intros entry Hin.
  apply (set_In String.eqb String.eqb_eq) in Hin. destruct Hin as [ -> | Hin ].
  - cbn. auto.
  - rewrite Forall_forall in Hm. apply Hm, Hin.
Qed.

(** X6.  In a memory that starts empty, every stored pattern is filed
    under its own id and its frequency is the positive number of its
    contexts; recording, mining and cleanup keep it so. *)
Theorem stored_patterns_stay_consistent :
  forall self : ContextMemory.t,
    Reference.wellStored self ->
    (forall (context : ScreenContext.t) (userActions : list UserAction.t)
            (outcomes : list ContextOutcome.t) (duration : Z),
        Reference.wellStored
          (ContextMemory.addContextSnapshot self context userActions outcomes duration))
    /\ (forall localOffset : Z -> Z,
           Reference.wellStored (snd (ContextMemory.identifyPatterns localOffset self)))
    /\ (forall now : Z, Reference.wellStored (ContextMemory.cleanup self now)).
Proof.
  intros self Hself. unfold Reference.wellStored in *. split; [|split].
  - intros context userActions outcomes duration.
    unfold ContextMemory.addContextSnapshot, ContextMemory.updatePatterns.
    cbn [ContextMemory.contextPatterns ContextSnapshot.context].
    destruct (Js.get String.eqb (ContextMemory.contextPatterns self) _) as [old|] eqn:E.
    + assert (Hold : ContextPattern.id old
                     = (EnvironmentType.to_string (ScreenContext.environment context)
                        ++ "-" ++ ActivityType.to_string (ScreenContext.activity context))%string
                     /\ ContextPattern.frequency old
                        = List.length (ContextPattern.contexts old)).
      { clear - E Hself. induction (ContextMemory.contextPatterns self) as [|[k v] r IH];
          [discriminate E|].
        inversion Hself as [|? ? Hkv Hr]; subst. simpl in E.
        destruct (String.eqb _ k) eqn:Ek.
        - apply String.eqb_eq in Ek. injection E as ->. cbn in Hkv.
          destruct Hkv as (Hid & Hfreq & _).
          split; [rewrite Hid; symmetry; exact Ek|exact Hfreq].
        - apply IH; assumption. }
      destruct Hold as [Hid Hfreq].
      rewrite <- Hid at 1.
      apply (wellStored_set _
               {| ContextPattern.id := ContextPattern.id old;
                  ContextPattern.name := ContextPattern.name old;
                  ContextPattern.frequency := ContextPattern.frequency old + 1;
                  ContextPattern.contexts := ContextPattern.contexts old ++ [context];
                  ContextPattern.triggers := ContextPattern.triggers old;
                  ContextPattern.outcomes := ContextPattern.outcomes old;
                  ContextPattern.confidence :=
                    Qmin 1 (inject_Z (Z.of_nat (ContextPattern.frequency old + 1)) / 10) |});
        [cbn; rewrite length_app; simpl; lia|cbn; lia|exact Hself].
    + match goal with
      | |- Forall _ (Js.set _ _ ?k ?p) =>
          apply (wellStored_set (ContextMemory.contextPatterns self) p);
            [reflexivity|cbn; lia|exact Hself]
      end.
  - intros localOffset. unfold ContextMemory.identifyPatterns.
    cbn [snd ContextMemory.contextPatterns].
    assert (Hmined : Forall (fun p => ContextPattern.frequency p
                                      = List.length (ContextPattern.contexts p)
                                      /\ (0 < ContextPattern.frequency p)%nat)
                       (ContextMemory.identifyEnvironmentPatterns self
                        ++ ContextMemory.identifyActivityPatterns self
                        ++ ContextMemory.identifyTemporalPatterns localOffset self)).
    { apply Forall_app. split; [|apply Forall_app; split].
      - eapply Forall_impl; [|apply (environment_family_counts self)].
        intros p (e & _ & Hc & Hf & Hp & _). split; [|exact Hp].
        rewrite Hf, Hc, length_map. reflexivity.
      - eapply Forall_impl; [|apply (activity_family_counts self)].
        intros p (a & _ & Hc & Hf & Hp & _). split; [|exact Hp].
        rewrite Hf, Hc, length_map. reflexivity.
      - eapply Forall_impl;
          [|apply (temporal_family_counts localOffset self)].
        intros p (h & _ & _ & Hc & Hf & Hp & _). split; [|exact Hp].
        rewrite Hf, Hc, length_map. reflexivity. }
    revert Hself Hmined. generalize (ContextMemory.contextPatterns self).
    induction (ContextMemory.identifyEnvironmentPatterns self
               ++ ContextMemory.identifyActivityPatterns self
               ++ ContextMemory.identifyTemporalPatterns localOffset self)%list
      as [|p r IH]; intros m Hm Hps; [exact Hm|].
    inversion Hps as [|? ? [Hf Hp] Hr]; subst. simpl fold_left.
    apply IH; [|exact Hr]. apply wellStored_set; assumption.
  - intros now. exact Hself.
Qed.

(** The empty memory of the constructor is consistent, and stays so
    after a record. *)
Lemma stored_patterns_stay_consistent_witness :
  Reference.wellStored (ContextMemory.new Sample.keepTwo)
  /\ Reference.wellStored
       (ContextMemory.addContextSnapshot (ContextMemory.new Sample.keepTwo)
          Sample.editing [] [] 0).
Proof.
  assert (H : Reference.wellStored (ContextMemory.new Sample.keepTwo)) by constructor.
  split; [exact H|].
  exact (proj1 (stored_patterns_stay_consistent (ContextMemory.new Sample.keepTwo) H)
           Sample.editing [] [] 0%Z).
Defined.

(** ** The history of the Memory *)

(** X7.  A record always keeps the snapshot it adds as the most recent
    entry.  Before it come the entries of the old history without the
    oldest [length + 1 - maximum] of them when the maximum is positive,
    and all of them when the maximum is zero. *)
Theorem record_appends_and_drops_the_oldest :
  forall (self : ContextMemory.t) (context : ScreenContext.t)
         (userActions : list UserAction.t) (outcomes : list ContextOutcome.t)
         (duration : Z),
    let history := ContextMemory.contextHistory self in
    let maximum := ContextMemoryConfig.maxHistorySize (ContextMemory.config self) in
    let dropped :=
      if (maximum =? 0)%nat then 0%nat else (List.length history + 1 - maximum)%nat in
    ContextMemory.contextHistory
      (ContextMemory.addContextSnapshot self context userActions outcomes duration)
    = (skipn dropped history
       ++ [ {| ContextSnapshot.context := context;
               ContextSnapshot.userActions := userActions;
               ContextSnapshot.outcomes := outcomes;
               ContextSnapshot.duration := duration |} ])%list.
Proof.
  intros self context userActions outcomes duration history maximum dropped.
  unfold dropped. destruct (maximum =? 0)%nat eqn:E.
  - apply Nat.eqb_eq in E. rewrite (record_without_capacity self); [reflexivity|exact E].
  - apply Nat.eqb_neq in E.
    rewrite (record_keeps_most_recent self) by (fold maximum; lia).
    fold history. fold maximum. rewrite length_app. simpl List.length.
    rewrite skipn_app.
    replace (List.length history + 1 - maximum - List.length history)%nat with 0%nat by lia.
    reflexivity.
Qed.

(** X8.  [getContextHistory] with a positive limit returns the last
    [limit] entries, the whole history when it is shorter; without a
    limit, and with the limit 0, it returns the whole history. *)
Theorem history_view_is_a_suffix :
  forall (self : ContextMemory.t) (limit : nat),
    ContextMemory.getContextHistory self (Some limit)
    = (if (limit =? 0)%nat then ContextMemory.contextHistory self
       else skipn (List.length (ContextMemory.contextHistory self) - limit)
              (ContextMemory.contextHistory self))
    /\ ContextMemory.getContextHistory self None = ContextMemory.contextHistory self
    /\ List.length (ContextMemory.getContextHistory self (Some (S limit)))
       = Nat.min (S limit) (List.length (ContextMemory.contextHistory self)).
Proof.
  intros self limit. split; [|split].
  - destruct limit as [|n]; [reflexivity|].
    simpl Nat.eqb. unfold ContextMemory.getContextHistory. apply slice_suffix. lia.
  - reflexivity.
  - unfold ContextMemory.getContextHistory. rewrite slice_suffix by lia.
    rewrite length_skipn. lia.
Qed.

Lemma filter_filter {A : Type} (f g : A -> bool) (l : list A) :
  filter f (filter g l) = filter (fun x => g x && f x) l.
Proof.
  induction l as [|x r IH]; [reflexivity|]. simpl.
  destruct (g x); simpl; [destruct (f x); now rewrite IH|exact IH].
Qed.

(** X9.  Two cleanups in a row are one cleanup at the later of the two
    clock readings; in particular a second cleanup at the same reading
    changes nothing.  A cleanup never touches the configuration or the
    stored patterns, whose contexts outlive the snapshots it removes. *)
Theorem cleanups_compose :
  forall (self : ContextMemory.t) (now later : Z),
    ContextMemory.cleanup (ContextMemory.cleanup self now) later
    = ContextMemory.cleanup self (Z.max now later)
    /\ ContextMemory.cleanup (ContextMemory.cleanup self now) now
       = ContextMemory.cleanup self now
    /\ ContextMemory.contextPatterns (ContextMemory.cleanup self now)
       = ContextMemory.contextPatterns self.
Proof.
  assert (H : forall self now later,
             ContextMemory.cleanup (ContextMemory.cleanup self now) later
             = ContextMemory.cleanup self (Z.max now later)).
  { intros self now later. unfold ContextMemory.cleanup.
    cbn [ContextMemory.config ContextMemory.contextHistory ContextMemory.contextPatterns].
    f_equal. rewrite filter_filter. apply filter_ext. intros s.
    set (t := ScreenContext.timestamp (ContextSnapshot.context s)).
    set (p := ContextMemoryConfig.contextRetentionPeriod (ContextMemory.config self)).
    destruct (now - p <? t)%Z eqn:E1, (later - p <? t)%Z eqn:E2,
      (Z.max now later - p <? t)%Z eqn:E3; try reflexivity; exfalso;
      rewrite ?Z.ltb_lt, ?Z.ltb_ge in *; lia. }
  intros self now later. split; [apply H|]. split; [|reflexivity].
  rewrite H, Z.max_id. reflexivity.
Qed.

(** X10.  When the snapshots of the other contexts fit in [maxResults],
    [getRelevantContext] returns all of them: the result is a
    rearrangement of the history without the entries that carry the id
    of the query. *)
Theorem relevant_context_returns_all_that_fit :
  forall (self : ContextMemory.t) (currentContext : ScreenContext.t) (maxResults : nat),
    let others :=
      filter (fun s => negb (ScreenContext.id (ContextSnapshot.context s)
                             =? ScreenContext.id currentContext)%string)
        (ContextMemory.contextHistory self) in
    (List.length others <= maxResults)%nat ->
    Permutation (ContextMemory.getRelevantContext self currentContext maxResults) others.
Proof.
  intros self currentContext maxResults others H.
  unfold ContextMemory.getRelevantContext.
  apply (ranked_permutation _ ContextMemory.snapshot ContextMemory.relevanceScore);
    [reflexivity|exact H].
Qed.

Lemma relevant_context_returns_all_that_fit_witness :
  (List.length
     (filter (fun s => negb (ScreenContext.id (ContextSnapshot.context s)
                             =? ScreenContext.id Sample.editing)%string)
        (ContextMemory.contextHistory Sample.recordedMemory)) <= 5)%nat
  /\ Permutation (ContextMemory.getRelevantContext Sample.recordedMemory Sample.editing 5)
       (filter (fun s => negb (ScreenContext.id (ContextSnapshot.context s)
                               =? ScreenContext.id Sample.editing)%string)
          (ContextMemory.contextHistory Sample.recordedMemory)).
Proof.
  assert (H : (List.length
                 (filter (fun s => negb (ScreenContext.id (ContextSnapshot.context s)
                                         =? ScreenContext.id Sample.editing)%string)
                    (ContextMemory.contextHistory Sample.recordedMemory)) <= 5)%nat).
  { vm_compute. repeat constructor. }
  split; [exact H|].
  exact (relevant_context_returns_all_that_fit Sample.recordedMemory Sample.editing 5 H).
Defined.

(** ** The Synthesizer *)

(** X11.  The history selection of the Synthesizer returns at most
    [maxResults] snapshots, all taken from the history it is given, by
    decreasing historical relevance to the current context. *)
Theorem selected_history_bounded_and_ranked :
  forall (currentContext : ScreenContext.t) (history : list ContextSnapshot.t)
         (maxResults : nat),
    let result :=
      ContextSynthesizer.selectRelevantHistory currentContext history maxResults in
    let score s :=
      ContextSynthesizer.calculateHistoricalRelevance currentContext
        (ContextSnapshot.context s) in
    (List.length result <= maxResults)%nat
    /\ StronglySorted (fun a b => score b <= score a) result
    /\ incl result history.
Proof.
  intros currentContext history maxResults result score.
  unfold result, ContextSynthesizer.selectRelevantHistory.
  destruct (List.length history =? 0)%nat.
  - split; [simpl; lia|]. split; [constructor|intros s []].
  - split; [|split].
    + apply (ranked_length _ ContextSynthesizer.snapshot ContextSynthesizer.relevanceScore).
    + apply (ranked_descending _ ContextSynthesizer.snapshot
               ContextSynthesizer.relevanceScore score); intros a; reflexivity.
    + intros s. apply (ranked_In _ ContextSynthesizer.snapshot
                         ContextSynthesizer.relevanceScore). intros a. reflexivity.
Qed.

(** X12.  The suggested actions are the intent actions, the domain
    actions and the environment actions, none lost and none added,
    ordered by decreasing [priority * estimatedImpact]. *)
Theorem contextual_actions_merged_and_ranked :
  forall (context : ScreenContext.t) (domainContext : DomainContext.t)
         (userIntent : option IntentAnalysis.t),
    let actions :=
      ContextSynthesizer.generateContextualActions context domainContext userIntent in
    Permutation actions
      ((match userIntent with
        | Some i => ContextSynthesizer.intentActions 0 (IntentAnalysis.suggestedActions i)
        | None => []
        end)
       ++ ContextSynthesizer.generateDomainActions context domainContext
       ++ ContextSynthesizer.generateEnvironmentActions context)
    /\ StronglySorted
         (fun a b => Action.priority b * Action.estimatedImpact b
                     <= Action.priority a * Action.estimatedImpact a)
         actions.
Proof.
  intros context domainContext userIntent actions.
  unfold actions, ContextSynthesizer.generateContextualActions. split.
  - rewrite sort_permutation, app_assoc. reflexivity.
  - apply (sort_descending (fun a => Action.priority a * Action.estimatedImpact a)).
Qed.

Lemma includes_decompose (s x : string) :
  Js.includes s x = true -> exists a b, s = (a ++ x ++ b)%string.
Proof.
  induction s as [|c r IH]; intros H; rewrite includes_unfold in H.
  - destruct (prefix x "") eqn:E; [|discriminate].
    exists EmptyString, (Js.drop (String.length x) ""). apply (prefix_split _ _ E).
  - destruct (prefix x (String c r)) eqn:E.
    + exists EmptyString, (Js.drop (String.length x) (String c r)).
      apply (prefix_split _ _ E).
    + destruct (IH H) as [a [b Hab]]. exists (String c a), b. simpl. now rewrite Hab.
Qed.

Lemma includes_transitive (s y x : string) :
  Js.includes s y = true -> Js.includes y x = true -> Js.includes s x = true.
Proof.
  intros Hsy Hyx.
  destruct (includes_decompose _ _ Hsy) as [a [b ->]].
  destruct (includes_decompose _ _ Hyx) as [c [d ->]].
  rewrite !append_associative. rewrite <- (append_associative a c).
  apply includes_middle.
Qed.

Lemma join_push (sep first last : string) (parts : list string) :
  Js.join sep (Js.push (first :: parts) last)
  = (Js.join sep (first :: parts) ++ sep ++ last)%string.
Proof.
  unfold Js.join, Js.push. revert first.
  induction parts as [|p parts IH]; intros first.
  - reflexivity.
  - change (String.concat sep ((first :: p :: parts) ++ [last])%list)
      with (first ++ sep ++ String.concat sep ((p :: parts) ++ [last])%list)%string.
    rewrite IH.
    change (String.concat sep (first :: p :: parts))
      with (first ++ sep ++ String.concat sep (p :: parts))%string.
    now rewrite !append_associative.
Qed.

(** The description is the earlier parts, a space, and the confidence
    indicator. *)
Lemma description_ending (context : ScreenContext.t) (weights : ContextSynthesizer.Weights) :
  exists before,
    ContextSynthesizer.generateSituationalDescription context weights
    = (before ++ " ("
       ++ (if negb (Qle_bool (ScreenContext.confidence context) 0.8) then "high"
           else if negb (Qle_bool (ScreenContext.confidence context) 0.5) then "moderate"
           else "low")
       ++ " confidence)")%string.
Proof.
  unfold ContextSynthesizer.generateSituationalDescription. cbv zeta.
  set (level := if negb (Qle_bool (ScreenContext.confidence context) 0.8) then "high"
                else if negb (Qle_bool (ScreenContext.confidence context) 0.5)
                     then "moderate" else "low").
  match goal with
  | |- context [Js.push ?parts ("(" ++ level ++ " confidence)")] =>
      assert (Hparts : exists first rest, parts = first :: rest)
  end.
  { unfold Js.push.
    repeat match goal with
           | |- context [if ?b then _ else _] => destruct b
           end; simpl; eexists; eexists; reflexivity. }
  destruct Hparts as [first [rest ->]].
  rewrite join_push. eexists. reflexivity.
Qed.

(** X13.  Every situational description ends with the confidence
    indicator, [(high confidence)], [(moderate confidence)] or
    [(low confidence)] after a space, by the confidence of the context
    (above 0.8, above 0.5, otherwise), and therefore contains the
    letters [ide] inside the word confidence.  The ENVIRONMENT variable
    of the prompt templates, which is [development] when the description
    includes [ide], is therefore [development] for every context the
    Synthesizer produces, whatever its environment. *)
Theorem environment_variable_is_always_development :
  (forall (context : ScreenContext.t) (weights : ContextSynthesizer.Weights),
      exists before,
        ContextSynthesizer.generateSituationalDescription context weights
        = (before ++ " ("
           ++ (if negb (Qle_bool (ScreenContext.confidence context) 0.8) then "high"
               else if negb (Qle_bool (ScreenContext.confidence context) 0.5)
                    then "moderate"
               else "low")
           ++ " confidence)")%string)
  /\ (forall (context : ScreenContext.t) (weights : ContextSynthesizer.Weights),
         Js.includes (ContextSynthesizer.generateSituationalDescription context weights) "ide"
         = true)
  /\ (forall (self : ContextSynthesizer.t) (contextId : string) (nowQuality nowStamp : Z)
             (currentScreen : ScreenContext.t) (history : list ContextSnapshot.t)
             (userIntent : option IntentAnalysis.t) (userQuery : string),
         Js.get String.eqb
           (PromptEngineer.variables
              (fst (ContextSynthesizer.synthesizeContext self contextId nowQuality
                      nowStamp currentScreen history userIntent))
              userQuery)
           "ENVIRONMENT"
         = Some "development").
Proof.
  assert (H : forall context weights,
             Js.includes (ContextSynthesizer.generateSituationalDescription context weights)
               "ide" = true).
  { intros context weights.
    destruct (description_ending context weights) as [before ->].
    apply includes_append_r.
    destruct (negb (Qle_bool _ 0.8)); [reflexivity|].
    destruct (negb (Qle_bool _ 0.5)); reflexivity. }
  split; [apply description_ending|]. split; [exact H|].
  intros self contextId nowQuality nowStamp currentScreen history userIntent userQuery.
  unfold ContextSynthesizer.synthesizeContext.
  destruct (ContextSynthesizer.buildDomainContext self _ _) as [domainContext self'].
  cbn [fst]. unfold PromptEngineer.variables.
  cbn [EngineeredContext.situationalContext]. rewrite H. reflexivity.
Qed.

(** X14.  The domain context handed out for an IDE context shares its
    tool list with the entry of the knowledge table: every call appends
    the IDE tool at the end of the tools of the stored development
    domain, and the result of the call is the stored entry.  Successive
    syntheses of IDE contexts therefore report one IDE tool more each
    time. *)
Theorem ide_tool_accumulates_in_the_knowledge_table :
  forall (self : ContextSynthesizer.t) (activity : ActivityType.t) (base : DomainContext.t),
    Js.get String.eqb (ContextSynthesizer.domainKnowledge self) "development" = Some base ->
    let built := ContextSynthesizer.buildDomainContext self EnvironmentType.ide activity in
    DomainContext.tools (fst built)
    = (DomainContext.tools base
       ++ [ {| Tool.name := "IDE"; Tool.version := "unknown";
               Tool.capabilities := ["editing"; "debugging"];
               Tool.integrations := [] |} ])%list
    /\ List.length (DomainContext.tools (fst built))
       = S (List.length (DomainContext.tools base))
    /\ incl (DomainContext.tools base) (DomainContext.tools (fst built))
    /\ Js.get String.eqb (ContextSynthesizer.domainKnowledge (snd built)) "development"
       = Some (fst built)
    /\ (forall again : ActivityType.t,
           DomainContext.tools
             (fst (ContextSynthesizer.buildDomainContext (snd built) EnvironmentType.ide
                     again))
           = (DomainContext.tools base
              ++ [ {| Tool.name := "IDE"; Tool.version := "unknown";
                      Tool.capabilities := ["editing"; "debugging"];
                      Tool.integrations := [] |};
                   {| Tool.name := "IDE"; Tool.version := "unknown";
                      Tool.capabilities := ["editing"; "debugging"];
                      Tool.integrations := [] |} ])%list).
Proof.
  intros self activity base Hbase built.
  assert (Hd : forall a, ContextSynthesizer.determineDomain EnvironmentType.ide a
                         = "development") by reflexivity.
  assert (Hstored : Js.get String.eqb (ContextSynthesizer.domainKnowledge (snd built))
                      "development" = Some (fst built)).
  { unfold built, ContextSynthesizer.buildDomainContext. rewrite Hd, Hbase.
    cbn [fst snd ContextSynthesizer.domainKnowledge].
    apply (get_set_same String.eqb String.eqb_eq). }
  assert (Htools : DomainContext.tools (fst built)
                   = (DomainContext.tools base
                      ++ [ {| Tool.name := "IDE"; Tool.version := "unknown";
                              Tool.capabilities := ["editing"; "debugging"];
                              Tool.integrations := [] |} ])%list).
  { unfold built, ContextSynthesizer.buildDomainContext. rewrite Hd, Hbase.
    cbn [fst]. unfold ContextSynthesizer.customizeDomainContext.
    cbn [DomainContext.tools]. rewrite EnvironmentType_eqb_refl. reflexivity. }
  split; [exact Htools|].
  split; [rewrite Htools, length_app; simpl; lia|].
  split; [rewrite Htools; intros t Ht; apply in_or_app; now left|].
  split; [exact Hstored|].
  intros again. unfold ContextSynthesizer.buildDomainContext at 1.
  rewrite Hd, Hstored. cbn [fst]. unfold ContextSynthesizer.customizeDomainContext at 1.
  cbn [DomainContext.tools]. rewrite EnvironmentType_eqb_refl, Htools.
  rewrite <- app_assoc. reflexivity.
Qed.

Lemma ide_tool_accumulates_in_the_knowledge_table_witness :
  Js.get String.eqb (ContextSynthesizer.domainKnowledge ContextSynthesizer.new) "development"
  = Some ContextSynthesizer.developmentDomain
  /\ map Tool.name
       (DomainContext.tools
          (fst (ContextSynthesizer.buildDomainContext ContextSynthesizer.new
                  EnvironmentType.ide ActivityType.coding)))
     = ["Git"; "NPM"; "IDE"].
Proof.
  assert (H : Js.get String.eqb (ContextSynthesizer.domainKnowledge ContextSynthesizer.new)
                "development" = Some ContextSynthesizer.developmentDomain) by reflexivity.
  split; [exact H|].
  exact (f_equal (map Tool.name)
           (proj1 (ide_tool_accumulates_in_the_knowledge_table ContextSynthesizer.new
                     ActivityType.coding ContextSynthesizer.developmentDomain H))).
Defined.

(** ** The Analyzer *)

(** X15.  An analysis never classifies the environment as mixed and
    never finds another activity than coding, writing or idle; the
    content analysis is always empty and the primary intent always
    unknown.  The active application of the context is never the empty
    string. *)
Theorem analysis_outcomes_are_limited :
  forall (self : ContextAnalyzer.t) (contextId : string) (now : Z)
         (screenshots : list string)
         (additionalData : option ContextAnalyzer.AdditionalData.t),
    let context :=
      fst (ContextAnalyzer.analyzeScreenContext self contextId now screenshots
             additionalData) in
    In (ScreenContext.environment context)
      [EnvironmentType.ide; EnvironmentType.browser; EnvironmentType.design;
       EnvironmentType.document; EnvironmentType.terminal; EnvironmentType.unknown]
    /\ In (ScreenContext.activity context)
         [ActivityType.coding; ActivityType.writing; ActivityType.idle]
    /\ ContentAnalysis.codeSnippets (ScreenContext.visibleContent context) = []
    /\ IntentAnalysis.primaryIntent (ScreenContext.userIntent context) = "unknown"
    /\ Js.truthy (ApplicationContext.activeApplication
                    (ScreenContext.applicationDetails context)) = true
    /\ ContextAnalyzer.activeContext
         (snd (ContextAnalyzer.analyzeScreenContext self contextId now screenshots
                 additionalData))
       = Some context.
Proof.
  intros self contextId now screenshots additionalData context.
  unfold context, ContextAnalyzer.analyzeScreenContext.
  cbn [fst snd ScreenContext.environment ScreenContext.activity ScreenContext.visibleContent
       ScreenContext.userIntent ScreenContext.applicationDetails
       ContextAnalyzer.activeContext].
  split; [|split; [|split; [|split; [|split]]]]; try reflexivity.
  - unfold ContextAnalyzer.categorizeEnvironment.
    repeat match goal with
           | |- context [if ?b then _ else _] => destruct b
           end; simpl; tauto.
  - unfold ContextAnalyzer.categorizeUserActivity.
    repeat match goal with
           | |- context [if ?b then _ else _] => destruct b
           end; simpl; tauto.
  - unfold ContextAnalyzer.extractApplicationContext, ContextAnalyzer.orElse.
    cbn [ApplicationContext.activeApplication].
    destruct (ContextAnalyzer.field _ _) as [s|]; [|reflexivity].
    destruct (Js.truthy s) eqn:E; [exact E|reflexivity].
Qed.

(** X16.  The sources of an analysis start with the screenshot, name no
    source twice, and never name the clipboard or the clock, whatever
    the auxiliary data holds; the window title, the application state
    and the user input are named exactly when the corresponding field
    is a non-empty string. *)
Theorem context_sources_follow_the_fields :
  forall (screenshots : list string)
         (additionalData : option ContextAnalyzer.AdditionalData.t),
    let sources := ContextAnalyzer.determineContextSources screenshots additionalData in
    let present f := Js.truthy_opt (ContextAnalyzer.field f additionalData) in
    hd_error sources = Some ContextSource.screenshot
    /\ NoDup sources
    /\ ~ In ContextSource.clipboard sources
    /\ ~ In ContextSource.temporal sources
    /\ (In ContextSource.window_title sources
        <-> present ContextAnalyzer.AdditionalData.windowTitle = true)
    /\ (In ContextSource.application_state sources
        <-> present ContextAnalyzer.AdditionalData.activeApplication = true)
    /\ (In ContextSource.user_input sources
        <-> present ContextAnalyzer.AdditionalData.selectedText = true).
Proof.
  intros screenshots additionalData sources present.
  unfold sources, present, ContextAnalyzer.determineContextSources.
  destruct (Js.truthy_opt (ContextAnalyzer.field ContextAnalyzer.AdditionalData.windowTitle _)),
    (Js.truthy_opt (ContextAnalyzer.field ContextAnalyzer.AdditionalData.activeApplication _)),
    (Js.truthy_opt (ContextAnalyzer.field ContextAnalyzer.AdditionalData.selectedText _));
    simpl;
    (split; [reflexivity|]);
    (split; [repeat constructor; simpl; intuition discriminate|]);
    repeat split; intros; intuition discriminate.
Qed.

(** ** The Prompt Engineer *)

Lemma PromptObjective_eqb_eq (a b : PromptObjective.t) :
  PromptObjective.eqb a b = true <-> a = b.
Proof.
  split; [|intros ->; apply String.eqb_refl].
  destruct a, b; intros H; try reflexivity; discriminate H.
Qed.


(** X18.  The strategies recorded for an optimization are none when the
    text is unchanged, clarity enhancement when it changed without
    getting shorter, and length reduction followed by clarity
    enhancement when it got shorter: length reduction is never
    recorded alone. *)
Theorem optimization_strategies_cases :
  forall original optimized : string,
    let strategies := PromptEngineer.getOptimizationStrategies original optimized in
    (optimized = original /\ strategies = [])
    \/ (optimized <> original
        /\ (String.length original <= String.length optimized)%nat
        /\ strategies = ["clarity-enhancement"])
    \/ ((String.length optimized < String.length original)%nat
        /\ strategies = ["length-reduction"; "clarity-enhancement"]).
Proof.
  intros original optimized strategies.
  unfold strategies, PromptEngineer.getOptimizationStrategies.
  destruct (String.length optimized <? String.length original)%nat eqn:El.
  - apply Nat.ltb_lt in El. right. right. split; [exact El|].
    destruct (optimized =? original)%string eqn:Ee; [|reflexivity].
    apply String.eqb_eq in Ee. subst. lia.
  - apply Nat.ltb_ge in El.
    destruct (optimized =? original)%string eqn:Ee.
    + apply String.eqb_eq in Ee. left. split; [exact Ee|reflexivity].
    + apply String.eqb_neq in Ee. right. left. repeat split; assumption.
Qed.

Lemma sorted_head_is_greatest {A : Type} (key : A -> Q) (l : list A) (best : A)
  (rest : list A) :
  Js.sort (fun a b => key b - key a) l = best :: rest ->
  In best l /\ Forall (fun c => key c <= key best) l.
Proof.
  intros Hs.
  pose proof (sort_descending key l) as Hsorted. rewrite Hs in Hsorted.
  pose proof (sort_permutation (fun a b => key b - key a) l) as Hperm. rewrite Hs in Hperm.
  apply StronglySorted_inv in Hsorted. destruct Hsorted as [_ Hrest].
  split.
  - apply (Permutation_in _ Hperm). now left.
  - eapply Permutation_Forall; [exact Hperm|].
    constructor; [apply Qle_refl|exact Hrest].
Qed.



(** ** Ranges of the scores *)

Lemma matchScore_range (current historical : ScreenContext.t) :
  0 <= Contract.matchScore current historical
  /\ Contract.matchScore current historical <= 0.75.
Proof.
  unfold Contract.matchScore.
  destruct (EnvironmentType.eqb _ _), (ActivityType.eqb _ _), (String.eqb _ _);
    split; discriminate.
Qed.

Lemma recency_nonneg (current historical : ScreenContext.t) :
  0 <= Contract.recency current historical.
Proof. apply Q.le_max_l. Qed.

Lemma recency_at_most_one (current historical : ScreenContext.t) :
  (ScreenContext.timestamp historical <= ScreenContext.timestamp current)%Z ->
  Contract.recency current historical <= 1.
Proof.
  intros H. unfold Contract.recency. apply Q.max_lub; [discriminate|].
  assert (Hd : 0 <= inject_Z (ScreenContext.timestamp current
                              - ScreenContext.timestamp historical) / inject_Z 86400000).
  { apply Qle_shift_div_l; [reflexivity|].
    rewrite Qmult_0_l. change 0 with (inject_Z 0). rewrite <- Zle_Qle. lia. }
  set (d := inject_Z _ / inject_Z _) in *. lra.
Qed.

(** X21.  The relevance score of the Memory is never above 1, whatever
    the contexts; it is not negative when the confidence of the
    historical context is not negative. *)
Theorem memory_relevance_within_unit :
  forall current historical : ScreenContext.t,
    ContextMemory.calculateRelevanceScore current historical <= 1
    /\ (0 <= ScreenContext.confidence historical ->
        0 <= ContextMemory.calculateRelevanceScore current historical).
Proof.
  intros current historical.
  rewrite memory_score_is_contract. unfold Contract.relevance.
  split; [apply Q.le_min_l|].
  intros Hc. apply clamp_unit.
  pose proof (matchScore_range current historical) as [Hm _].
  pose proof (recency_nonneg current historical) as Hr.
  set (m := Contract.matchScore _ _) in *. set (r := Contract.recency _ _) in *.
  set (c := ScreenContext.confidence historical) in *. lra.
Qed.

Lemma memory_relevance_within_unit_witness :
  0 <= ScreenContext.confidence Sample.editingEarlier
  /\ 0 <= ContextMemory.calculateRelevanceScore Sample.editing Sample.editingEarlier
  /\ ContextMemory.calculateRelevanceScore Sample.editing Sample.editingEarlier <= 1.
Proof.
  assert (H : 0 <= ScreenContext.confidence Sample.editingEarlier) by discriminate.
  split; [exact H|]. split.
  - exact (proj2 (memory_relevance_within_unit Sample.editing Sample.editingEarlier) H).
  - exact (proj1 (memory_relevance_within_unit Sample.editing Sample.editingEarlier)).
Defined.

(** X22.  The historical relevance of the Synthesizer is never negative,
    whatever the contexts.  For a historical context that is not stamped
    after the current one it is at most 1 and at most the score of the
    current context against itself: only a snapshot from the future of
    the current context can score more than the current context. *)
Theorem synthesizer_relevance_within_unit :
  forall current historical : ScreenContext.t,
    0 <= ContextSynthesizer.calculateHistoricalRelevance current historical
    /\ ((ScreenContext.timestamp historical <= ScreenContext.timestamp current)%Z ->
        ContextSynthesizer.calculateHistoricalRelevance current historical <= 1
        /\ ContextSynthesizer.calculateHistoricalRelevance current historical
           <= ContextSynthesizer.calculateHistoricalRelevance current current).
Proof.
  intros current historical.
  rewrite identical_context_scores_one, synthesizer_score_formula.
  pose proof (matchScore_range current historical) as [Hm Hm'].
  pose proof (recency_nonneg current historical) as Hr.
  set (m := Contract.matchScore _ _) in *.
  split.
  - set (r := Contract.recency _ _) in *. lra.
  - intros Ht. pose proof (recency_at_most_one current historical Ht) as Hr'.
    set (r := Contract.recency _ _) in *. split; lra.
Qed.

Lemma synthesizer_relevance_within_unit_witness :
  (ScreenContext.timestamp Sample.editingEarlier <= ScreenContext.timestamp Sample.editing)%Z
  /\ 0 <= ContextSynthesizer.calculateHistoricalRelevance Sample.editing
            Sample.editingEarlier
  /\ ContextSynthesizer.calculateHistoricalRelevance Sample.editing Sample.editingEarlier
     <= 1.
Proof.
  assert (H : (ScreenContext.timestamp Sample.editingEarlier
               <= ScreenContext.timestamp Sample.editing)%Z) by discriminate.
  split; [exact H|]. split.
  - exact (proj1 (synthesizer_relevance_within_unit Sample.editing Sample.editingEarlier)).
  - exact (proj1 (proj2 (synthesizer_relevance_within_unit Sample.editing
                           Sample.editingEarlier) H)).
Defined.

(** X23.  A context that is five minutes old or older has timeliness 0,
    computed and reported. *)
Theorem timeliness_expires_after_five_minutes :
  forall (now : Z) (context : ScreenContext.t) (domainContext : DomainContext.t)
         (history : list ContextSnapshot.t),
    (300000 <= now - ScreenContext.timestamp context)%Z ->
    ContextSynthesizer.calculateTimeliness now context == 0
    /\ ContextQualityMetrics.timeliness
         (ContextSynthesizer.assessContextQuality now context domainContext history) == 0.
Proof.
  intros now context domainContext history Hage.
  assert (H : ContextSynthesizer.calculateTimeliness now context == 0).
  { unfold ContextSynthesizer.calculateTimeliness.
    change (5 * 60 * 1000)%Z with 300000%Z.
    apply Q.max_l.
    assert (Hd : 1 <= inject_Z (now - ScreenContext.timestamp context) / inject_Z 300000).
    { apply Qle_shift_div_l; [reflexivity|].
      rewrite Qmult_1_l. rewrite <- Zle_Qle. exact Hage. }
    set (d := inject_Z _ / inject_Z _) in *. lra. }
  split; [exact H|].
  unfold ContextSynthesizer.assessContextQuality.
  cbn [ContextQualityMetrics.timeliness]. rewrite H. reflexivity.
Qed.

Lemma timeliness_expires_after_five_minutes_witness :
  (300000 <= 1700043560000 - ScreenContext.timestamp MoreSamples.editingLater)%Z
  /\ ContextSynthesizer.calculateTimeliness 1700043560000 MoreSamples.editingLater == 0.
Proof.
  assert (H : (300000 <= 1700043560000
                         - ScreenContext.timestamp MoreSamples.editingLater)%Z)
    by discriminate.
  split; [exact H|].
  exact (proj1 (timeliness_expires_after_five_minutes 1700043560000
                  MoreSamples.editingLater Sample.generalDomain [] H)).
Defined.

(** ** Replacement texts *)

(** The replacement text [$&] puts every match back. *)
Lemma match_reference_is_identity (c : ascii) (p : string) :
  forall (n : nat) (s before : string),
    (String.length s <= n)%nat ->
    Js.replace_from (String c p) "$&" before 0 s = s.
Proof.
  induction n as [|n IH]; intros s before Hlen.
  - destruct s; [reflexivity|simpl in Hlen; lia].
  - destruct s as [|d r]; [reflexivity|].
    destruct (prefix (String c p) (String d r)) eqn:E.
    + pose proof (prefix_split _ _ E) as Hs.
      set (rest := Js.drop (String.length (String c p)) (String d r)) in *.
      rewrite Hs, replace_from_match.
      change (Js.getSubstitution (String c p) before rest "$&")
        with (String c p ++ "")%string.
      rewrite append_empty_r. f_equal. apply IH.
      rewrite Hs in Hlen. rewrite length_append in Hlen. simpl in Hlen. lia.
    + cbn [Js.replace_from]. rewrite E. f_equal. apply IH. simpl in Hlen. lia.
Qed.





(** ** The outcomes of a mined pattern *)

Lemma get_map_keys {K V : Type} (eqb : K -> K -> bool)
  (eqb_eq : forall a b, eqb a b = true <-> a = b) (f : K -> V) (keys : list K) (k : K) :
  In k keys -> Js.get eqb (map (fun k' => (k', f k')) keys) k = Some (f k).
Proof.
  induction keys as [|k0 r IH]; intros Hin; [destruct Hin|]. simpl.
  destruct (eqb k k0) eqn:E.
  - apply eqb_eq in E. now subst.
  - destruct Hin as [ -> | Hin ]; [rewrite (eqb_same eqb eqb_eq) in E; discriminate|].
    now apply IH.
Qed.

Lemma statsOf_snoc_same (outcomes : list ContextOutcome.t) (o : ContextOutcome.t) :
  Reference.statsOf (outcomes ++ [o]) (ContextOutcome.metric o)
  = Reference.addToStats (Reference.statsOf outcomes (ContextOutcome.metric o)) o.
Proof.
  unfold Reference.statsOf, Reference.withMetric.
  rewrite filter_app. simpl filter. rewrite String.eqb_refl.
  now rewrite fold_left_app.
Qed.

Lemma statsOf_snoc_other (outcomes : list ContextOutcome.t) (o : ContextOutcome.t)
  (metric : string) :
  metric <> ContextOutcome.metric o ->
  Reference.statsOf (outcomes ++ [o]) metric = Reference.statsOf outcomes metric.
Proof.
  intros Hne. unfold Reference.statsOf, Reference.withMetric.
  rewrite filter_app. simpl filter.
  rewrite (proj2 (String.eqb_neq _ _)) by congruence.
  now rewrite app_nil_r.
Qed.

Lemma withMetric_absent (outcomes : list ContextOutcome.t) (metric : string) :
  ~ In metric (map ContextOutcome.metric outcomes) ->
  Reference.withMetric metric outcomes = [].
Proof.
  intros Hnot. unfold Reference.withMetric.
  induction outcomes as [|o r IH]; [reflexivity|]. simpl.
  rewrite (proj2 (String.eqb_neq _ _)).
  - apply IH. intros H. apply Hnot. now right.
  - intros E. apply Hnot. left. exact E.
Qed.

(** The table of running totals has the metrics in the order of their
    first occurrence, each with the totals of its outcomes. *)
Lemma outcome_table_characterized (outcomes : list ContextOutcome.t) :
  fold_left ContextMemory.addOutcome outcomes []
  = map (fun metric => (metric, Reference.statsOf outcomes metric))
      (Reference.firstOccurrences String.eqb (map ContextOutcome.metric outcomes)).
Proof.
  induction outcomes as [|o outcomes IH] using rev_ind; [reflexivity|].
  rewrite fold_left_app, IH. simpl fold_left.
  rewrite map_app. simpl map. rewrite (firstOccurrences_snoc String.eqb).
  set (F := Reference.firstOccurrences String.eqb (map ContextOutcome.metric outcomes)).
  assert (Hnd : NoDup F) by apply (firstOccurrences_NoDup String.eqb String.eqb_eq).
  unfold ContextMemory.addOutcome, Reference.addKey.
  rewrite (has_existsb String.eqb), map_map. simpl. rewrite map_id.
  destruct (existsb (String.eqb (ContextOutcome.metric o)) F) eqn:E.
  - assert (Hin : In (ContextOutcome.metric o) F)
      by (apply (existsb_In String.eqb String.eqb_eq); exact E).
    rewrite (get_map_keys String.eqb String.eqb_eq (Reference.statsOf outcomes) F _ Hin).
    fold (Reference.addToStats (Reference.statsOf outcomes (ContextOutcome.metric o)) o).
    rewrite <- statsOf_snoc_same.
    apply (set_map_present String.eqb String.eqb_eq (Reference.statsOf outcomes)
             (Reference.statsOf (outcomes ++ [o])));
      [exact Hnd|exact Hin|].
    intros k' Hne. now apply statsOf_snoc_other.
  - assert (Hout : ~ In (ContextOutcome.metric o) F).
    { intros H. apply (existsb_In String.eqb String.eqb_eq) in H. congruence. }
    rewrite (get_set_same String.eqb String.eqb_eq), (set_set String.eqb String.eqb_eq).
    rewrite (set_absent String.eqb) by (rewrite map_map; simpl; rewrite map_id; exact E).
    rewrite map_app. simpl map. f_equal.
    + apply map_ext_in. intros k' Hk'. f_equal. symmetry.
      apply statsOf_snoc_other. intros ->. contradiction.
    + rewrite statsOf_snoc_same. unfold Reference.statsOf.
      rewrite withMetric_absent; [reflexivity|].
      intros H. apply Hout. apply (firstOccurrences_In String.eqb String.eqb_eq). exact H.
Qed.

Lemma outcome_table_of_snapshots (snapshots : list ContextSnapshot.t)
  (table : list (string * ContextMemory.Stats)) :
  fold_left (fun m s => fold_left ContextMemory.addOutcome (ContextSnapshot.outcomes s) m)
    snapshots table
  = fold_left ContextMemory.addOutcome (Reference.outcomesOf snapshots) table.
Proof.
  revert table. induction snapshots as [|s r IH]; intros table; [reflexivity|].
  simpl. rewrite fold_left_app. apply IH.
Qed.

Lemma totals_of_stats (recorded : list ContextOutcome.t) :
  let stats :=
    fold_left Reference.addToStats recorded
      {| ContextMemory.count := 0; ContextMemory.successes := 0;
         ContextMemory.totalValue := 0 |} in
  ContextMemory.count stats = List.length recorded
  /\ ContextMemory.successes stats = List.length (filter ContextOutcome.success recorded)
  /\ ContextMemory.totalValue stats = Reference.sumOfValues recorded.
Proof.
  induction recorded as [|o recorded IH] using rev_ind; [repeat split|].
  cbv zeta in *. destruct IH as (Hc & Hs & Ht).
  unfold Reference.sumOfValues. rewrite !fold_left_app, filter_app, !length_app.
  simpl fold_left. cbn [Reference.addToStats ContextMemory.count ContextMemory.successes
                        ContextMemory.totalValue].
  rewrite Hc, Hs, Ht. split; [reflexivity|]. split; [|reflexivity].
  simpl filter. destruct (ContextOutcome.success o); simpl; lia.
Qed.

Lemma filter_length_le {A : Type} (f : A -> bool) (l : list A) :
  (List.length (filter f l) <= List.length l)%nat.
Proof. induction l as [|a l IH]; simpl; [lia|destruct (f a); simpl; lia]. Qed.

(** X26.  The outcomes of a mined pattern have one entry per metric
    recorded in its snapshots, in the order of first occurrence: the
    number of outcomes with the metric, the share of them that
    succeeded and their mean value.  No entry has frequency 0, so no
    rate divides by zero, and every success rate lies between 0 and
    1. *)
Theorem common_outcomes_tally_the_metrics :
  forall snapshots : list ContextSnapshot.t,
    let recorded := Reference.outcomesOf snapshots in
    ContextMemory.extractCommonOutcomes snapshots
    = map (Reference.tally recorded)
        (Reference.firstOccurrences String.eqb (map ContextOutcome.metric recorded))
    /\ NoDup (map PatternOutcome.pattern (ContextMemory.extractCommonOutcomes snapshots))
    /\ Forall (fun entry =>
                 (1 <= PatternOutcome.frequency entry)%nat
                 /\ 0 <= PatternOutcome.successRate entry
                 /\ PatternOutcome.successRate entry <= 1)
         (ContextMemory.extractCommonOutcomes snapshots).
Proof.
  intros snapshots recorded.
  assert (H : ContextMemory.extractCommonOutcomes snapshots
              = map (Reference.tally recorded)
                  (Reference.firstOccurrences String.eqb
                     (map ContextOutcome.metric recorded))).
  { unfold ContextMemory.extractCommonOutcomes.
    rewrite outcome_table_of_snapshots. fold recorded.
    rewrite outcome_table_characterized, map_map.
    apply map_ext. intros metric.
    destruct (totals_of_stats (Reference.withMetric metric recorded)) as (Hc & Hs & Ht).
    unfold Reference.tally, Reference.statsOf. cbv zeta.
    rewrite Hc, Hs, Ht. reflexivity. }
  split; [exact H|]. rewrite H. split.
  - rewrite map_map. cbn [Reference.tally PatternOutcome.pattern]. rewrite map_id.
    apply (firstOccurrences_NoDup String.eqb String.eqb_eq).
  - apply Forall_map, Forall_forall. intros metric Hin.
    apply (proj1 (firstOccurrences_In String.eqb String.eqb_eq _ _)) in Hin.
    apply in_map_iff in Hin. destruct Hin as [o [Ho Hin]].
    cbn [Reference.tally PatternOutcome.frequency PatternOutcome.successRate].
    assert (Hpos : (0 < List.length (Reference.withMetric metric recorded))%nat).
    { unfold Reference.withMetric.
      apply (filter_nonempty_of_member _ _ o Hin). apply String.eqb_eq, Ho. }
    pose proof (filter_length_le ContextOutcome.success
                  (Reference.withMetric metric recorded)) as Hle.
    set (n := List.length (Reference.withMetric metric recorded)) in *.
    set (k := List.length (filter _ _)) in *.
    assert (Hn : 0 < inject_Z (Z.of_nat n)).
    { change 0 with (inject_Z 0). rewrite <- Zlt_Qlt. lia. }
    split; [lia|]. split.
    + apply Qle_shift_div_l; [exact Hn|]. rewrite Qmult_0_l.
      change 0 with (inject_Z 0). rewrite <- Zle_Qle. lia.
    + apply Qle_shift_div_r; [exact Hn|]. rewrite Qmult_1_l.
      rewrite <- Zle_Qle. lia.
Qed.

(** ** Code detection *)

Lemma matches_prefix_unfold (r : Regex.t) (s : string) :
  Regex.matches_prefix r s
  = Regex.nullable r
    || match s with
       | EmptyString => false
       | String c s' => Regex.matches_prefix (Regex.deriv c r) s'
       end.
Proof. destruct s; reflexivity. Qed.

Lemma test_unfold (r : Regex.t) (s : string) :
  Regex.test r s
  = Regex.matches_prefix r s
    || match s with
       | EmptyString => false
       | String _ s' => Regex.test r s'
       end.
Proof. destruct s; reflexivity. Qed.

Lemma matches_prefix_append (s after : string) :
  forall r : Regex.t,
    Regex.matches_prefix r s = true -> Regex.matches_prefix r (s ++ after) = true.
Proof.
  induction s as [|c s IH]; intros r H; rewrite matches_prefix_unfold in H;
    rewrite matches_prefix_unfold; apply orb_true_iff in H; apply orb_true_iff.
  - destruct H as [H|H]; [now left|discriminate].
  - destruct H as [H|H]; [now left|]. right. apply IH, H.
Qed.

Lemma test_append (r : Regex.t) (s after : string) :
  Regex.test r s = true -> Regex.test r (s ++ after) = true.
Proof.
  induction s as [|c s IH]; intros H; rewrite test_unfold in H;
    rewrite test_unfold; apply orb_true_iff in H; apply orb_true_iff.
  - destruct H as [H|H]; [|discriminate]. left.
    apply (matches_prefix_append "" after r H).
  - destruct H as [H|H].
    + left. apply (matches_prefix_append (String c s) after r H).
    + right. apply IH, H.
Qed.

Lemma test_prepend (r : Regex.t) (before s : string) :
  Regex.test r s = true -> Regex.test r (before ++ s) = true.
Proof.
  intros H. induction before as [|c before IH]; [exact H|].
  change (String c before ++ s)%string with (String c (before ++ s)).
  rewrite test_unfold. apply orb_true_iff. right. exact IH.
Qed.

Lemma covers_nullable (r r' : Regex.t) :
  RegexReference.covers r r' -> Regex.nullable r = true -> Regex.nullable r' = true.
Proof.
  induction 1 as [r'|
                  |p q Hpq
                  |a b a' b' Ha IHa Hb IHb
                  |a b a' b' Ha IHa Hb IHb
                  |r a' b' Hr IHr
                  |a a' Ha IHa]; simpl; intros H; try discriminate; try reflexivity.
  - apply andb_prop in H. destruct H as [H1 H2]. now rewrite IHa, IHb.
  - apply orb_true_iff in H. apply orb_true_iff.
    destruct H as [H|H]; [left; now apply IHa|right; now apply IHb].
  - apply orb_true_iff. left. now apply IHr.
Qed.

Lemma covers_deriv (c : ascii) (r r' : Regex.t) :
  RegexReference.covers r r' ->
  RegexReference.covers (Regex.deriv c r) (Regex.deriv (Js.lower_char c) r').
Proof.
  induction 1 as [r'|
                  |p q Hpq
                  |a b a' b' Ha IHa Hb IHb
                  |a b a' b' Ha IHa Hb IHb
                  |r a' b' Hr IHr
                  |a a' Ha IHa]; simpl.
  - constructor.
  - constructor.
  - destruct (p c) eqn:E; [|constructor]. rewrite (Hpq c E). constructor.
  - destruct (Regex.nullable a) eqn:En.
    + rewrite (covers_nullable a a' Ha En).
      apply RegexReference.covers_alt; [|exact IHb].
      apply RegexReference.covers_seq; assumption.
    + destruct (Regex.nullable a').
      * apply RegexReference.covers_alt_l, RegexReference.covers_seq; assumption.
      * apply RegexReference.covers_seq; assumption.
  - apply RegexReference.covers_alt; assumption.
  - apply RegexReference.covers_alt_l; assumption.
  - apply RegexReference.covers_seq; [exact IHa|].
    apply RegexReference.covers_star; exact Ha.
Qed.

Lemma matches_prefix_lowered (s : string) :
  forall r r' : Regex.t,
    RegexReference.covers r r' ->
    Regex.matches_prefix r s = true ->
    Regex.matches_prefix r' (Js.toLowerCase s) = true.
Proof.
  induction s as [|c s IH]; intros r r' Hc H; rewrite matches_prefix_unfold in H;
    rewrite matches_prefix_unfold; apply orb_true_iff in H; apply orb_true_iff.
  - destruct H as [H|H]; [|discriminate]. left. apply (covers_nullable r r' Hc H).
  - destruct H as [H|H]; [left; apply (covers_nullable r r' Hc H)|].
    right. cbn [Js.toLowerCase]. apply (IH _ _ (covers_deriv c r r' Hc) H).
Qed.

Lemma test_lowered (r : Regex.t) (s : string) :
  RegexReference.covers r r ->
  Regex.test r s = true -> Regex.test r (Js.toLowerCase s) = true.
Proof.
  intros Hc. induction s as [|c s IH]; intros H; rewrite test_unfold in H;
    rewrite test_unfold; apply orb_true_iff in H; apply orb_true_iff.
  - destruct H as [H|H]; [|discriminate]. left.
    apply (matches_prefix_lowered "" r r Hc H).
  - destruct H as [H|H].
    + left. apply (matches_prefix_lowered (String c s) r r Hc H).
    + right. apply IH, H.
Qed.

Lemma isSpace_lowered (c : ascii) : Js.isSpace c = true -> Js.isSpace (Js.lower_char c) = true.
Proof.
  destruct c as [[] [] [] [] [] [] [] []]; intros H; try reflexivity; discriminate H.
Qed.

Lemma isWord_lowered (c : ascii) : Js.isWord c = true -> Js.isWord (Js.lower_char c) = true.
Proof.
  destruct c as [[] [] [] [] [] [] [] []]; intros H; try reflexivity; discriminate H.
Qed.

Lemma dot_lowered (c : ascii) :
  negb ((Js.code c =? 10) || (Js.code c =? 13))%nat = true ->
  negb ((Js.code (Js.lower_char c) =? 10) || (Js.code (Js.lower_char c) =? 13))%nat = true.
Proof.
  destruct c as [[] [] [] [] [] [] [] []]; intros H; try reflexivity; discriminate H.
Qed.

(** The literals of the eight expressions are in lower case, and the
    classes [\s], [\w] and [.] are closed under lower-casing. *)
Lemma codeIndicators_cover_themselves :
  Forall (fun r => RegexReference.covers r r) ContextAnalyzer.codeIndicators.
Proof.
  cbv [ContextAnalyzer.codeIndicators Regex.seq Regex.lit Regex.Plus Regex.Opt Regex.Chr
       Regex.space Regex.word Regex.dot].
  repeat first
    [ apply Forall_cons | apply Forall_nil
    | apply RegexReference.covers_seq | apply RegexReference.covers_alt
    | apply RegexReference.covers_star | apply RegexReference.covers_eps
    | apply RegexReference.covers_class ];
    first [ exact isSpace_lowered | exact isWord_lowered | exact dot_lowered
          | intros c H; apply Ascii.eqb_eq in H; subst c; reflexivity ].
Qed.

Lemma isCodeContent_lowered (text : string) :
  ContextAnalyzer.isCodeContent text = true ->
  ContextAnalyzer.isCodeContent (Js.toLowerCase text) = true.
Proof.
  unfold ContextAnalyzer.isCodeContent. rewrite !existsb_exists.
  intros [r [Hin H]]. exists r. split; [exact Hin|].
  apply test_lowered; [|exact H].
  pose proof codeIndicators_cover_themselves as Hall.
  rewrite Forall_forall in Hall. apply Hall, Hin.
Qed.

(** X27.  Whenever the intent analysis suggests the action
    [analyze-code], the activity of the same analysis is coding: the
    intent looks at the selection as typed and the activity at the
    selection in lower case, and the eight code expressions match the
    lower-cased text wherever they match the text. *)
Theorem suggested_code_analysis_implies_coding :
  forall (self : ContextAnalyzer.t) (contextId : string) (now : Z)
         (screenshots : list string)
         (additionalData : option ContextAnalyzer.AdditionalData.t),
    let context :=
      fst (ContextAnalyzer.analyzeScreenContext self contextId now screenshots
             additionalData) in
    IntentAnalysis.suggestedActions (ScreenContext.userIntent context) <> [] ->
    ScreenContext.activity context = ActivityType.coding
    /\ map SuggestedAction.action
         (IntentAnalysis.suggestedActions (ScreenContext.userIntent context))
       = ["analyze-code"].
Proof.
  intros self contextId now screenshots additionalData context.
  unfold context, ContextAnalyzer.analyzeScreenContext.
  cbn [fst ScreenContext.userIntent ScreenContext.activity].
  unfold ContextAnalyzer.analyzeUserIntent, ContextAnalyzer.categorizeUserActivity.
  cbn [IntentAnalysis.suggestedActions].
  destruct (ContextAnalyzer.field ContextAnalyzer.AdditionalData.selectedText additionalData)
    as [selected|]; [|intros H; exfalso; apply H; reflexivity].
  cbn [Js.truthy_opt ContextAnalyzer.orElse ContextAnalyzer.lowered].
  destruct (Js.truthy selected); [|intros H; exfalso; apply H; reflexivity].
  cbn [andb].
  destruct (ContextAnalyzer.isCodeContent selected) eqn:E;
    [|intros H; exfalso; apply H; reflexivity].
  intros _. rewrite (isCodeContent_lowered selected E). split; reflexivity.
Qed.

Lemma suggested_code_analysis_implies_coding_witness :
  IntentAnalysis.suggestedActions
    (ScreenContext.userIntent
       (fst (ContextAnalyzer.analyzeScreenContext Sample.idleAnalyzer "ctx-7" 1700043200000
               [] (Some MoreSamples.codeSelected)))) <> []
  /\ ScreenContext.activity
       (fst (ContextAnalyzer.analyzeScreenContext Sample.idleAnalyzer "ctx-7" 1700043200000
               [] (Some MoreSamples.codeSelected)))
     = ActivityType.coding.
Proof.
  assert (H : IntentAnalysis.suggestedActions
                (ScreenContext.userIntent
                   (fst (ContextAnalyzer.analyzeScreenContext Sample.idleAnalyzer "ctx-7"
                           1700043200000 [] (Some MoreSamples.codeSelected)))) <> [])
    by (vm_compute; discriminate).
  split; [exact H|].
  exact (proj1 (suggested_code_analysis_implies_coding Sample.idleAnalyzer "ctx-7"
                  1700043200000 [] (Some MoreSamples.codeSelected) H)).
Defined.

(** The converse fails: code typed in capitals makes the activity
    coding, and no action is suggested. *)
Example coding_without_suggested_analysis :
  let context :=
    fst (ContextAnalyzer.analyzeScreenContext Sample.idleAnalyzer "ctx-8" 1700043200000
           [] (Some MoreSamples.capitalsSelected)) in
  ScreenContext.activity context = ActivityType.coding
  /\ IntentAnalysis.suggestedActions (ScreenContext.userIntent context) = [].
Proof. split; vm_compute; reflexivity. Qed.

(** X28.  Code detection looks for a fragment anywhere in the text: a
    text that is detected as code is still detected with any text before
    and after it. *)
Theorem code_is_detected_inside_any_text :
  forall text before after : string,
    ContextAnalyzer.isCodeContent text = true ->
    ContextAnalyzer.isCodeContent (before ++ text ++ after) = true.
Proof.
  intros text before after. unfold ContextAnalyzer.isCodeContent.
  rewrite !existsb_exists. intros [r [Hin H]]. exists r. split; [exact Hin|].
  apply test_prepend, test_append, H.
Qed.

Lemma code_is_detected_inside_any_text_witness :
  ContextAnalyzer.isCodeContent "const total = 0"
  = true
  /\ ContextAnalyzer.isCodeContent ("see: " ++ "const total = 0" ++ "; // sum") = true.
Proof.
  assert (H : ContextAnalyzer.isCodeContent "const total = 0" = true) by reflexivity.
  split; [exact H|].
  exact (code_is_detected_inside_any_text "const total = 0" "see: " "; // sum" H).
Defined.

(** ** The cleaning stages of the optimization *)

Lemma takeWhile_length (p : ascii -> bool) (s : string) :
  (String.length (PromptEngineer.takeWhile p s) <= String.length s)%nat.
Proof. induction s as [|c s IH]; simpl; [lia|destruct (p c); simpl; lia]. Qed.

Lemma dropWhile_length (p : ascii -> bool) (s : string) :
  (String.length (PromptEngineer.dropWhile p s) <= String.length s)%nat.
Proof. induction s as [|c s IH]; simpl; [lia|destruct (p c); simpl; lia]. Qed.

Lemma removeRedundancy_from_length (s : string) :
  forall (previousIsWord : bool) (skip : nat),
    (String.length (PromptEngineer.removeRedundancy_from previousIsWord skip s)
     <= String.length s - Nat.min skip (String.length s))%nat.
Proof.
  induction s as [|c r IH]; intros previousIsWord skip; [simpl; lia|].
  destruct skip as [|k].
  - cbn [PromptEngineer.removeRedundancy_from].
    pose proof (takeWhile_length Js.isWord (String c r)) as Hfirst.
    set (first := PromptEngineer.takeWhile Js.isWord (String c r)) in *.
    set (gap := PromptEngineer.takeWhile Js.isSpace _).
    match goal with |- context [if ?b then _ else _] => destruct b end.
    + rewrite length_append.
      specialize (IH true (String.length first + String.length gap + String.length first - 1)%nat).
      cbn [String.length] in *. lia.
    + specialize (IH (Js.isWord c) 0%nat). cbn [String.length] in *. lia.
  - cbn [PromptEngineer.removeRedundancy_from].
    specialize (IH (Js.isWord c) k). cbn [String.length]. lia.
Qed.

Lemma removeRedundancy_length (prompt : string) :
  (String.length (PromptEngineer.removeRedundancy prompt) <= String.length prompt)%nat.
Proof.
  unfold PromptEngineer.removeRedundancy.
  pose proof (removeRedundancy_from_length prompt false 0). lia.
Qed.

Lemma collapseSpaces_length (s : string) :
  forall inRun : bool,
    (String.length (PromptEngineer.collapseSpaces inRun s) <= String.length s)%nat.
Proof.
  induction s as [|c s IH]; intros inRun; simpl; [lia|].
  destruct (Js.isSpace c); [destruct inRun|]; simpl;
    [specialize (IH true)|specialize (IH true)|specialize (IH false)]; lia.
Qed.

Lemma trimEnd_length (s : string) :
  (String.length (PromptEngineer.trimEnd s) <= String.length s)%nat.
Proof.
  induction s as [|c s IH]; simpl; [lia|].
  destruct (Js.isSpace c && (PromptEngineer.trimEnd s =? "")%string); simpl; lia.
Qed.

Lemma enhanceClarity_length (prompt : string) :
  (String.length (PromptEngineer.enhanceClarity prompt) <= String.length prompt)%nat.
Proof.
  unfold PromptEngineer.enhanceClarity, PromptEngineer.trim.
  pose proof (trimEnd_length
                (PromptEngineer.dropWhile Js.isSpace
                   (PromptEngineer.collapseSpaces false prompt))).
  pose proof (dropWhile_length Js.isSpace (PromptEngineer.collapseSpaces false prompt)).
  pose proof (collapseSpaces_length prompt false). lia.
Qed.

Lemma applyLengthConstraints_length (prompt : string) (template : PromptTemplate.t) :
  PromptEngineer.applyLengthConstraints prompt template = prompt
  \/ ((500 < String.length prompt)%nat
      /\ String.length (PromptEngineer.applyLengthConstraints prompt template) = 503%nat).
Proof.
  unfold PromptEngineer.applyLengthConstraints.
  destruct (find _ (PromptTemplate.constraints template)) as [c|]; [|now left].
  destruct (TemplateConstraint.constraint c =? "concise")%string; [|now left].
  cbn [andb]. destruct (500 <? String.length prompt)%nat eqn:E; [|now left].
  apply Nat.ltb_lt in E. right. split; [exact E|].
  unfold Js.substring0. rewrite length_append, substring_length.
  change (String.length "...") with 3%nat. lia.
Qed.


(** A second optimization can still change the text: of three equal
    words the first pass removes one. *)
Example removeRedundancy_is_not_idempotent :
  PromptEngineer.removeRedundancy "the the the" = "the the"
  /\ PromptEngineer.removeRedundancy "the the" = "the".
Proof. split; reflexivity. Qed.

Lemma tidy_collapseSpaces (s : string) :
  forall inRun : bool,
    PromptReference.tidy inRun (PromptEngineer.collapseSpaces inRun s) = true.
Proof.
  induction s as [|c s IH]; intros inRun; [reflexivity|]. simpl.
  destruct (Js.isSpace c) eqn:E.
  - destruct inRun; [apply IH|]. simpl. apply IH.
  - simpl. rewrite E. apply IH.
Qed.

Lemma collapseSpaces_tidy (s : string) :
  forall inRun : bool,
    PromptReference.tidy inRun s = true -> PromptEngineer.collapseSpaces inRun s = s.
Proof.
  induction s as [|c s IH]; intros inRun H; [reflexivity|]. simpl in *.
  destruct (Js.isSpace c).
  - apply andb_prop in H. destruct H as [H Hs].
    apply andb_prop in H. destruct H as [Hc Hb].
    apply Ascii.eqb_eq in Hc. apply negb_true_iff in Hb. subst.
    now rewrite (IH true Hs).
  - now rewrite (IH false H).
Qed.

Lemma tidy_dropWhile (s : string) :
  forall inRun : bool,
    PromptReference.tidy inRun s = true ->
    PromptReference.tidy false (PromptEngineer.dropWhile Js.isSpace s) = true.
Proof.
  induction s as [|c s IH]; intros inRun H; [reflexivity|]. simpl in *.
  destruct (Js.isSpace c) eqn:E.
  - apply andb_prop in H. destruct H as [_ Hs]. apply (IH true Hs).
  - simpl. rewrite E. exact H.
Qed.

Lemma tidy_trimEnd (s : string) :
  forall inRun : bool,
    PromptReference.tidy inRun s = true ->
    PromptReference.tidy inRun (PromptEngineer.trimEnd s) = true.
Proof.
  induction s as [|c s IH]; intros inRun H; [reflexivity|]. simpl in *.
  destruct (Js.isSpace c) eqn:E.
  - apply andb_prop in H. destruct H as [H Hs].
    destruct (PromptEngineer.trimEnd s =? "")%string; [reflexivity|].
    simpl. rewrite E, H. apply (IH true Hs).
  - simpl. rewrite E. apply (IH false H).
Qed.

Lemma trimEnd_trimEnd (s : string) :
  PromptEngineer.trimEnd (PromptEngineer.trimEnd s) = PromptEngineer.trimEnd s.
Proof.
  induction s as [|c s IH]; [reflexivity|]. simpl.
  destruct (Js.isSpace c && (PromptEngineer.trimEnd s =? "")%string) eqn:E; [reflexivity|].
  simpl. rewrite IH, E. reflexivity.
Qed.

Lemma dropWhile_trim (s : string) :
  PromptEngineer.dropWhile Js.isSpace (PromptEngineer.trim s) = PromptEngineer.trim s.
Proof.
  unfold PromptEngineer.trim. induction s as [|c s IH]; [reflexivity|]. simpl.
  destruct (Js.isSpace c) eqn:E; [exact IH|].
  simpl. rewrite E. simpl. now rewrite E.
Qed.

Lemma trim_trim (s : string) : PromptEngineer.trim (PromptEngineer.trim s) = PromptEngineer.trim s.
Proof.
  unfold PromptEngineer.trim at 1. rewrite dropWhile_trim.
  unfold PromptEngineer.trim. apply trimEnd_trimEnd.
Qed.

Lemma trimEnd_no_final_space (s : string) :
  PromptReference.endsWithSpace (PromptEngineer.trimEnd s) = false.
Proof.
  induction s as [|c s IH]; [reflexivity|]. simpl.
  destruct (Js.isSpace c) eqn:E.
  - destruct (PromptEngineer.trimEnd s) as [|d r] eqn:Et; [reflexivity|].
    simpl andb. cbv iota. cbn [PromptReference.endsWithSpace]. exact IH.
  - simpl andb. cbv iota.
    destruct (PromptEngineer.trimEnd s) as [|d r] eqn:Et.
    + simpl. exact E.
    + cbn [PromptReference.endsWithSpace]. exact IH.
Qed.

Lemma trim_trimmed (s : string) : PromptReference.trimmed (PromptEngineer.trim s) = true.
Proof.
  pose proof (dropWhile_trim s) as Hd.
  pose proof (trimEnd_no_final_space (PromptEngineer.dropWhile Js.isSpace s)) as He.
  fold (PromptEngineer.trim s) in He.
  destruct (PromptEngineer.trim s) as [|c r]; [reflexivity|].
  unfold PromptReference.trimmed. rewrite He.
  simpl in Hd. destruct (Js.isSpace c); [|reflexivity].
  exfalso. pose proof (dropWhile_length Js.isSpace r) as Hl.
  rewrite Hd in Hl. simpl in Hl. lia.
Qed.

(** X30.  Normalizing the whitespace gives a text that neither starts
    nor ends with whitespace and whose only whitespace is single spaces
    between other characters, and leaves such a text as it is:
    normalizing twice is normalizing once. *)
Theorem whitespace_normalization_is_idempotent :
  forall prompt : string,
    PromptReference.tidy false (PromptEngineer.enhanceClarity prompt) = true
    /\ PromptReference.trimmed (PromptEngineer.enhanceClarity prompt) = true
    /\ PromptEngineer.enhanceClarity (PromptEngineer.enhanceClarity prompt)
       = PromptEngineer.enhanceClarity prompt.
Proof.
  intros prompt.
  assert (Ht : PromptReference.tidy false (PromptEngineer.enhanceClarity prompt) = true).
  { unfold PromptEngineer.enhanceClarity, PromptEngineer.trim.
    apply tidy_trimEnd, (tidy_dropWhile _ false), tidy_collapseSpaces. }
  split; [exact Ht|]. split; [apply trim_trimmed|].
  unfold PromptEngineer.enhanceClarity at 1.
  rewrite (collapseSpaces_tidy _ false Ht).
  unfold PromptEngineer.enhanceClarity. apply trim_trim.
Qed.
